(** * Prediction-serving contract of the health-insurance MLOps pipeline

    A shallow embedding of [app/api.py], [src/utils.py], [src/predict.py] and of
    the control skeleton of [src/preprocessing.py], and the properties of the
    serving contract proved on it.

    Python code becomes a computation in a small monad [py]: it threads a world
    (metrics, log records, clock) and finishes in one of three ways, the way a
    Python statement does: it runs on to the next statement, it executes
    [return], or it raises. Side effects made before a [raise] stay in the
    world. *)

From Stdlib Require Import ZArith List String Ascii Bool Arith Lia Floats.
Import ListNotations.
Set Warnings "-inexact-float".
Local Open Scope string_scope.
Local Open Scope list_scope.

(* ================================================================== *)
(** * Part I. The embedding *)
(* ================================================================== *)

(** ** Strings

    A Python [str] is modelled by its UTF-8 bytes. [lower] maps the letters
    A-Z to a-z and leaves every other byte alone. Python's [str.lower] also
    rewrites non-ASCII letters, but its result is then never one of the
    all-ASCII names the validators compare against (the only non-ASCII
    character whose lower case is plain ASCII is the Kelvin sign, which gives
    the letter k, and no accepted name contains a k), so accept/reject and the
    returned value coincide. *)

Definition is_upper (c : ascii) : bool :=
  (65 <=? nat_of_ascii c)%nat && (nat_of_ascii c <=? 90)%nat.

Definition lower_char (c : ascii) : ascii :=
  if is_upper c then ascii_of_nat (nat_of_ascii c + 32) else c.

Fixpoint lower (s : string) : string :=
  match s with
  | EmptyString => EmptyString
  | String c s' => String (lower_char c) (lower s')
  end.

(** [x in xs] for a list of strings. *)
Definition str_in (x : string) (xs : list string) : bool :=
  existsb (String.eqb x) xs.

(** Decimal rendering with a fixed number of digits, as [%02d], [%04d] and
    [%06d] give it for a number that fits. *)
Definition digit (n : nat) : ascii := ascii_of_nat (48 + n mod 10).

Fixpoint zero_padded (width n : nat) : string :=
  match width with
  | O => EmptyString
  | S w => String (digit (n / 10 ^ w)) (zero_padded w n)
  end.

(** [str(n)] for a natural number. *)
Fixpoint decimal_fuel (fuel n : nat) (acc : string) : string :=
  match fuel with
  | O => acc
  | S f =>
      let acc' := String (digit n) acc in
      if (n <? 10)%nat then acc' else decimal_fuel f (n / 10) acc'
  end.

Definition decimal (n : nat) : string := decimal_fuel (S n) n EmptyString.

(** ** Exceptions

    The instances of [Exception] the code raises, catches or can be handed by
    the model. [ValueError] stands for the class and its subclasses (what
    [except ValueError] catches); [OtherError] is any other subclass of
    [Exception], named by its class. *)

Inductive exn : Type :=
| ValueError (msg : string)
| TypeError (msg : string)
| IndexError (msg : string)
| NameError (msg : string)
| HTTPException (status_code : nat) (detail : string)
| OtherError (cls : string) (msg : string).

(** [str(e)]. *)
Definition str (e : exn) : string :=
  match e with
  | ValueError m | TypeError m | IndexError m | NameError m => m
  | HTTPException c d => decimal c ++ ": " ++ d
  | OtherError _ m => m
  end.

(** [isinstance(e, ValueError)] and [isinstance(e, Exception)]. *)
Definition is_ValueError (e : exn) : bool :=
  match e with ValueError _ => true | _ => false end.

Definition is_Exception (_ : exn) : bool := true.

(** ** The monad of Python computations *)

Section Py.

Context {W : Type}.

(** How a statement finishes. [Returned None] is [return None]. *)
Inductive completion (R A : Type) : Type :=
| Normal (a : A)
| Returned (r : option R)
| Raised (e : exn).

Arguments Normal {R A} a.
Arguments Returned {R A} r.
Arguments Raised {R A} e.

Definition py (R A : Type) : Type := W -> completion R A * W.

Definition ret {R A} (a : A) : py R A := fun w => (Normal a, w).

Definition bind {R A B} (c : py R A) (k : A -> py R B) : py R B :=
  fun w =>
    match c w with
    | (Normal a, w') => k a w'
    | (Returned r, w') => (Returned r, w')
    | (Raised e, w') => (Raised e, w')
    end.

(** [return v] and [raise e]. *)
Definition return_ {R A} (v : R) : py R A := fun w => (Returned (Some v), w).
Definition return_value {R A} (v : option R) : py R A := fun w => (Returned v, w).
Definition raise {R A} (e : exn) : py R A := fun w => (Raised e, w).

(** An expression that evaluates to a value or raises. *)
Definition lift {R A} (x : exn + A) : py R A :=
  match x with inl e => raise e | inr a => ret a end.

(** A read and an update of the world. *)
Definition gets {R A} (f : W -> A) : py R A := fun w => (Normal (f w), w).
Definition modify {R} (f : W -> W) : py R unit := fun w => (Normal tt, f w).

(** [try: body except C1 as e: h1 ... except Cn as e: hn]: the first clause
    whose class test accepts the exception runs; an exception no clause
    accepts goes on up. *)
Fixpoint handle {R A} (e : exn) (clauses : list ((exn -> bool) * (exn -> py R A)))
  : py R A :=
  match clauses with
  | [] => raise e
  | (catches, handler) :: rest =>
      if catches e then handler e else handle e rest
  end.

Definition try_except {R A} (body : py R A)
  (clauses : list ((exn -> bool) * (exn -> py R A))) : py R A :=
  fun w =>
    match body w with
    | (Raised e, w') => handle e clauses w'
    | done => done
    end.

(** [with cm: body], for a context manager whose [__exit__] runs [on_exit]
    and does not swallow the exception: [on_exit] runs however [body]
    finishes, and [body]'s completion stands. *)
Definition with_exit {R A} (body : py R A) (on_exit : W -> W) : py R A :=
  fun w => let '(c, w') := body w in (c, on_exit w').

(** Calling a function whose body is [body]: the call evaluates to the
    returned value, to [None] when the body runs off its end, or raises. *)
Definition call {R R'} (body : py R unit) : py R' (option R) :=
  fun w =>
    match body w with
    | (Normal tt, w') => (Normal None, w')
    | (Returned r, w') => (Normal r, w')
    | (Raised e, w') => (Raised e, w')
    end.

(** A [for] loop over a list, threading the variables its body assigns. *)
Fixpoint for_each {R A S} (xs : list A) (s : S) (body : S -> A -> py R S)
  : py R S :=
  match xs with
  | [] => ret s
  | x :: rest => bind (body s x) (fun s' => for_each rest s' body)
  end.

End Py.

Arguments Normal {R A} a.
Arguments Returned {R A} r.
Arguments Raised {R A} e.
Arguments py W R A : clear implicits.

Declare Scope py_scope.
Delimit Scope py_scope with py.
Notation "x <- c ;; k" := (bind c (fun x => k))
  (at level 61, c at next level, right associativity) : py_scope.
Notation "' pat <- c ;; k" := (bind c (fun x => match x with pat => k end))
  (at level 61, pat pattern, c at next level, right associativity) : py_scope.
Notation "c ;; k" := (bind c (fun _ => k))
  (at level 61, right associativity) : py_scope.
Local Open Scope py_scope.

(** ** Dates

    [datetime.now()] yields a naive local [datetime]; its fields lie in the
    ranges the class guarantees (year 1..9999, month 1..12, ...). *)

Record datetime : Type := {
  year : nat; month : nat; day : nat;
  hour : nat; minute : nat; second : nat; microsecond : nat
}.

(** [datetime.isoformat()] with its defaults: [YYYY-MM-DDTHH:MM:SS], followed
    by [.ffffff] when the microsecond field is not zero. *)
Definition isoformat (d : datetime) : string :=
  zero_padded 4 (year d) ++ "-" ++ zero_padded 2 (month d) ++ "-" ++
  zero_padded 2 (day d) ++ "T" ++ zero_padded 2 (hour d) ++ ":" ++
  zero_padded 2 (minute d) ++ ":" ++ zero_padded 2 (second d) ++
  (if (microsecond d =? 0)%nat then "" else "." ++ zero_padded 6 (microsecond d)).

(** ** Data frames

    A pandas [DataFrame] is its labelled columns, each a typed [Series]; the
    column labels are taken to be distinct, as they are in every frame built
    from a list of dicts or read from a CSV header, so [data[col]] is the
    first column of that label. *)

Inductive series : Type :=
| Int64Series (xs : list Z)
| Float64Series (xs : list float)
| BoolSeries (xs : list bool)
| ObjectSeries (xs : list string).

Definition DataFrame : Type := list (string * series).

(** What [Series.min()] and a cell hold. *)
Inductive scalar : Type :=
| SInt (z : Z)
| SFloat (f : float)
| SBool (b : bool)
| SStr (s : string).

Definition columns (data : DataFrame) : list string := map fst data.

Fixpoint getitem (data : DataFrame) (col : string) : exn + series :=
  match data with
  | [] => inl (OtherError "KeyError" ("'" ++ col ++ "'"))
  | (label, s) :: rest => if String.eqb label col then inr s else getitem rest col
  end.

Definition float_min (a b : float) : float := if PrimFloat.ltb b a then b else a.
Definition string_min (a b : string) : string := if String.ltb b a then b else a.

(** [Series.min()]: missing values ([NaN]) are skipped, and the minimum of
    nothing is [NaN]. *)
Definition series_min (s : series) : scalar :=
  match s with
  | Int64Series [] | BoolSeries [] | ObjectSeries [] => SFloat PrimFloat.nan
  | Int64Series (x :: xs) => SInt (fold_left Z.min xs x)
  | Float64Series xs =>
      match filter (fun x => negb (PrimFloat.is_nan x)) xs with
      | [] => SFloat PrimFloat.nan
      | x :: rest => SFloat (fold_left float_min rest x)
      end
  | BoolSeries (x :: xs) => SBool (fold_left andb xs x)
  | ObjectSeries (x :: xs) => SStr (fold_left string_min xs x)
  end.

(** [float(n)] for an integer literal; exact for the bounds used here. *)
Definition float_of_int (n : Z) : float :=
  if (n <? 0)%Z
  then PrimFloat.opp (PrimFloat.of_uint63 (Uint63.of_Z (- n)))
  else PrimFloat.of_uint63 (Uint63.of_Z n).

Definition int_of_bool (b : bool) : Z := if b then 1%Z else 0%Z.

(** [lo <= x] and [x <= hi] for an integer literal and a cell. Python
    compares an int with a float by value; a [str] does not compare with an
    int. *)
Definition int_le_scalar (lo : Z) (x : scalar) : exn + bool :=
  match x with
  | SInt z => inr (lo <=? z)%Z
  | SFloat f => inr (PrimFloat.leb (float_of_int lo) f)
  | SBool b => inr (lo <=? int_of_bool b)%Z
  | SStr _ => inl (TypeError "'<=' not supported between instances of 'int' and 'str'")
  end.

Definition scalar_le_int (x : scalar) (hi : Z) : exn + bool :=
  match x with
  | SInt z => inr (z <=? hi)%Z
  | SFloat f => inr (PrimFloat.leb f (float_of_int hi))
  | SBool b => inr (int_of_bool b <=? hi)%Z
  | SStr _ => inl (TypeError "'<=' not supported between instances of 'str' and 'int'")
  end.

(** The chained comparison [lo <= x <= hi]: [x <= hi] is evaluated only
    when [lo <= x] holds. *)
Definition between (lo : Z) (x : scalar) (hi : Z) : exn + bool :=
  match int_le_scalar lo x with
  | inl e => inl e
  | inr false => inr false
  | inr true => scalar_le_int x hi
  end.

(** ** The loaded model

    An MLflow model handle: [model.predict(data)] gives the predictions or
    raises, and is a function of the frame (a fixed, deterministic model).
    [version] is [None] when the object has no attribute of that name. *)

Record LoadedModel : Type := {
  model_predict : DataFrame -> exn + list float;
  version : option string;
  metadata : list (string * string)
}.

(** [model.predict(data)] and [getattr(model, 'version', default)] for a
    name bound to a model handle or to [None]. *)
Definition model_dot_predict (model : option LoadedModel) (data : DataFrame)
  : exn + list float :=
  match model with
  | Some m => model_predict m data
  | None => inl (OtherError "AttributeError"
                   "'NoneType' object has no attribute 'predict'")
  end.

Definition getattr_version (model : option LoadedModel) (default : string) : string :=
  match model with
  | Some m => match version m with Some v => v | None => default end
  | None => default
  end.

(** ** Request and response schemas of [app/api.py]

    A request is taken with its fields already of their declared types, as
    pydantic has them when the [@validator] methods run. *)

Record PredictionInput : Type := {
  age : Z;
  bmi : float;
  children : Z;
  smoker : bool;
  region : string;
  gender : string
}.

Record PredictionOutput : Type := {
  prediction : float;
  model_version : string;
  prediction_time : string
}.

Definition valid_regions : list string :=
  ["northeast"; "northwest"; "southeast"; "southwest"].
Definition valid_genders : list string := ["male"; "female"].

Definition validate_age (v : Z) : exn + Z :=
  if negb ((0 <=? v)%Z && (v <=? 100)%Z)
  then inl (ValueError "Age must be between 0 and 100")
  else inr v.

Definition validate_bmi (v : float) : exn + float :=
  if negb (PrimFloat.leb 10 v && PrimFloat.leb v 50)
  then inl (ValueError "BMI must be between 10 and 50")
  else inr v.

Definition validate_children (v : Z) : exn + Z :=
  if negb ((0 <=? v)%Z && (v <=? 10)%Z)
  then inl (ValueError "Number of children must be between 0 and 10")
  else inr v.

Definition validate_region (v : string) : exn + string :=
  if negb (str_in (lower v) valid_regions)
  then inl (ValueError
         "Region must be one of ['northeast', 'northwest', 'southeast', 'southwest']")
  else inr (lower v).

Definition validate_gender (v : string) : exn + string :=
  if negb (str_in (lower v) valid_genders)
  then inl (ValueError "Gender must be one of ['male', 'female']")
  else inr (lower v).

(** Building a [PredictionInput] (pydantic): every field's validator runs,
    the failures are collected with the field's name, and the object exists
    only when there is none. *)
Definition field_errors {A} (field : string) (r : exn + A) : list (string * string) :=
  match r with inl e => [(field, str e)] | inr _ => [] end.

Definition parse_PredictionInput (raw : PredictionInput)
  : list (string * string) + PredictionInput :=
  match validate_age (age raw), validate_bmi (bmi raw),
        validate_children (children raw),
        validate_region (region raw), validate_gender (gender raw) with
  | inr a, inr b, inr c, inr r, inr g =>
      inr {| age := a; bmi := b; children := c; smoker := smoker raw;
             region := r; gender := g |}
  | ra, rb, rc, rr, rg =>
      inl (field_errors "age" ra ++ field_errors "bmi" rb ++
           field_errors "children" rc ++ field_errors "region" rr ++
           field_errors "gender" rg)
  end.

(** [pd.DataFrame([input_data.dict()])]: one row, one column per field. *)
Definition DataFrame_of_input (input_data : PredictionInput) : DataFrame :=
  [("age", Int64Series [age input_data]);
   ("bmi", Float64Series [bmi input_data]);
   ("children", Int64Series [children input_data]);
   ("smoker", BoolSeries [smoker input_data]);
   ("region", ObjectSeries [region input_data]);
   ("gender", ObjectSeries [gender input_data])].

(** ** The world of the serving process

    The Prometheus metrics of [src/utils.py], the records handed to
    [logging], the calls made to [mlflow.log_metric], the number of clock
    readings taken so far, and the module-level global [model] of
    [app/api.py]: [None] while the name is unassigned, [Some obj] once it is
    bound to the object [obj], which is a model handle or Python's [None]. *)

Inductive level : Type := INFO | ERROR.

(** The dict [log_model_access] builds. *)
Record log_entry : Type := {
  entry_timestamp : string;
  entry_user_id : string;
  entry_model_version : string;
  entry_action : string
}.

(** A log message: a plain text, or ["Model Access: " + json.dumps(entry)]
    kept structured. *)
Inductive message : Type :=
| Text (s : string)
| ModelAccess (entry : log_entry).

Record log_record : Type := {
  logger_name : string;
  levelname : level;
  msg : message
}.

Record world : Type := {
  PREDICTION_COUNTER : nat;
  PREDICTION_LATENCY : list float;
  DATA_VALIDATION_ERRORS : nat;
  log : list log_record;
  mlflow_metrics : list (string * Z);
  ticks : nat;
  model : option (option LoadedModel)
}.

Definition inc_PREDICTION_COUNTER (w : world) : world :=
  {| PREDICTION_COUNTER := S (PREDICTION_COUNTER w);
     PREDICTION_LATENCY := PREDICTION_LATENCY w;
     DATA_VALIDATION_ERRORS := DATA_VALIDATION_ERRORS w;
     log := log w; mlflow_metrics := mlflow_metrics w;
     ticks := ticks w; model := model w |}.

Definition observe_PREDICTION_LATENCY (amount : float) (w : world) : world :=
  {| PREDICTION_COUNTER := PREDICTION_COUNTER w;
     PREDICTION_LATENCY := PREDICTION_LATENCY w ++ [amount];
     DATA_VALIDATION_ERRORS := DATA_VALIDATION_ERRORS w;
     log := log w; mlflow_metrics := mlflow_metrics w;
     ticks := ticks w; model := model w |}.

Definition inc_DATA_VALIDATION_ERRORS (w : world) : world :=
  {| PREDICTION_COUNTER := PREDICTION_COUNTER w;
     PREDICTION_LATENCY := PREDICTION_LATENCY w;
     DATA_VALIDATION_ERRORS := S (DATA_VALIDATION_ERRORS w);
     log := log w; mlflow_metrics := mlflow_metrics w;
     ticks := ticks w; model := model w |}.

Definition emit (r : log_record) (w : world) : world :=
  {| PREDICTION_COUNTER := PREDICTION_COUNTER w;
     PREDICTION_LATENCY := PREDICTION_LATENCY w;
     DATA_VALIDATION_ERRORS := DATA_VALIDATION_ERRORS w;
     log := log w ++ [r]; mlflow_metrics := mlflow_metrics w;
     ticks := ticks w; model := model w |}.

Definition record_mlflow_metric (key : string) (value : Z) (w : world) : world :=
  {| PREDICTION_COUNTER := PREDICTION_COUNTER w;
     PREDICTION_LATENCY := PREDICTION_LATENCY w;
     DATA_VALIDATION_ERRORS := DATA_VALIDATION_ERRORS w;
     log := log w; mlflow_metrics := mlflow_metrics w ++ [(key, value)];
     ticks := ticks w; model := model w |}.

Definition tick (w : world) : world :=
  {| PREDICTION_COUNTER := PREDICTION_COUNTER w;
     PREDICTION_LATENCY := PREDICTION_LATENCY w;
     DATA_VALIDATION_ERRORS := DATA_VALIDATION_ERRORS w;
     log := log w; mlflow_metrics := mlflow_metrics w;
     ticks := S (ticks w); model := model w |}.

Definition set_model (m : option LoadedModel) (w : world) : world :=
  {| PREDICTION_COUNTER := PREDICTION_COUNTER w;
     PREDICTION_LATENCY := PREDICTION_LATENCY w;
     DATA_VALIDATION_ERRORS := DATA_VALIDATION_ERRORS w;
     log := log w; mlflow_metrics := mlflow_metrics w;
     ticks := ticks w; model := Some m |}.

(** Responses as the web framework sends them. *)
Inductive content : Type :=
| PredictionJSON (out : PredictionOutput)
| HealthJSON (status timestamp : string)
| DetailJSON (detail : string)
| ValidationErrorsJSON (detail : list (string * string)).

Record Response : Type := {
  status_code : nat;
  body : content
}.

Definition MODEL_NAME : string := "health_claim_cost_model".

Definition newline : string := String (ascii_of_nat 10) EmptyString.

Section Serving.

(** The clocks, by the number of readings taken before: [datetime.now()],
    [time.time()], and the timer of [Histogram.time()]. *)
Variable datetime_now : nat -> datetime.
Variable time_time : nat -> float.
Variable default_timer : nat -> float.

(** The registry: [mlflow.pyfunc.load_model(uri)] under the tracking URI
    that [mlflow.set_tracking_uri] was given. *)
Variable MLFLOW_TRACKING_URI : string.
Variable mlflow_pyfunc_load_model : string -> string -> exn + LoadedModel.

(** *** Clock readings *)

Definition now {R} : py world R datetime :=
  fun w => (Normal (datetime_now (ticks w)), tick w).

Definition time {R} : py world R float :=
  fun w => (Normal (time_time (ticks w)), tick w).

Definition timer {R} : py world R float :=
  fun w => (Normal (default_timer (ticks w)), tick w).

(** *** [src/utils.py] *)

(** [logger.error], [logger.info] on the logger [setup_logging] returns, and
    [logging.error] on the root logger. *)
Definition logger_error {R} (m : string) : py world R unit :=
  modify (emit {| logger_name := "health_insurance_mlops";
                  levelname := ERROR; msg := Text m |}).

Definition logger_info {R} (m : message) : py world R unit :=
  modify (emit {| logger_name := "health_insurance_mlops";
                  levelname := INFO; msg := m |}).

Definition logging_error {R} (m : string) : py world R unit :=
  modify (emit {| logger_name := "root"; levelname := ERROR; msg := Text m |}).

Definition when {R} (b : bool) (c : py world R unit) : py world R unit :=
  if b then c else ret tt.

(** [not x] for a value that is a bool or [None]. *)
Definition not_ (x : option bool) : bool :=
  match x with Some b => negb b | None => true end.

Definition validate_input_data (data : DataFrame) : py world bool unit :=
  try_except
    (let required_columns :=
       ["age"; "bmi"; "children"; "smoker"; "region"; "gender"] in
     when (negb (forallb (fun col => str_in col (columns data)) required_columns))
       (modify inc_DATA_VALIDATION_ERRORS ;; return_ false) ;;
     age_col <- lift (getitem data "age") ;;
     age_ok <- lift (between 0 (series_min age_col) 100) ;;
     when (negb age_ok)
       (modify inc_DATA_VALIDATION_ERRORS ;; return_ false) ;;
     bmi_col <- lift (getitem data "bmi") ;;
     bmi_ok <- lift (between 10 (series_min bmi_col) 50) ;;
     when (negb bmi_ok)
       (modify inc_DATA_VALIDATION_ERRORS ;; return_ false) ;;
     children_col <- lift (getitem data "children") ;;
     children_ok <- lift (between 0 (series_min children_col) 10) ;;
     when (negb children_ok)
       (modify inc_DATA_VALIDATION_ERRORS ;; return_ false) ;;
     return_ true)
    [(is_Exception, fun e =>
        logging_error ("Data validation error: " ++ str e) ;;
        modify inc_DATA_VALIDATION_ERRORS ;;
        return_ false)].

(** [log_model_access(logger, user_id, model_version, action)]; every caller
    passes the logger of [setup_logging]. *)
Definition log_model_access {R} (user_id model_version action : string)
  : py world R unit :=
  t <- now ;;
  let log_entry := {| entry_timestamp := isoformat t;
                      entry_user_id := user_id;
                      entry_model_version := model_version;
                      entry_action := action |} in
  logger_info (ModelAccess log_entry).

(** The wrapper [monitor_prediction(func)] returns. [Histogram.time()] reads
    the timer on entry and on exit and observes the difference, not below
    zero, however the block finishes. *)
Definition max_0 (d : float) : float := if PrimFloat.ltb d 0 then 0%float else d.

Definition monitor_prediction {R} (func : py world R unit) : py world R unit :=
  modify inc_PREDICTION_COUNTER ;;
  start <- timer ;;
  with_exit
    (r <- call func ;; return_value r)
    (fun w => observe_PREDICTION_LATENCY
                (max_0 (PrimFloat.sub (default_timer (ticks w)) start)) (tick w)).

(** *** [src/predict.py] *)

Definition mlflow_log_metric {R} (key : string) (value : Z) : py world R unit :=
  modify (record_mlflow_metric key value).

(** The body of [get_latest_model]. *)
Definition get_latest_model : py world LoadedModel unit :=
  try_except
    (m <- lift (mlflow_pyfunc_load_model MLFLOW_TRACKING_URI
                  ("models:/" ++ MODEL_NAME ++ "/Production")) ;;
     log_model_access "prediction_service" "production_model" "model_loaded" ;;
     return_ m)
    [(is_Exception, fun e =>
        logger_error ("Error loading production model: " ++ str e) ;;
        raise e)].

(** The first [try] statement of [predict] (lines 87-113) and the second
    (lines 114-121). *)
Definition predict_try1 (model : option LoadedModel) (data : DataFrame)
  : py world (list float) unit :=
  try_except
    (valid <- call (validate_input_data data) ;;
     when (not_ valid) (raise (ValueError "Invalid input data format")) ;;
     predictions <- lift (model_dot_predict model data) ;;
     log_model_access "prediction_service" "production_model" "prediction_success" ;;
     return_ predictions)
    [(is_Exception, fun e =>
        logger_error ("Prediction error: " ++ str e) ;;
        log_model_access "prediction_service" "production_model"
          ("prediction_error: " ++ str e) ;;
        raise e)].

Definition predict_try2 (model : option LoadedModel) (data : DataFrame)
  : py world (list float) unit :=
  try_except
    (mlflow_log_metric "prediction_requests" 1 ;;
     predictions <- lift (model_dot_predict model data) ;;
     return_ predictions)
    [(is_Exception, fun e =>
        mlflow_log_metric "prediction_errors" 1 ;;
        raise e)].

(** [predict], as [@monitor_prediction] leaves it. *)
Definition predict (model : option LoadedModel) (data : DataFrame)
  : py world (list float) unit :=
  monitor_prediction (predict_try1 model data ;; predict_try2 model data).

(** *** [app/api.py] *)

(** Reading the global [model]. *)
Definition global_model {R} : py world R (option LoadedModel) :=
  fun w =>
    match model w with
    | Some obj => (Normal obj, w)
    | None => (Raised (NameError "name 'model' is not defined"), w)
    end.

(** [prediction[0]] on what [predict] returned. *)
Definition subscript_0 (prediction : option (list float)) : exn + float :=
  match prediction with
  | None => inl (TypeError "'NoneType' object is not subscriptable")
  | Some [] => inl (IndexError "list index out of range")
  | Some (x :: _) => inr x
  end.

(** [model.metadata.get(key, default)]. *)
Fixpoint dict_get (d : list (string * string)) (key default : string) : string :=
  match d with
  | [] => default
  | (k, v) :: rest => if String.eqb k key then v else dict_get rest key default
  end.

Definition metadata_get (model : option LoadedModel) (key default : string)
  : exn + string :=
  match model with
  | Some m => inr (dict_get (metadata m) key default)
  | None => inl (OtherError "AttributeError"
                   "'NoneType' object has no attribute 'metadata'")
  end.

Definition startup_event : py world unit unit :=
  try_except
    (m <- call get_latest_model ;;
     modify (set_model m) ;;
     logger_info (Text "Model loaded successfully on startup"))
    [(is_Exception, fun e =>
        logger_error ("Error loading model on startup: " ++ str e) ;;
        raise e)].

(** The body of [health_check]; the handler returns the dict
    [{"status": ..., "timestamp": ...}]. *)
Definition health_check : py world (string * string) unit :=
  t <- now ;;
  return_ ("healthy", isoformat t).

(** The first [try] statement of [make_prediction] (lines 127-150) and the
    second (lines 151-167). *)
Definition make_prediction_try1 (input_data : PredictionInput)
  : py world PredictionOutput unit :=
  try_except
    (let data := DataFrame_of_input input_data in
     start_time <- time ;;
     m <- global_model ;;
     prediction <- call (predict m data) ;;
     end_time <- time ;;
     let prediction_time := PrimFloat.sub end_time start_time in
     modify (observe_PREDICTION_LATENCY prediction_time) ;;
     p <- lift (subscript_0 prediction) ;;
     m' <- global_model ;;
     t <- now ;;
     return_ {| prediction := p;
                model_version := getattr_version m' "unknown";
                prediction_time := isoformat t |})
    [(is_ValueError, fun ve =>
        logger_error ("Validation error: " ++ str ve) ;;
        raise (HTTPException 400 (str ve)));
     (is_Exception, fun e =>
        logger_error ("Prediction error: " ++ str e) ;;
        raise (HTTPException 500 (str e)))].

Definition make_prediction_try2 (input_data : PredictionInput)
  : py world PredictionOutput unit :=
  try_except
    (let data := DataFrame_of_input input_data in
     valid <- call (validate_input_data data) ;;
     when (not_ valid) (raise (HTTPException 400 "Invalid input data format")) ;;
     m <- global_model ;;
     prediction <- call (predict m data) ;;
     _ <- lift (subscript_0 prediction) ;;
     m' <- global_model ;;
     _ <- lift (metadata_get m' "mlflow.modelVersion" "unknown") ;;
     (* PredictionOutput(...) without its required prediction_time *)
     raise (ValueError
              ("1 validation error for PredictionOutput" ++ newline ++
               "prediction_time" ++ newline ++
               "  field required (type=value_error.missing)")))
    [(is_Exception, fun e => raise (HTTPException 500 (str e)))].

Definition make_prediction (input_data : PredictionInput)
  : py world PredictionOutput unit :=
  make_prediction_try1 input_data ;; make_prediction_try2 input_data.

(** *** The routes, as the web framework serves them

    [POST /predict]: the body is parsed into a [PredictionInput]; when that
    fails the handler is not called and the framework answers 422 with the
    list of errors as [detail]. Otherwise the handler runs: its return value
    is the body of a 200 response, an [HTTPException] becomes a response with
    that status and detail, anything else a plain 500. [GET /health] has no
    input. *)

Definition internal_server_error : Response :=
  {| status_code := 500; body := DetailJSON "Internal Server Error" |}.

Definition post_predict (raw : PredictionInput) (w : world) : Response * world :=
  match parse_PredictionInput raw with
  | inl errors => ({| status_code := 422; body := ValidationErrorsJSON errors |}, w)
  | inr input_data =>
      match call (R' := unit) (make_prediction input_data) w with
      | (Normal (Some out), w') =>
          ({| status_code := 200; body := PredictionJSON out |}, w')
      | (Raised (HTTPException code detail), w') =>
          ({| status_code := code; body := DetailJSON detail |}, w')
      | (_, w') => (internal_server_error, w')
      end
  end.

Definition get_health (w : world) : Response * world :=
  match call (R' := unit) health_check w with
  | (Normal (Some (status, timestamp)), w') =>
      ({| status_code := 200; body := HealthJSON status timestamp |}, w')
  | (_, w') => (internal_server_error, w')
  end.

(** *** [load_model] of [src/predict.py]

    [run_id] is a [str] or [None], [stage] a [str], as annotated. *)

(** The truth value of a [str] or [None]: only a non-empty string is true. *)
Definition truthy (x : option string) : bool :=
  match x with
  | Some (String _ _) => true
  | _ => false
  end.

(** A [str] or [None] inside an f-string. *)
Definition format (x : option string) : string :=
  match x with Some s => s | None => "None" end.

(** [x or y]. *)
Definition or_ (x : option string) (y : string) : string :=
  if truthy x then format x else y.

Definition load_model (run_id : option string) (stage : string)
  : py world LoadedModel unit :=
  try_except
    (m <- (if truthy run_id
           then lift (mlflow_pyfunc_load_model MLFLOW_TRACKING_URI
                        ("runs:/" ++ format run_id ++ "/model"))
           else lift (mlflow_pyfunc_load_model MLFLOW_TRACKING_URI
                        ("models:/" ++ MODEL_NAME ++ "/" ++ stage))) ;;
     log_model_access "prediction_service" (or_ run_id stage) "model_loaded" ;;
     return_ m)
    [(is_Exception, fun e =>
        logger_error ("Error loading model: " ++ str e) ;;
        raise e)].

End Serving.

(** ** [src/config.py] *)

Definition TARGET : string := "claim_amount".
Definition RANDOM_STATE : Z := 42.
Definition TEST_SIZE : float := 0.2%float.

(** ** [src/preprocessing.py]

    [preprocess_data] is glue over pandas, scikit-learn and MLflow. Its
    control flow is embedded statement by statement; the library calls are
    operations of an arbitrary world that yield a value or raise. *)

(** A value handed to [mlflow.log_param]. *)
Inductive param : Type :=
| ParamStr (s : string)
| ParamInt (n : Z)
| ParamList (l : list string).

Section Preprocessing.

Variable W : Type.
Variables Frame Column Matrix Preprocessor : Type.

(** A library call: a value or an exception, and the world after it. *)
Definition external (A : Type) : Type := W -> (exn + A) * W.

Definition ext {R A} (op : external A) : py W R A :=
  fun w => match op w with
           | (inl e, w') => (Raised e, w')
           | (inr a, w') => (Normal a, w')
           end.

Variable mlflow_log_param : string -> param -> external unit.
Variable mlflow_sklearn_log_model : Preprocessor -> string -> external unit.
Variable to_json : Frame -> external string.
Variable sha256_hexdigest : string -> string.
Variable len : Frame -> Z.
Variable frame_columns : Frame -> list string.
Variable fillna_mean : Frame -> external Frame.
Variable ColumnTransformer : list (string * string * list string) -> external Preprocessor.
Variable drop : Frame -> string -> external Frame.
Variable frame_getitem : Frame -> string -> external Column.
Variable train_test_split :
  Frame -> Column -> float -> Z -> external (Frame * Frame * Column * Column).
Variable fit_transform : Preprocessor -> Frame -> external Matrix.
Variable transform : Preprocessor -> Frame -> external Matrix.
Variable unique : Column -> external (list string).
Variable pd_DataFrame : Matrix -> list string -> external Frame.

(** [hash_data] of [src/utils.py]. *)
Definition hash_data (data : Frame) : py W string unit :=
  json <- ext (to_json data) ;;
  return_ (sha256_hexdigest json).

Definition create_preprocessing_pipeline
  : py W (Preprocessor * list string * list string) unit :=
  let numeric_features := ["age"; "bmi"] in
  let categorical_features := ["smoker"; "region"; "gender"] in
  preprocessor <- ext (ColumnTransformer
                         [("num", "scaler", numeric_features);
                          ("cat", "onehot", categorical_features)]) ;;
  return_ (preprocessor, numeric_features, categorical_features).

(** The value of a call that must have returned something: unpacking or
    using [None] raises. *)
Definition some {R A} (x : option A) : py W R A :=
  match x with
  | Some a => ret a
  | None => raise (TypeError "cannot unpack non-iterable NoneType object")
  end.

Definition preprocessed : Type := Frame * Frame * Column * Column * Preprocessor.

(** [preprocess_data]: lines 49-92, which end with the first [return],
    and lines 93-96, which follow it. The names [X_train_scaled] and [scaler]
    of line 96 are bound nowhere. [preprocess_data_then] is the function with
    whatever code is put after line 92. *)
Definition preprocess_data_then
  (after_return : Frame -> Frame -> py W preprocessed unit)
  (df : Frame) (track_mlflow : bool) : py W preprocessed unit :=
  (if track_mlflow then
     h <- call (hash_data df) ;;
     h <- some h ;;
     ext (mlflow_log_param "data_version" (ParamStr h)) ;;
     ext (mlflow_log_param "n_samples" (ParamInt (len df))) ;;
     ext (mlflow_log_param "n_features"
            (ParamInt (Z.of_nat (List.length (frame_columns df)) - 1)))
   else ret tt) ;;
  df <- ext (fillna_mean df) ;;
  pipeline <- call create_preprocessing_pipeline ;;
  '(preprocessor, numeric_features, categorical_features) <- some pipeline ;;
  X <- ext (drop df TARGET) ;;
  y <- ext (frame_getitem df TARGET) ;;
  '(X_train, X_test, y_train, y_test) <-
     ext (train_test_split X y TEST_SIZE RANDOM_STATE) ;;
  X_train_transformed <- ext (fit_transform preprocessor X_train) ;;
  X_test_transformed <- ext (transform preprocessor X_test) ;;
  let numeric_cols := numeric_features in
  categorical_cols <-
    for_each categorical_features []
      (fun categorical_cols feature =>
         col <- ext (frame_getitem X_train feature) ;;
         unique_values <- ext (unique col) ;;
         ret (categorical_cols ++
              map (fun val => (feature ++ "_" ++ val)%string) (tl unique_values))) ;;
  let feature_names := numeric_cols ++ categorical_cols in
  X_train_transformed <- ext (pd_DataFrame X_train_transformed feature_names) ;;
  X_test_transformed <- ext (pd_DataFrame X_test_transformed feature_names) ;;
  (if track_mlflow then
     ext (mlflow_log_param "preprocessing_steps"
            (ParamStr "fillna,standardization,onehot")) ;;
     ext (mlflow_log_param "numeric_features" (ParamList numeric_features)) ;;
     ext (mlflow_log_param "categorical_features" (ParamList categorical_features)) ;;
     ext (mlflow_sklearn_log_model preprocessor "preprocessor")
   else ret tt) ;;
  return_ (A := unit)
    (X_train_transformed, X_test_transformed, y_train, y_test, preprocessor) ;;
  after_return X_train X_test.

Definition preprocess_data_lines_93_96 (X_train X_test : Frame)
  : py W preprocessed unit :=
  ext (mlflow_log_param "train_size" (ParamInt (len X_train))) ;;
  ext (mlflow_log_param "test_size" (ParamInt (len X_test))) ;;
  raise (NameError "name 'X_train_scaled' is not defined").

Definition preprocess_data (df : Frame) (track_mlflow : bool)
  : py W preprocessed unit :=
  preprocess_data_then preprocess_data_lines_93_96 df track_mlflow.

End Preprocessing.

(** ** [src/data_loader.py] *)

(** [isinstance(e, FileNotFoundError)]. *)
Definition is_FileNotFoundError (e : exn) : bool :=
  match e with
  | OtherError cls _ => String.eqb cls "FileNotFoundError"
  | _ => false
  end.

Section DataLoader.

Variable W : Type.
Variable Frame : Type.

(** [HEALTH_CLAIMS_FILE] of [src/config.py], a path under the directory the
    code is installed in, and [pd.read_csv]. *)
Variable HEALTH_CLAIMS_FILE : string.
Variable pd_read_csv : string -> external W Frame.

Definition load_data : py W Frame unit :=
  try_except
    (df <- ext W (pd_read_csv HEALTH_CLAIMS_FILE) ;;
     return_ df)
    [(is_FileNotFoundError, fun _ =>
        raise (OtherError "FileNotFoundError"
                 ("Data file not found at " ++ HEALTH_CLAIMS_FILE)));
     (is_Exception, fun e =>
        raise (OtherError "Exception" ("Error loading data: " ++ str e)))].

End DataLoader.

(** ** [src/generate_data.py]

    NumPy arrays are lists, and the arithmetic on them is element by
    element. The global random generator is a state the draws thread;
    what the draws yield is left to the generator. *)

(** [np.clip(x, lo, hi)] and [np.maximum(x, y)] on one element: NaN stays
    NaN. *)
Definition np_clip (x lo hi : float) : float :=
  if PrimFloat.is_nan x then x
  else if PrimFloat.ltb x lo then lo
  else if PrimFloat.ltb hi x then hi
  else x.

Definition np_maximum (x y : float) : float :=
  if PrimFloat.is_nan x then x
  else if PrimFloat.is_nan y then y
  else if PrimFloat.ltb x y then y
  else x.

(** [a + b] and [a * b] on arrays of one length. *)
Definition array_add (a b : list float) : list float :=
  map (fun xy => PrimFloat.add (fst xy) (snd xy)) (combine a b).

Definition array_mul (a b : list float) : list float :=
  map (fun xy => PrimFloat.mul (fst xy) (snd xy)) (combine a b).

(** An integer array where a float array is expected. *)
Definition as_floats (a : list Z) : list float := map float_of_int a.

Section GenerateData.

(** The state of NumPy's global generator and the calls the code makes on
    it. [np.random.seed] raises on a seed it cannot take. *)
Variable RandomState : Type.
Variable np_random_seed : Z -> external RandomState unit.
Variable np_random_randint : Z -> Z -> nat -> RandomState -> list Z * RandomState.
Variable np_random_choice :
  list string -> nat -> RandomState -> list string * RandomState.
Variable np_random_normal :
  float -> float -> nat -> RandomState -> list float * RandomState.

(** [np.round(x, decimals)] on one element. *)
Variable np_round : float -> Z -> float.

Definition draw {R A} (f : RandomState -> A * RandomState)
  : py RandomState R A :=
  fun r => let (a, r') := f r in (Normal a, r').

Definition generate_synthetic_data (n_samples : nat) (seed : Z)
  : py RandomState DataFrame unit :=
  ext RandomState (np_random_seed seed) ;;
  age <- draw (np_random_randint 18 65 n_samples) ;;
  gender <- draw (np_random_choice ["male"; "female"] n_samples) ;;
  bmi <- draw (np_random_normal 26 4 n_samples) ;;
  children <- draw (np_random_randint 0 5 n_samples) ;;
  smoker <- draw (np_random_choice ["yes"; "no"] n_samples) ;;
  region <- draw (np_random_choice
                    ["northeast"; "northwest"; "southeast"; "southwest"]
                    n_samples) ;;
  let bmi := map (fun x => np_clip x 16 45) bmi in
  let base_amount := 5000%float in
  let claim_amount :=
    map (PrimFloat.add base_amount) (repeat 0%float n_samples) in
  let claim_amount :=
    array_add claim_amount (as_floats (map (fun a => a * 100)%Z age)) in
  let bmi_factor :=
    map (fun b => if PrimFloat.ltb 30 b
                  then PrimFloat.mul (PrimFloat.sub b 30) 500
                  else 0%float) bmi in
  let claim_amount := array_add claim_amount bmi_factor in
  let smoker_factor :=
    map (fun s => if String.eqb s "yes" then 15000 else 0)%Z smoker in
  let claim_amount := array_add claim_amount (as_floats smoker_factor) in
  let claim_amount :=
    array_add claim_amount (as_floats (map (fun c => c * 2000)%Z children)) in
  noise <- draw (np_random_normal 1 0.1 n_samples) ;;
  let claim_amount := array_mul claim_amount noise in
  let claim_amount :=
    map (fun x => np_round (np_maximum x 0) 2) claim_amount in
  return_ [("age", Int64Series age);
           ("gender", ObjectSeries gender);
           ("bmi", Float64Series bmi);
           ("children", Int64Series children);
           ("smoker", ObjectSeries smoker);
           ("region", ObjectSeries region);
           ("claim_amount", Float64Series claim_amount)].

End GenerateData.

(** ** [src/train.py]

    Training runs in the world of the process, for its log and clock, next
    to the state of the libraries it drives (the MLflow run, the fitted
    estimators, the file system). Library calls act on the second and leave
    the first alone. *)

(** The dict [evaluate_model] returns. *)
Record Metrics : Type := {
  mse : float;
  rmse : float;
  mae : float;
  r2 : float
}.

Definition EXPERIMENT_NAME : string := "health-claim-prediction".

Section Training.

Variable T : Type.
Variables Frame Column Matrix Preprocessor Model Run Predictions : Type.

Variable datetime_now : nat -> datetime.
Variable MLFLOW_TRACKING_URI : string.
Variable HEALTH_CLAIMS_FILE : string.

(** The library calls of [preprocess_data] and [load_data]. *)
Variable mlflow_log_param : string -> param -> external T unit.
Variable mlflow_sklearn_log_preprocessor : Preprocessor -> string -> external T unit.
Variable to_json : Frame -> external T string.
Variable sha256_hexdigest : string -> string.
Variable len : Frame -> Z.
Variable frame_columns : Frame -> list string.
Variable fillna_mean : Frame -> external T Frame.
Variable ColumnTransformer :
  list (string * string * list string) -> external T Preprocessor.
Variable drop : Frame -> string -> external T Frame.
Variable frame_getitem : Frame -> string -> external T Column.
Variable train_test_split :
  Frame -> Column -> float -> Z -> external T (Frame * Frame * Column * Column).
Variable fit_transform : Preprocessor -> Frame -> external T Matrix.
Variable transform : Preprocessor -> Frame -> external T Matrix.
Variable unique : Column -> external T (list string).
Variable pd_DataFrame : Matrix -> list string -> external T Frame.
Variable pd_read_csv : string -> external T Frame.

(** The library calls of [train_model] and [evaluate_model]. *)
Variable mlflow_set_tracking_uri : string -> external T unit.
Variable mlflow_set_experiment : string -> external T unit.
Variable mlflow_start_run : external T Run.
Variable mlflow_end_run : string -> external T unit.
Variable run_id : Run -> string.
Variable RandomForestRegressor : Z -> Z -> external T Model.
Variable mlflow_log_params : list (string * param) -> external T unit.
Variable fit : Model -> Frame -> Column -> external T unit.
Variable model_dot_predict_frame : Model -> Frame -> external T Predictions.
Variable mean_squared_error : Column -> Predictions -> external T float.
Variable mean_absolute_error : Column -> Predictions -> external T float.
Variable r2_score : Column -> Predictions -> external T float.
Variable mlflow_log_metrics : Metrics -> external T unit.
Variable feature_importance_table : Model -> Frame -> external T Frame.
Variable mlflow_sklearn_log_model : Model -> string -> string -> external T unit.

(** [f"{metrics}"]. *)
Variable repr_metrics : Metrics -> string.

(** A computation of the process world, and a library call, in the world
    of training. *)
Definition on_world {R A} (c : py world R A) : py (world * T) R A :=
  fun w => let '(x, s) := c (fst w) in (x, (s, snd w)).

Definition on_library {A} (op : external T A) : external (world * T) A :=
  fun w => let '(x, t) := op (snd w) in (x, (fst w, t)).

Definition library {R A} (op : external T A) : py (world * T) R A :=
  ext (world * T) (on_library op).

(** [with mlflow.start_run() as run: body]: the run is ended when the block
    is left, as [FAILED] when it is left by an exception and as [FINISHED]
    otherwise; an error in ending the run takes the place of the block's
    outcome. *)
Definition with_start_run {R A} (body : Run -> py (world * T) R A)
  : py (world * T) R A :=
  fun w =>
    match library (R := R) mlflow_start_run w with
    | (Normal run, w1) =>
        let '(c, w2) := body run w1 in
        let status :=
          match c with Raised _ => "FAILED" | _ => "FINISHED" end in
        match library (R := R) (mlflow_end_run status) w2 with
        | (Raised e, w3) => (Raised e, w3)
        | (_, w3) => (c, w3)
        end
    | (Returned r, w1) => (Returned r, w1)
    | (Raised e, w1) => (Raised e, w1)
    end.

(** The first use of what a call returned, an attribute access: on [None]
    it raises. *)
Definition attribute_of {R A} (name : string) (x : option A)
  : py (world * T) R A :=
  match x with
  | Some a => ret a
  | None => raise (OtherError "AttributeError"
                     ("'NoneType' object has no attribute '" ++ name ++ "'"))
  end.

(** [preprocess_data] and [load_data] over these library calls. *)
Definition training_preprocess_data (df : Frame) (track_mlflow : bool)
  : py (world * T) (preprocessed Frame Column Preprocessor) unit :=
  preprocess_data (world * T) Frame Column Matrix Preprocessor
    (fun key value => on_library (mlflow_log_param key value))
    (fun p name => on_library (mlflow_sklearn_log_preprocessor p name))
    (fun df => on_library (to_json df))
    sha256_hexdigest len frame_columns
    (fun df => on_library (fillna_mean df))
    (fun transformers => on_library (ColumnTransformer transformers))
    (fun df col => on_library (drop df col))
    (fun df col => on_library (frame_getitem df col))
    (fun X y test_size random_state =>
       on_library (train_test_split X y test_size random_state))
    (fun p X => on_library (fit_transform p X))
    (fun p X => on_library (transform p X))
    (fun col => on_library (unique col))
    (fun m names => on_library (pd_DataFrame m names))
    df track_mlflow.

Definition training_load_data : py (world * T) Frame unit :=
  load_data (world * T) Frame HEALTH_CLAIMS_FILE
    (fun path => on_library (pd_read_csv path)).

Definition evaluate_model (model : Model) (X_test : Frame) (y_test : Column)
  : py (world * T) Metrics unit :=
  predictions <- library (model_dot_predict_frame model X_test) ;;
  mse <- library (mean_squared_error y_test predictions) ;;
  let rmse := PrimFloat.sqrt mse in
  mae <- library (mean_absolute_error y_test predictions) ;;
  r2 <- library (r2_score y_test predictions) ;;
  return_ {| mse := mse; rmse := rmse; mae := mae; r2 := r2 |}.

Definition train_model (experiment_name : string)
  : py (world * T) (string * Metrics) unit :=
  on_world (logger_info (Text "Starting model training process")) ;;
  try_except
    (library (mlflow_set_tracking_uri MLFLOW_TRACKING_URI) ;;
     library (mlflow_set_experiment experiment_name) ;;
     on_world (logger_info (Text "Loading and preprocessing data")) ;;
     data <- call training_load_data ;;
     with_start_run (fun run =>
       on_world (log_model_access datetime_now
                   "training_service" "new_training" "training_start") ;;
       data <- attribute_of "to_json" data ;;
       result <- call (training_preprocess_data data true) ;;
       '(X_train, X_test, y_train, y_test, preprocessor) <-
          some (world * T) result ;;
       on_world (logger_info (Text "Training model")) ;;
       model <- library (RandomForestRegressor 100 RANDOM_STATE) ;;
       library (mlflow_log_params
                  [("model_type", ParamStr "RandomForestRegressor");
                   ("n_estimators", ParamInt 100);
                   ("random_state", ParamInt RANDOM_STATE)]) ;;
       library (fit model X_train y_train) ;;
       on_world (logger_info (Text "Evaluating model")) ;;
       metrics <- call (evaluate_model model X_test y_test) ;;
       metrics <- attribute_of "items" metrics ;;
       library (mlflow_log_metrics metrics) ;;
       _ <- library (feature_importance_table model X_train) ;;
       on_world (logger_info (Text "Logging model artifacts")) ;;
       library (mlflow_sklearn_log_model model "model" MODEL_NAME) ;;
       on_world (log_model_access datetime_now
                   "training_service" ("run_id_" ++ run_id run)
                   "training_complete") ;;
       on_world (logger_info
                   (Text ("Model training completed. Run ID: " ++ run_id run))) ;;
       on_world (logger_info (Text ("Model metrics: " ++ repr_metrics metrics))) ;;
       return_ (run_id run, metrics)))
    [(is_Exception, fun e =>
        on_world (logger_error ("Error in model training: " ++ str e)) ;;
        raise e)].

End Training.

(* ================================================================== *)
(** * Part II. The vocabulary of the specification *)
(* ================================================================== *)

(** ** Input rules (specification section 4.1) *)

(** Two characters that are the same letter up to case. *)
Definition same_letter (a b : ascii) : Prop :=
  a = b \/
  (is_upper a = true /\ nat_of_ascii b = nat_of_ascii a + 32) \/
  (is_upper b = true /\ nat_of_ascii a = nat_of_ascii b + 32).

(** Two strings equal when case is ignored. *)
Fixpoint eq_nocase (s t : string) : Prop :=
  match s, t with
  | EmptyString, EmptyString => True
  | String a s', String b t' => same_letter a b /\ eq_nocase s' t'
  | _, _ => False
  end.

(** A string with no upper-case letter. *)
Fixpoint is_lower_case (s : string) : bool :=
  match s with
  | EmptyString => true
  | String c s' => negb (is_upper c) && is_lower_case s'
  end.

(** [v] is a member of the enumeration [names], case ignored. *)
Definition in_enumeration (v : string) (names : list string) : Prop :=
  exists name, In name names /\ eq_nocase v name.

(** The documented ranges and enumerations, all at once. *)
Record in_ranges (r : PredictionInput) : Prop := {
  age_in_range : (0 <= age r <= 100)%Z;
  bmi_in_range : PrimFloat.leb 10 (bmi r) = true /\ PrimFloat.leb (bmi r) 50 = true;
  children_in_range : (0 <= children r <= 10)%Z;
  region_in_enumeration : in_enumeration (region r) valid_regions;
  gender_in_enumeration : in_enumeration (gender r) valid_genders
}.

(** The request with region and gender in lower case. *)
Definition normalized (r : PredictionInput) : PredictionInput :=
  {| age := age r; bmi := bmi r; children := children r; smoker := smoker r;
     region := lower (region r); gender := lower (gender r) |}.

(** ** Timestamps *)

Definition is_digit (c : ascii) : bool :=
  (48 <=? nat_of_ascii c)%nat && (nat_of_ascii c <=? 57)%nat.

(** [s] starts with [n] digits; what follows them. *)
Fixpoint digits (n : nat) (s : string) : option string :=
  match n, s with
  | O, _ => Some s
  | S n', String c s' => if is_digit c then digits n' s' else None
  | S _, EmptyString => None
  end.

(** [s] starts with the character [c]; what follows it. *)
Definition char (c : ascii) (s : string) : option string :=
  match s with
  | String c' s' => if Ascii.eqb c c' then Some s' else None
  | EmptyString => None
  end.

Definition and_then {A B} (x : option A) (f : A -> option B) : option B :=
  match x with Some a => f a | None => None end.

(** The ISO-8601 extended format [YYYY-MM-DDThh:mm:ss], with an optional
    fraction of six digits. *)
Definition is_iso8601 (s : string) : bool :=
  match
    and_then (digits 4 s) (fun s =>
    and_then (char "-" s) (fun s =>
    and_then (digits 2 s) (fun s =>
    and_then (char "-" s) (fun s =>
    and_then (digits 2 s) (fun s =>
    and_then (char "T" s) (fun s =>
    and_then (digits 2 s) (fun s =>
    and_then (char ":" s) (fun s =>
    and_then (digits 2 s) (fun s =>
    and_then (char ":" s) (fun s =>
    digits 2 s))))))))))
  with
  | Some EmptyString => true
  | Some rest =>
      match and_then (char "." rest) (digits 6) with
      | Some EmptyString => true
      | _ => false
      end
  | None => false
  end.

(** ** Responses *)

(** A response without the moment it was produced. *)
Definition without_time (c : content) : content :=
  match c with
  | PredictionJSON out =>
      PredictionJSON {| prediction := prediction out;
                        model_version := model_version out;
                        prediction_time := "" |}
  | HealthJSON status _ => HealthJSON status ""
  | other => other
  end.

(** The global [model] left unassigned, as after a failed start-up. *)
Definition unassign_model (w : world) : world :=
  {| PREDICTION_COUNTER := PREDICTION_COUNTER w;
     PREDICTION_LATENCY := PREDICTION_LATENCY w;
     DATA_VALIDATION_ERRORS := DATA_VALIDATION_ERRORS w;
     log := log w; mlflow_metrics := mlflow_metrics w;
     ticks := ticks w; model := None |}.

(** A computation that never runs on to the next statement from [w]: it
    returns or it raises. *)
Definition exits {W R A} (c : py W R A) (w : W) : Prop :=
  match fst (c w) with
  | Normal _ => False
  | Returned _ | Raised _ => True
  end.

(** ** The structural validator and the executor *)

(** The world of a process that has just started, with the global [model]
    bound as given. *)
Definition fresh_world (m : option (option LoadedModel)) : world :=
  {| PREDICTION_COUNTER := 0; PREDICTION_LATENCY := [];
     DATA_VALIDATION_ERRORS := 0; log := []; mlflow_metrics := [];
     ticks := 0; model := m |}.

(** The verdict of [validate_input_data] on a frame; it does not depend on
    the world the validator runs in. *)
Definition passes_validation (data : DataFrame) : bool :=
  match fst (validate_input_data data (fresh_world None)) with
  | Returned (Some true) => true
  | _ => false
  end.

(** What a failed validation leaves of the world: one more validation error,
    possibly a log record, nothing else. *)
Definition validation_failed (w w' : world) : Prop :=
  DATA_VALIDATION_ERRORS w' = S (DATA_VALIDATION_ERRORS w) /\
  PREDICTION_COUNTER w' = PREDICTION_COUNTER w /\
  PREDICTION_LATENCY w' = PREDICTION_LATENCY w /\
  mlflow_metrics w' = mlflow_metrics w /\
  ticks w' = ticks w /\
  model w' = model w /\
  exists records, log w' = log w ++ records.

(** The records [predict] writes. *)
Definition access_record (t : datetime) (action : string) : log_record :=
  {| logger_name := "health_insurance_mlops"; levelname := INFO;
     msg := ModelAccess {| entry_timestamp := isoformat t;
                           entry_user_id := "prediction_service";
                           entry_model_version := "production_model";
                           entry_action := action |} |}.

Definition error_record (m : string) : log_record :=
  {| logger_name := "health_insurance_mlops"; levelname := ERROR; msg := Text m |}.

(** An error counter moved between [w] and [w']: the Prometheus counter of
    validation errors, or the MLflow metrics, where lines 119-121 of
    [src/predict.py] would tally ["prediction_errors"]. These are the only
    tallies of errors the code has. *)
Definition error_counter_incremented (w w' : world) : Prop :=
  DATA_VALIDATION_ERRORS w' <> DATA_VALIDATION_ERRORS w \/
  mlflow_metrics w' <> mlflow_metrics w.

(** ** The endpoint *)

(** A server error that keeps its cause to itself: a 500-class status and a
    detail that is not the cause's text. *)
Definition opaque_server_error (cause : exn) (r : Response) : Prop :=
  500 <= status_code r < 600 /\
  exists detail, body r = DetailJSON detail /\ detail <> str cause.

(** The [prediction] and [model_version] fields of a response body. *)
Definition prediction_of (c : content) : option float :=
  match c with PredictionJSON out => Some (prediction out) | _ => None end.

Definition model_version_of (c : content) : option string :=
  match c with PredictionJSON out => Some (model_version out) | _ => None end.

(** The status and the body, timestamp aside, that [POST /predict] owes a
    request, given what the global [model] is bound to. *)
Definition expected_answer (raw : PredictionInput)
  (global : option (option LoadedModel)) : nat * content :=
  match parse_PredictionInput raw with
  | inl errors => (422, ValidationErrorsJSON errors)
  | inr input_data =>
      match global with
      | None => (500, DetailJSON "name 'model' is not defined")
      | Some m =>
          match model_dot_predict m (DataFrame_of_input input_data) with
          | inl e => (if is_ValueError e then 400 else 500, DetailJSON (str e))
          | inr [] => (500, DetailJSON "list index out of range")
          | inr (p :: _) =>
              (200, PredictionJSON
                      {| prediction := p;
                         model_version := getattr_version m "unknown";
                         prediction_time := "" |})
          end
      end
  end.

(** ** The order of floats *)

(** A key that orders the floats other than NaN the way their comparison
    does: sign class first, then exponent, then mantissa. *)
Definition float_key (x : spec_float) : Z * Z * Z :=
  match x with
  | S754_zero _ | S754_nan => (0, 0, 0)
  | S754_infinity true => (-2, 0, 0)
  | S754_infinity false => (2, 0, 0)
  | S754_finite true m e => (-1, - e, - Z.pos m)
  | S754_finite false m e => (1, e, Z.pos m)
  end%Z.

Definition key_le (a b : Z * Z * Z) : Prop :=
  let '(a1, a2, a3) := a in
  let '(b1, b2, b3) := b in
  (a1 < b1 \/ (a1 = b1 /\ (a2 < b2 \/ (a2 = b2 /\ a3 <= b3))))%Z.

Definition key_lt (a b : Z * Z * Z) : Prop :=
  let '(a1, a2, a3) := a in
  let '(b1, b2, b3) := b in
  (a1 < b1 \/ (a1 = b1 /\ (a2 < b2 \/ (a2 = b2 /\ a3 < b3))))%Z.

(** ** What the structural validator asks of a column *)

(** The minimum of [xs] lies in [[lo, hi]]: there is a row, every row is at
    least [lo], and some row is at most [hi]. *)
Definition minimum_within (lo hi : Z) (xs : list Z) : Prop :=
  xs <> [] /\ (forall a, In a xs -> (lo <= a)%Z) /\ (exists a, In a xs /\ (a <= hi)%Z).

(** The same for a float column, over the rows that are not missing. *)
Definition present (xs : list float) : list float :=
  filter (fun x => negb (PrimFloat.is_nan x)) xs.

Definition float_minimum_within (lo hi : float) (xs : list float) : Prop :=
  present xs <> [] /\
  (forall b, In b (present xs) -> PrimFloat.leb lo b = true) /\
  (exists b, In b (present xs) /\ PrimFloat.leb b hi = true).

(** The number of rows of a column. *)
Definition series_length (s : series) : nat :=
  match s with
  | Int64Series xs => List.length xs
  | Float64Series xs => List.length xs
  | BoolSeries xs => List.length xs
  | ObjectSeries xs => List.length xs
  end.

Definition required_columns : list string :=
  ["age"; "bmi"; "children"; "smoker"; "region"; "gender"].

Definition has_required_columns (data : DataFrame) : bool :=
  forallb (fun col => str_in col (columns data)) required_columns.

(** ** The registry client *)

(** The audit record [log_model_access] writes at time [t]. *)
Definition audit_record (t : datetime) (user_id label action : string) : log_record :=
  {| logger_name := "health_insurance_mlops"; levelname := INFO;
     msg := ModelAccess {| entry_timestamp := isoformat t;
                           entry_user_id := user_id;
                           entry_model_version := label;
                           entry_action := action |} |}.

(** The artifact [load_model] addresses, and the label it audits under: the
    run when a run id is given, the stage of the registered model
    otherwise. *)
Definition requested_uri (run_id : option string) (stage : string) : string :=
  match run_id with
  | Some (String c id) => "runs:/" ++ String c id ++ "/model"
  | _ => "models:/health_claim_cost_model/" ++ stage
  end.

Definition requested_label (run_id : option string) (stage : string) : string :=
  match run_id with
  | Some (String c id) => String c id
  | _ => stage
  end.

(** Two worlds that differ at most in the texts of their log records. *)
Definition same_but_log_texts (w w' : world) : Prop :=
  PREDICTION_COUNTER w' = PREDICTION_COUNTER w /\
  PREDICTION_LATENCY w' = PREDICTION_LATENCY w /\
  DATA_VALIDATION_ERRORS w' = DATA_VALIDATION_ERRORS w /\
  mlflow_metrics w' = mlflow_metrics w /\
  ticks w' = ticks w /\
  model w' = model w /\
  map levelname (log w') = map levelname (log w).

(** ** The data loader *)

(** What [load_data] makes of an error of [pd.read_csv]. *)
Definition reported_load_error (path : string) (e : exn) : exn :=
  if is_FileNotFoundError e
  then OtherError "FileNotFoundError" ("Data file not found at " ++ path)
  else OtherError "Exception" ("Error loading data: " ++ str e).

(** ** What NumPy's generator guarantees *)

(** [randint(lo, hi, n)] yields [n] integers, each at least [lo] and below
    [hi]; [choice(options, n)] yields [n] of the options; [normal(loc,
    scale, n)] yields [n] numbers, none of them NaN, when [loc] and [scale] are numbers. *)
Definition randint_contract {RS : Type}
  (randint : Z -> Z -> nat -> RS -> list Z * RS) : Prop :=
  forall lo hi n r,
    (lo < hi)%Z ->
    List.length (fst (randint lo hi n r)) = n /\
    Forall (fun x => (lo <= x < hi)%Z) (fst (randint lo hi n r)).

Definition choice_contract {RS : Type}
  (choice : list string -> nat -> RS -> list string * RS) : Prop :=
  forall options n r,
    options <> [] ->
    List.length (fst (choice options n r)) = n /\
    Forall (fun x => In x options) (fst (choice options n r)).

Definition normal_contract {RS : Type}
  (normal : float -> float -> nat -> RS -> list float * RS) : Prop :=
  forall loc scale n r,
    PrimFloat.is_nan loc = false ->
    PrimFloat.is_nan scale = false ->
    List.length (fst (normal loc scale n r)) = n /\
    Forall (fun x => PrimFloat.is_nan x = false) (fst (normal loc scale n r)).

(** ** Training *)

(** A computation of the training world is orderly when, wherever it
    starts, it adds nothing but INFO records to the log, and when it
    returns it returns a value. *)
Definition orderly {T R A : Type} (c : py (world * T) R A) : Prop :=
  forall w,
    (exists infos,
       log (fst (snd (c w))) = log (fst w) ++ infos /\
       Forall (fun r => levelname r = INFO) infos) /\
    fst (c w) <> Returned None.

Definition info_record (text : string) : log_record :=
  {| logger_name := "health_insurance_mlops"; levelname := INFO; msg := Text text |}.

(** ** Sample inputs *)

Definition sample_request : PredictionInput :=
  {| age := 35; bmi := 25.5; children := 2; smoker := false;
     region := "SouthWest"; gender := "Female" |}.

Definition sample_datetime (n : nat) : datetime :=
  {| year := 2024; month := 3; day := 9; hour := 14; minute := 5;
     second := n; microsecond := 250 |}.

Definition sample_clock (n : nat) : float :=
  PrimFloat.of_uint63 (Uint63.of_Z (Z.of_nat n)).

(** A stub model that answers 7000.0 and carries a version. *)
Definition stub_model : LoadedModel :=
  {| model_predict := fun _ => inr [7000%float];
     version := Some "3"; metadata := [] |}.

(** A model handle with no [version] attribute. *)
Definition unversioned_model : LoadedModel :=
  {| model_predict := fun _ => inr [7000%float];
     version := None; metadata := [] |}.

(** Models whose invocation raises. *)
Definition failing_model (e : exn) : LoadedModel :=
  {| model_predict := fun _ => inl e; version := None; metadata := [] |}.

(** An error a model may raise, and a [ValueError] of its own. *)
Definition boom : exn := OtherError "RuntimeError" "boom".
Definition bad_shape : exn := ValueError "bad shape".

(** The sample request with one field moved outside its range or
    enumeration: the examples of the specification. *)
Definition request_with_age_150 : PredictionInput :=
  {| age := 150; bmi := 25.5; children := 2; smoker := false;
     region := "southwest"; gender := "female" |}.

Definition out_of_range_requests : list PredictionInput :=
  [ request_with_age_150;
    {| age := 35; bmi := 5; children := 2; smoker := false;
       region := "southwest"; gender := "female" |};
    {| age := 35; bmi := 25.5; children := 11; smoker := false;
       region := "southwest"; gender := "female" |};
    {| age := 35; bmi := 25.5; children := 2; smoker := false;
       region := "atlantis"; gender := "female" |};
    {| age := 35; bmi := 25.5; children := 2; smoker := false;
       region := "southwest"; gender := "x" |} ].

(** Two rows: the first within every range, the second outside each. *)
Definition two_row_frame : DataFrame :=
  [("age", Int64Series [30; 150]%Z);
   ("bmi", Float64Series [25.5; 80]%float);
   ("children", Int64Series [1; 20]%Z);
   ("smoker", BoolSeries [false; true]);
   ("region", ObjectSeries ["northeast"; "southwest"]);
   ("gender", ObjectSeries ["female"; "male"])].

(** Frames the structural validator turns down: one without the [gender]
    column, one whose ages are text, one without rows. *)
Definition frame_without_gender : DataFrame :=
  [("age", Int64Series [30]%Z);
   ("bmi", Float64Series [25.5]%float);
   ("children", Int64Series [1]%Z);
   ("smoker", BoolSeries [false]);
   ("region", ObjectSeries ["northeast"])].

Definition frame_with_text_ages : DataFrame :=
  [("age", ObjectSeries ["thirty"]);
   ("bmi", Float64Series [25.5]%float);
   ("children", Int64Series [1]%Z);
   ("smoker", BoolSeries [false]);
   ("region", ObjectSeries ["northeast"]);
   ("gender", ObjectSeries ["female"])].

Definition frame_without_rows : DataFrame :=
  [("age", Int64Series []);
   ("bmi", Float64Series []);
   ("children", Int64Series []);
   ("smoker", BoolSeries []);
   ("region", ObjectSeries []);
   ("gender", ObjectSeries [])].

(** A generator without chance: every draw repeats the least integer, the
    first option, the mean. *)
Definition constant_seed (seed : Z) : external unit unit :=
  fun r => (inr tt, r).

Definition constant_randint (lo hi : Z) (n : nat) (r : unit) : list Z * unit :=
  (repeat lo n, r).

Definition constant_choice (options : list string) (n : nat) (r : unit)
  : list string * unit :=
  (repeat (hd "" options) n, r).

Definition constant_normal (loc scale : float) (n : nat) (r : unit)
  : list float * unit :=
  (repeat loc n, r).

(** Rounding that leaves its argument alone stands in for [np.round]. *)
Definition no_rounding (x : float) (decimals : Z) : float := x.

(** A model whose [predict] answers with no prediction at all. *)
Definition empty_model : LoadedModel :=
  {| model_predict := fun _ => inr []; version := Some "3"; metadata := [] |}.

(** A registry that holds the stub model, and one that cannot be reached. *)
Definition sample_registry (tracking_uri model_uri : string)
  : exn + LoadedModel := inr stub_model.

Definition unreachable_registry (tracking_uri model_uri : string)
  : exn + LoadedModel := inl boom.

(** The sample request with its texts in other letter cases. *)
Definition sample_request_shouted : PredictionInput :=
  {| age := 35; bmi := 25.5; children := 2; smoker := false;
     region := "SOUTHWEST"; gender := "female" |}.

(** A request with three fields outside their rules. *)
Definition request_with_three_faults : PredictionInput :=
  {| age := 150; bmi := 5; children := 2; smoker := false;
     region := "atlantis"; gender := "female" |}.

(** A library for training that keeps the names of the calls made to it.
    Every call succeeds, except that the data file is not there. *)
Definition traced {A : Type} (name : string) (a : A)
  : external (list string) A :=
  fun t => (inr a, t ++ [name]).

Definition file_is_missing : exn :=
  OtherError "FileNotFoundError" "[Errno 2] No such file or directory".

Definition missing_file {A : Type} (path : string)
  : external (list string) A :=
  fun t => (inl file_is_missing, t ++ ["read_csv"]).

Definition sample_metrics_text (m : Metrics) : string := "{...}".

Definition sample_train_model
  : string -> py (world * list string) (string * Metrics) unit :=
  train_model (list string) unit unit unit unit unit unit unit
    sample_datetime "http://localhost:5000" "data/health_claims.csv"
    (fun _ _ => traced "log_param" tt)
    (fun _ _ => traced "log_preprocessor" tt)
    (fun _ => traced "to_json" "[]")
    (fun s => s)
    (fun _ => 0%Z)
    (fun _ => [])
    (fun _ => traced "fillna" tt)
    (fun _ => traced "ColumnTransformer" tt)
    (fun _ _ => traced "drop" tt)
    (fun _ _ => traced "getitem" tt)
    (fun _ _ _ _ => traced "train_test_split" (tt, tt, tt, tt))
    (fun _ _ => traced "fit_transform" tt)
    (fun _ _ => traced "transform" tt)
    (fun _ => traced "unique" [])
    (fun _ _ => traced "DataFrame" tt)
    missing_file
    (fun _ => traced "set_tracking_uri" tt)
    (fun _ => traced "set_experiment" tt)
    (traced "start_run" tt)
    (fun _ => traced "end_run" tt)
    (fun _ => "run-1")
    (fun _ _ => traced "RandomForestRegressor" tt)
    (fun _ => traced "log_params" tt)
    (fun _ _ _ => traced "fit" tt)
    (fun _ _ => traced "predict" tt)
    (fun _ _ => traced "mean_squared_error" 4%float)
    (fun _ _ => traced "mean_absolute_error" 1%float)
    (fun _ _ => traced "r2_score" 0.5%float)
    (fun _ => traced "log_metrics" tt)
    (fun _ _ => traced "feature_importances" tt)
    (fun _ _ _ => traced "log_model" tt)
    sample_metrics_text.

(* ================================================================== *)
(** * Part III. Properties *)
(* ================================================================== *)

(** ** Case-insensitive comparison *)

Lemma is_upper_bounds (c : ascii) :
  is_upper c = true <-> 65 <= nat_of_ascii c <= 90.
Proof.
  unfold is_upper. rewrite andb_true_iff, !Nat.leb_le. reflexivity.
Qed.

Lemma nat_of_lower_upper (c : ascii) :
  is_upper c = true ->
  nat_of_ascii (ascii_of_nat (nat_of_ascii c + 32)) = nat_of_ascii c + 32.
Proof.
  intros H. apply is_upper_bounds in H.
  apply nat_ascii_embedding. lia.
Qed.

Lemma lower_char_not_upper (c : ascii) : is_upper (lower_char c) = false.
Proof.
  unfold lower_char. destruct (is_upper c) eqn:E; [|exact E].
  apply not_true_is_false. intros H.
  apply is_upper_bounds in H. rewrite nat_of_lower_upper in H by exact E.
  apply is_upper_bounds in E. lia.
Qed.

Lemma same_letter_lower (a b : ascii) :
  is_upper b = false -> (same_letter a b <-> lower_char a = b).
Proof.
  intros Hb. unfold same_letter, lower_char. split.
  - intros [-> | [[Ha Hab] | [Hb' _]]].
    + now rewrite Hb.
    + rewrite Ha, <- Hab. apply ascii_nat_embedding.
    + congruence.
  - destruct (is_upper a) eqn:Ha; intros <-.
    + right; left. split; [reflexivity|]. now apply nat_of_lower_upper.
    + now left.
Qed.

Lemma eq_nocase_lower (s t : string) :
  is_lower_case t = true -> (eq_nocase s t <-> lower s = t).
Proof.
  revert t. induction s as [|a s IH]; intros [|b t]; simpl; intros Ht.
  - tauto.
  - split; [tauto | discriminate].
  - split; [tauto | discriminate].
  - apply andb_true_iff in Ht as [Hb Ht]. apply negb_true_iff in Hb.
    rewrite (same_letter_lower a b Hb), (IH t Ht). split.
    + intros [-> ->]. reflexivity.
    + intros H. injection H as -> ->. tauto.
Qed.

Lemma lower_is_lower_case (s : string) : is_lower_case (lower s) = true.
Proof.
  induction s as [|c s IH]; simpl; [reflexivity|].
  now rewrite lower_char_not_upper, IH.
Qed.

Lemma str_in_In (x : string) (xs : list string) : str_in x xs = true <-> In x xs.
Proof.
  unfold str_in. rewrite existsb_exists. split.
  - intros [y [Hy E]]. apply String.eqb_eq in E. now subst.
  - intros H. exists x. split; [exact H | apply String.eqb_refl].
Qed.

Lemma in_enumeration_lower (v : string) (names : list string) :
  forallb is_lower_case names = true ->
  (in_enumeration v names <-> str_in (lower v) names = true).
Proof.
  intros Hnames. rewrite forallb_forall in Hnames.
  rewrite str_in_In. unfold in_enumeration. split.
  - intros [name [Hin E]].
    apply (eq_nocase_lower v name (Hnames name Hin)) in E. now rewrite E.
  - intros Hin. exists (lower v). split; [exact Hin|].
    apply eq_nocase_lower; [apply lower_is_lower_case | reflexivity].
Qed.

(** ** The field validators *)

Lemma validate_age_ok (v : Z) : (0 <= v <= 100)%Z <-> validate_age v = inr v.
Proof.
  unfold validate_age.
  destruct (0 <=? v)%Z eqn:E1, (v <=? 100)%Z eqn:E2; simpl;
    (split; [intros H | intros H; try discriminate]); try reflexivity; lia.
Qed.

Lemma validate_children_ok (v : Z) : (0 <= v <= 10)%Z <-> validate_children v = inr v.
Proof.
  unfold validate_children.
  destruct (0 <=? v)%Z eqn:E1, (v <=? 10)%Z eqn:E2; simpl;
    (split; [intros H | intros H; try discriminate]); try reflexivity; lia.
Qed.

Lemma validate_bmi_ok (v : float) :
  PrimFloat.leb 10 v = true /\ PrimFloat.leb v 50 = true <-> validate_bmi v = inr v.
Proof.
  unfold validate_bmi.
  destruct (PrimFloat.leb 10 v), (PrimFloat.leb v 50); simpl;
    (split; [intros [? ?] | intros H; try discriminate]);
    try reflexivity; try discriminate; auto.
Qed.

Lemma validate_region_ok (v : string) :
  in_enumeration v valid_regions <-> validate_region v = inr (lower v).
Proof.
  rewrite in_enumeration_lower by reflexivity. unfold validate_region.
  destruct (str_in (lower v) valid_regions); simpl; split;
    intros H; try reflexivity; discriminate.
Qed.

Lemma validate_gender_ok (v : string) :
  in_enumeration v valid_genders <-> validate_gender v = inr (lower v).
Proof.
  rewrite in_enumeration_lower by reflexivity. unfold validate_gender.
  destruct (str_in (lower v) valid_genders); simpl; split;
    intros H; try reflexivity; discriminate.
Qed.

(** A validator hands back its input (lower-cased for the two names) or an
    error, nothing else. *)
Lemma validate_age_inv (v a : Z) : validate_age v = inr a -> a = v.
Proof. unfold validate_age. destruct (negb _); congruence. Qed.

Lemma validate_bmi_inv (v b : float) : validate_bmi v = inr b -> b = v.
Proof. unfold validate_bmi. destruct (negb _); congruence. Qed.

Lemma validate_children_inv (v c : Z) : validate_children v = inr c -> c = v.
Proof. unfold validate_children. destruct (negb _); congruence. Qed.

Lemma validate_region_inv (v r : string) : validate_region v = inr r -> r = lower v.
Proof. unfold validate_region. destruct (negb _); congruence. Qed.

Lemma validate_gender_inv (v g : string) : validate_gender v = inr g -> g = lower v.
Proof. unfold validate_gender. destruct (negb _); congruence. Qed.

Lemma parse_PredictionInput_inr (raw parsed : PredictionInput) :
  parse_PredictionInput raw = inr parsed <->
  validate_age (age raw) = inr (age raw) /\
  validate_bmi (bmi raw) = inr (bmi raw) /\
  validate_children (children raw) = inr (children raw) /\
  validate_region (region raw) = inr (lower (region raw)) /\
  validate_gender (gender raw) = inr (lower (gender raw)) /\
  parsed = normalized raw.
Proof.
  unfold parse_PredictionInput, normalized.
  destruct (validate_age (age raw)) as [ea|a] eqn:Ea,
           (validate_bmi (bmi raw)) as [eb|b] eqn:Eb,
           (validate_children (children raw)) as [ec|c] eqn:Ec,
           (validate_region (region raw)) as [er|r] eqn:Er,
           (validate_gender (gender raw)) as [eg|g] eqn:Eg;
    (split; [intros H; try discriminate | intros (?&?&?&?&?&?); try discriminate]).
  - apply validate_age_inv in Ea. apply validate_bmi_inv in Eb.
    apply validate_children_inv in Ec. apply validate_region_inv in Er.
    apply validate_gender_inv in Eg. subst. injection H as <-. auto 10.
  - congruence.
Qed.

Lemma parse_PredictionInput_inl (raw : PredictionInput) (errors : list (string * string)) :
  parse_PredictionInput raw = inl errors -> errors <> [].
Proof.
  unfold parse_PredictionInput.
  destruct (validate_age (age raw)), (validate_bmi (bmi raw)),
           (validate_children (children raw)), (validate_region (region raw)),
           (validate_gender (gender raw));
    simpl; intros H; try discriminate; injection H as <-; discriminate.
Qed.

Lemma in_ranges_parse (raw : PredictionInput) :
  in_ranges raw <-> parse_PredictionInput raw = inr (normalized raw).
Proof.
  rewrite parse_PredictionInput_inr.
  rewrite <- validate_age_ok, <- validate_bmi_ok, <- validate_children_ok,
          <- validate_region_ok, <- validate_gender_ok.
  split.
  - intros [? ? ? ? ?]. auto 10.
  - intros (?&?&?&?&?&_). constructor; assumption.
Qed.

Lemma normalized_in_ranges (raw : PredictionInput) :
  in_ranges raw ->
  is_lower_case (region (normalized raw)) = true /\
  is_lower_case (gender (normalized raw)) = true /\
  In (region (normalized raw)) valid_regions /\
  In (gender (normalized raw)) valid_genders.
Proof.
  intros [_ _ _ Hr Hg].
  apply in_enumeration_lower in Hr; [|reflexivity].
  apply in_enumeration_lower in Hg; [|reflexivity].
  apply str_in_In in Hr. apply str_in_In in Hg.
  unfold normalized; cbn [region gender].
  rewrite !lower_is_lower_case. auto.
Qed.

(** C1. A request whose age, bmi and children lie in the documented ranges
    and whose region and gender belong to the fixed enumerations, case
    ignored, is accepted and comes back with region and gender in lower
    case (and as names of the enumerations); a request that breaks any rule
    is rejected as a whole, with at least one error. *)
Theorem parse_PredictionInput_accepts_exactly_in_ranges (raw : PredictionInput) :
  (in_ranges raw ->
     parse_PredictionInput raw = inr (normalized raw) /\
     is_lower_case (region (normalized raw)) = true /\
     is_lower_case (gender (normalized raw)) = true /\
     In (region (normalized raw)) valid_regions /\
     In (gender (normalized raw)) valid_genders) /\
  (~ in_ranges raw ->
     exists errors, errors <> [] /\ parse_PredictionInput raw = inl errors).
Proof.
  split.
  - intros H. split; [now apply in_ranges_parse | now apply normalized_in_ranges].
  - intros H. destruct (parse_PredictionInput raw) as [errors|parsed] eqn:E.
    + exists errors. split; [now apply (parse_PredictionInput_inl raw) | reflexivity].
    + exfalso. apply H. apply in_ranges_parse.
      pose proof (proj1 (parse_PredictionInput_inr raw parsed) E) as (_&_&_&_&_&->).
      exact E.
Qed.

(** ** Floats *)

Lemma SFcompare_refl (x : spec_float) :
  x <> S754_nan -> SFcompare x x = Some Eq.
Proof.
  destruct x as [[]|[]| |[] m e]; simpl; try congruence; intros _;
    now rewrite Z.compare_refl, Pos.compare_refl.
Qed.

Lemma leb_not_nan_r (x y : float) :
  PrimFloat.leb x y = true -> PrimFloat.is_nan y = false.
Proof.
  unfold PrimFloat.is_nan. rewrite leb_spec, eqb_spec. unfold SFleb, SFeqb.
  intros H. rewrite SFcompare_refl; [reflexivity|].
  intros E. rewrite E in H.
  destruct (Prim2SF x) as [[]|[]| |[] ? ?]; discriminate.
Qed.

(** ** The structural validator *)


Ltac break_match :=
  match goal with
  | |- context [match ?x with _ => _ end] =>
      lazymatch x with
      | context [match _ with _ => _ end] => fail
      | _ => destruct x eqn:?
      end
  end.

Ltac unfold_py :=
  unfold try_except, bind, when, lift, ret, return_, return_value, raise,
    modify, gets, handle, call, with_exit, is_Exception in *.

Lemma validate_input_data_passes (data : DataFrame) (w : world) :
  passes_validation data = true ->
  validate_input_data data w = (Returned (Some true), w).
Proof.
  unfold passes_validation, validate_input_data, logging_error. unfold_py. cbn.
  repeat (break_match; cbn; try discriminate; try reflexivity).
Qed.


Lemma validate_input_data_fails (data : DataFrame) (w : world) :
  passes_validation data = false ->
  exists w', validate_input_data data w = (Returned (Some false), w') /\
             validation_failed w w'.
Proof.
  unfold passes_validation, validate_input_data, logging_error, validation_failed.
  unfold_py. cbn.
  repeat (break_match; cbn; try discriminate).
  all: intros _; eexists; (split; [reflexivity|]); cbn; repeat split;
    solve [ exists []; now rewrite app_nil_r | eexists; reflexivity ].
Qed.

Lemma float_of_int_bounds :
  float_of_int 0 = 0%float /\ float_of_int 10 = 10%float /\
  float_of_int 50 = 50%float /\ float_of_int 100 = 100%float.
Proof. repeat split; reflexivity. Qed.

Lemma validated_input_passes (raw : PredictionInput) :
  in_ranges raw ->
  passes_validation (DataFrame_of_input (normalized raw)) = true.
Proof.
  intros [[Ha1 Ha2] [Hb1 Hb2] [Hc1 Hc2] _ _].
  unfold passes_validation, validate_input_data. unfold_py. cbn.
  rewrite (leb_not_nan_r _ _ Hb1). cbn.
  apply Z.leb_le in Ha1, Ha2, Hc1, Hc2.
  rewrite Ha1, Ha2, Hc1, Hc2. cbn.
  rewrite Hb1, Hb2. reflexivity.
Qed.

(** ** Timestamps *)

Lemma is_digit_digit (n : nat) : is_digit (digit n) = true.
Proof.
  unfold is_digit, digit.
  pose proof (Nat.mod_upper_bound n 10 ltac:(discriminate)) as H.
  rewrite nat_ascii_embedding by lia.
  apply andb_true_iff. split; apply Nat.leb_le; lia.
Qed.

Lemma digits_zero_padded (width n : nat) (rest : string) :
  digits width (zero_padded width n ++ rest) = Some rest.
Proof.
  induction width as [|width IH]; cbn [digits zero_padded append]; [reflexivity|].
  now rewrite is_digit_digit.
Qed.

Lemma digits_zero_padded_end (width n : nat) :
  digits width (zero_padded width n) = Some "".
Proof.
  induction width as [|width IH]; cbn [digits zero_padded]; [reflexivity|].
  now rewrite is_digit_digit.
Qed.

Lemma isoformat_is_iso8601 (d : datetime) : is_iso8601 (isoformat d) = true.
Proof.
  unfold is_iso8601, isoformat.
  rewrite digits_zero_padded. cbn [and_then append char Ascii.eqb Bool.eqb].
  rewrite digits_zero_padded. cbn [and_then append char Ascii.eqb Bool.eqb].
  rewrite digits_zero_padded. cbn [and_then append char Ascii.eqb Bool.eqb].
  rewrite digits_zero_padded. cbn [and_then append char Ascii.eqb Bool.eqb].
  rewrite digits_zero_padded. cbn [and_then append char Ascii.eqb Bool.eqb].
  rewrite digits_zero_padded. cbn [and_then].
  destruct (microsecond d =? 0)%nat; [reflexivity|].
  cbn [and_then append char Ascii.eqb Bool.eqb].
  now rewrite digits_zero_padded_end.
Qed.


Arguments isoformat : simpl never.
Arguments validate_input_data : simpl never.
Arguments max_0 : simpl never.
Arguments model_dot_predict : simpl never.
Arguments DataFrame_of_input : simpl never.
Arguments getattr_version : simpl never.
Arguments str : simpl never.
Arguments predict : simpl never.
Arguments parse_PredictionInput : simpl never.

Ltac world_simpl :=
  cbn [PREDICTION_COUNTER PREDICTION_LATENCY DATA_VALIDATION_ERRORS log
       mlflow_metrics ticks model inc_PREDICTION_COUNTER
       observe_PREDICTION_LATENCY inc_DATA_VALIDATION_ERRORS emit
       record_mlflow_metric tick set_model unassign_model Nat.add fst snd
       status_code body].

Tactic Notation "world_simpl" "in" hyp(H) :=
  cbn [PREDICTION_COUNTER PREDICTION_LATENCY DATA_VALIDATION_ERRORS log
       mlflow_metrics ticks model inc_PREDICTION_COUNTER
       observe_PREDICTION_LATENCY inc_DATA_VALIDATION_ERRORS emit
       record_mlflow_metric tick set_model unassign_model Nat.add fst snd
       status_code body] in H.

Section ServingProperties.

Variable datetime_now : nat -> datetime.
Variable time_time : nat -> float.
Variable default_timer : nat -> float.
Variable MLFLOW_TRACKING_URI : string.
Variable mlflow_pyfunc_load_model : string -> string -> exn + LoadedModel.


Lemma predict_success (m : option LoadedModel) (data : DataFrame)
  (predictions : list float) (w : world) :
  passes_validation data = true ->
  model_dot_predict m data = inr predictions ->
  exists w',
    predict datetime_now default_timer m data w = (Returned (Some predictions), w') /\
    PREDICTION_COUNTER w' = S (PREDICTION_COUNTER w) /\
    PREDICTION_LATENCY w' =
      PREDICTION_LATENCY w ++
      [max_0 (PrimFloat.sub (default_timer (2 + ticks w)) (default_timer (ticks w)))] /\
    DATA_VALIDATION_ERRORS w' = DATA_VALIDATION_ERRORS w /\
    log w' = log w ++
      [access_record (datetime_now (1 + ticks w)) "prediction_success"] /\
    mlflow_metrics w' = mlflow_metrics w /\
    ticks w' = 3 + ticks w /\
    model w' = model w.
Proof.
  intros Hv Hm.
  unfold predict, monitor_prediction, predict_try1, log_model_access, logger_info,
    timer, now.
  unfold_py. cbn.
  rewrite (validate_input_data_passes data _ Hv). cbn.
  rewrite Hm. cbn.
  eexists. split; [reflexivity|]. cbn. repeat split.
Qed.

Lemma predict_model_raises (m : option LoadedModel) (data : DataFrame)
  (e : exn) (w : world) :
  passes_validation data = true ->
  model_dot_predict m data = inl e ->
  exists w',
    predict datetime_now default_timer m data w = (Raised e, w') /\
    PREDICTION_COUNTER w' = S (PREDICTION_COUNTER w) /\
    PREDICTION_LATENCY w' =
      PREDICTION_LATENCY w ++
      [max_0 (PrimFloat.sub (default_timer (2 + ticks w)) (default_timer (ticks w)))] /\
    DATA_VALIDATION_ERRORS w' = DATA_VALIDATION_ERRORS w /\
    log w' = log w ++
      [error_record ("Prediction error: " ++ str e);
       access_record (datetime_now (1 + ticks w)) ("prediction_error: " ++ str e)] /\
    mlflow_metrics w' = mlflow_metrics w /\
    ticks w' = 3 + ticks w /\
    model w' = model w.
Proof.
  intros Hv Hm.
  unfold predict, monitor_prediction, predict_try1, log_model_access, logger_info,
    logger_error, timer, now.
  unfold_py. cbn.
  rewrite (validate_input_data_passes data _ Hv). cbn.
  rewrite Hm. cbn.
  eexists. split; [reflexivity|]. cbn. rewrite <- app_assoc. repeat split.
Qed.

Lemma predict_invalid (m : option LoadedModel) (data : DataFrame) (w : world) :
  passes_validation data = false ->
  exists w',
    predict datetime_now default_timer m data w =
      (Raised (ValueError "Invalid input data format"), w') /\
    PREDICTION_COUNTER w' = S (PREDICTION_COUNTER w) /\
    PREDICTION_LATENCY w' =
      PREDICTION_LATENCY w ++
      [max_0 (PrimFloat.sub (default_timer (2 + ticks w)) (default_timer (ticks w)))] /\
    DATA_VALIDATION_ERRORS w' = S (DATA_VALIDATION_ERRORS w) /\
    mlflow_metrics w' = mlflow_metrics w /\
    ticks w' = 3 + ticks w /\
    model w' = model w.
Proof.
  intros Hv.
  unfold predict, monitor_prediction, predict_try1, log_model_access, logger_info,
    logger_error, timer, now.
  unfold_py. cbn.
  destruct (validate_input_data_fails data
              (tick (inc_PREDICTION_COUNTER w)) Hv) as (w1 & -> & H).
  destruct H as (Hd & Hc & Hl & Hf & Ht & Hm & _). cbn.
  eexists. split; [reflexivity|]. cbn.
  rewrite Hd, Hc, Hl, Hf, Ht, Hm. cbn. repeat split.
Qed.

(** *** The endpoint, case by case *)

Lemma post_predict_rejected (raw : PredictionInput) (w : world)
  (errors : list (string * string)) :
  parse_PredictionInput raw = inl errors ->
  post_predict datetime_now time_time default_timer raw w =
    ({| status_code := 422; body := ValidationErrorsJSON errors |}, w).
Proof. intros E. unfold post_predict. now rewrite E. Qed.

Lemma post_predict_model_unassigned (raw : PredictionInput) (w : world) :
  in_ranges raw ->
  model w = None ->
  exists w',
    post_predict datetime_now time_time default_timer raw w =
      ({| status_code := 500;
          body := DetailJSON "name 'model' is not defined" |}, w') /\
    PREDICTION_COUNTER w' = PREDICTION_COUNTER w /\
    model w' = model w.
Proof.
  intros Hr Hm. apply in_ranges_parse in Hr.
  unfold post_predict. rewrite Hr.
  unfold make_prediction, make_prediction_try1, global_model, time, logger_error.
  unfold_py. cbn. rewrite Hm. cbn.
  eexists. split; [reflexivity|]. cbn. auto.
Qed.

Lemma post_predict_model_raises (raw : PredictionInput) (w : world)
  (m : option LoadedModel) (e : exn) :
  in_ranges raw ->
  model w = Some m ->
  model_dot_predict m (DataFrame_of_input (normalized raw)) = inl e ->
  exists w',
    post_predict datetime_now time_time default_timer raw w =
      ({| status_code := if is_ValueError e then 400 else 500;
          body := DetailJSON (str e) |}, w') /\
    log w' = log w ++
      [error_record ("Prediction error: " ++ str e);
       access_record (datetime_now (2 + ticks w)) ("prediction_error: " ++ str e);
       error_record ((if is_ValueError e then "Validation error: "
                      else "Prediction error: ") ++ str e)] /\
    PREDICTION_COUNTER w' = S (PREDICTION_COUNTER w) /\
    DATA_VALIDATION_ERRORS w' = DATA_VALIDATION_ERRORS w /\
    mlflow_metrics w' = mlflow_metrics w /\
    model w' = model w.
Proof.
  intros Hr Hm He. pose proof (validated_input_passes raw Hr) as Hv.
  apply in_ranges_parse in Hr.
  unfold post_predict. rewrite Hr.
  unfold make_prediction, make_prediction_try1, global_model, time, logger_error.
  unfold_py. cbn. rewrite Hm. cbn.
  destruct (predict_model_raises m _ e (tick w) Hv He)
    as (w1 & -> & Hc & Hl & Hd & Hg & Hf & Ht & Hmod).
  world_simpl in Hg. world_simpl in Hc. world_simpl in Hd.
  world_simpl in Hf. world_simpl in Hmod.
  destruct e; cbn; (eexists; split; [reflexivity|]); world_simpl;
    rewrite Hg, Hc, Hd, Hf, Hmod, <- app_assoc; repeat split; assumption.
Qed.

Lemma post_predict_no_prediction (raw : PredictionInput) (w : world)
  (m : option LoadedModel) :
  in_ranges raw ->
  model w = Some m ->
  model_dot_predict m (DataFrame_of_input (normalized raw)) = inr [] ->
  exists w',
    post_predict datetime_now time_time default_timer raw w =
      ({| status_code := 500; body := DetailJSON "list index out of range" |}, w') /\
    PREDICTION_COUNTER w' = S (PREDICTION_COUNTER w) /\
    model w' = model w.
Proof.
  intros Hr Hm He. pose proof (validated_input_passes raw Hr) as Hv.
  apply in_ranges_parse in Hr.
  unfold post_predict. rewrite Hr.
  unfold make_prediction, make_prediction_try1, global_model, time, logger_error.
  unfold_py. cbn. rewrite Hm. cbn.
  destruct (predict_success m _ [] (tick w) Hv He)
    as (w1 & -> & Hc & Hl & Hd & Hg & Hf & Ht & Hmod).
  world_simpl in Hc. world_simpl in Hmod. cbn.
  eexists; split; [reflexivity|]. world_simpl. rewrite Hc, Hmod. auto.
Qed.

Lemma post_predict_success (raw : PredictionInput) (w : world)
  (m : option LoadedModel) (p : float) (ps : list float) :
  in_ranges raw ->
  model w = Some m ->
  model_dot_predict m (DataFrame_of_input (normalized raw)) = inr (p :: ps) ->
  exists w',
    post_predict datetime_now time_time default_timer raw w =
      ({| status_code := 200;
          body := PredictionJSON
                    {| prediction := p;
                       model_version := getattr_version m "unknown";
                       prediction_time := isoformat (datetime_now (5 + ticks w)) |} |},
       w') /\
    PREDICTION_COUNTER w' = S (PREDICTION_COUNTER w) /\
    DATA_VALIDATION_ERRORS w' = DATA_VALIDATION_ERRORS w /\
    log w' = log w ++
      [access_record (datetime_now (2 + ticks w)) "prediction_success"] /\
    model w' = model w.
Proof.
  intros Hr Hm He. pose proof (validated_input_passes raw Hr) as Hv.
  apply in_ranges_parse in Hr.
  unfold post_predict. rewrite Hr.
  unfold make_prediction, make_prediction_try1, global_model, time, now, logger_error.
  unfold_py. cbn. rewrite Hm. cbn.
  destruct (predict_success m _ (p :: ps) (tick w) Hv He)
    as (w1 & -> & Hc & Hl & Hd & Hg & Hf & Ht & Hmod).
  world_simpl in Hc. world_simpl in Hd. world_simpl in Hg.
  world_simpl in Ht. world_simpl in Hmod.
  cbn. rewrite Hmod, Hm. cbn. rewrite Ht.
  eexists; split; [reflexivity|]. world_simpl. rewrite Hc, Hd, Hg, Hmod. auto.
Qed.
Lemma post_predict_answer (raw : PredictionInput) (w : world) :
  let r := fst (post_predict datetime_now time_time default_timer raw w) in
  (status_code r, without_time (body r)) = expected_answer raw (model w) /\
  model (snd (post_predict datetime_now time_time default_timer raw w)) = model w.
Proof.
  unfold expected_answer.
  destruct (parse_PredictionInput raw) as [errors|parsed] eqn:E.
  - rewrite (post_predict_rejected raw w errors E). split; reflexivity.
  - pose proof (proj1 (parse_PredictionInput_inr raw parsed) E) as (_&_&_&_&_&->).
    apply in_ranges_parse in E.
    destruct (model w) as [m|] eqn:Hm.
    + destruct (model_dot_predict m (DataFrame_of_input (normalized raw)))
        as [e|[|p ps]] eqn:He.
      * destruct (post_predict_model_raises raw w m e E Hm He)
          as (w' & -> & _ & _ & _ & _ & Hmod).
        split; [reflexivity | now rewrite <- Hm].
      * destruct (post_predict_no_prediction raw w m E Hm He) as (w' & -> & _ & Hmod).
        split; [reflexivity | now rewrite <- Hm].
      * destruct (post_predict_success raw w m p ps E Hm He)
          as (w' & -> & _ & _ & _ & Hmod).
        split; [reflexivity | now rewrite <- Hm].
    + destruct (post_predict_model_unassigned raw w E Hm) as (w' & -> & _ & Hmod).
      split; [reflexivity | now rewrite <- Hm].
Qed.

(** C2, as amended. When the request is within the rules and the model
    invocation raises an error [e] that is not a [ValueError], the endpoint
    logs the cause and answers 500 with the cause's own text as the detail:
    [str(e)], word for word. *)
Theorem post_predict_reports_the_cause (raw : PredictionInput) (w : world)
  (m : option LoadedModel) (e : exn) :
  in_ranges raw ->
  model w = Some m ->
  model_dot_predict m (DataFrame_of_input (normalized raw)) = inl e ->
  is_ValueError e = false ->
  exists w',
    post_predict datetime_now time_time default_timer raw w =
      ({| status_code := 500; body := DetailJSON (str e) |}, w') /\
    In (error_record ("Prediction error: " ++ str e)) (log w').
Proof.
  intros Hr Hm He Hv.
  destruct (post_predict_model_raises raw w m e Hr Hm He) as (w' & Hrun & Hlog & _).
  rewrite Hv in Hrun.
  exists w'. split; [exact Hrun|].
  rewrite Hlog. apply in_or_app. right. left. reflexivity.
Qed.

(** C3. A request with a field outside its range or enumeration gets a
    400-class answer (422, the framework's status for a body that does not
    validate) whose detail lists the violations; the handler does not run,
    the world is left as it was, and so the prediction counter has not
    moved. *)
Theorem post_predict_rejects_out_of_range (raw : PredictionInput) (w : world) :
  ~ in_ranges raw ->
  exists errors,
    errors <> [] /\
    post_predict datetime_now time_time default_timer raw w =
      ({| status_code := 422; body := ValidationErrorsJSON errors |}, w) /\
    400 <= status_code
             (fst (post_predict datetime_now time_time default_timer raw w)) < 500 /\
    PREDICTION_COUNTER
      (snd (post_predict datetime_now time_time default_timer raw w)) =
    PREDICTION_COUNTER w.
Proof.
  intros H.
  destruct (parse_PredictionInput raw) as [errors|parsed] eqn:E.
  - exists errors. rewrite (post_predict_rejected raw w errors E).
    split; [now apply (parse_PredictionInput_inl raw)|].
    split; [reflexivity|]. cbn. split; [lia | reflexivity].
  - exfalso. apply H. apply in_ranges_parse.
    pose proof (proj1 (parse_PredictionInput_inr raw parsed) E) as (_&_&_&_&_&->).
    exact E.
Qed.

(** C4, as amended. When the model invocation raises an error, [predict]
    logs the cause, writes a [prediction_error] audit entry, and raises the
    same error to its caller, so no default value is returned. The
    prediction counter has gone up by one, as for every call; no error
    counter has moved. *)
Theorem predict_reraises_model_error (m : option LoadedModel) (data : DataFrame)
  (e : exn) (w : world) :
  passes_validation data = true ->
  model_dot_predict m data = inl e ->
  exists w',
    predict datetime_now default_timer m data w = (Raised e, w') /\
    log w' = log w ++
      [error_record ("Prediction error: " ++ str e);
       access_record (datetime_now (1 + ticks w)) ("prediction_error: " ++ str e)] /\
    PREDICTION_COUNTER w' = S (PREDICTION_COUNTER w) /\
    ~ error_counter_incremented w w'.
Proof.
  intros Hv He.
  destruct (predict_model_raises m data e w Hv He)
    as (w' & Hrun & Hc & _ & Hd & Hg & Hf & _).
  exists w'. repeat split; try assumption.
  intros [H | H]; contradiction.
Qed.

(** C7. The same request issued twice, the second time in the world the
    first left behind, gets the same status and, timestamps aside, the same
    body: in particular the same [prediction] and [model_version]. *)
Theorem post_predict_twice (raw : PredictionInput) (w : world) :
  let first := post_predict datetime_now time_time default_timer raw w in
  let second := post_predict datetime_now time_time default_timer raw (snd first) in
  status_code (fst first) = status_code (fst second) /\
  prediction_of (body (fst first)) = prediction_of (body (fst second)) /\
  model_version_of (body (fst first)) = model_version_of (body (fst second)) /\
  without_time (body (fst first)) = without_time (body (fst second)).
Proof.
  intros first second.
  destruct (post_predict_answer raw w) as [H1 Hmod].
  destruct (post_predict_answer raw (snd first)) as [H2 _].
  fold first in H1, Hmod. fold second in H2.
  rewrite Hmod, <- H1 in H2. injection H2 as Hs Hb.
  assert (P : forall c c', without_time c = without_time c' ->
                prediction_of c = prediction_of c' /\
                model_version_of c = model_version_of c').
  { intros [o| | |] [o'| | |]; simpl; intros E; try discriminate; auto.
    injection E as -> ->. auto. }
  destruct (P _ _ Hb). auto.
Qed.

(** C9. Every call of [predict] raises the prediction counter by exactly one
    and records exactly one latency observation, the time between the two
    readings of the histogram's timer, whether the call returns the
    predictions or raises (structural validation failed, or the model
    raised). The counter counts attempts. *)
Theorem predict_counts_every_call (m : option LoadedModel) (data : DataFrame)
  (w : world) :
  exists c w',
    predict datetime_now default_timer m data w = (c, w') /\
    PREDICTION_COUNTER w' = S (PREDICTION_COUNTER w) /\
    PREDICTION_LATENCY w' =
      PREDICTION_LATENCY w ++
      [max_0 (PrimFloat.sub (default_timer (2 + ticks w)) (default_timer (ticks w)))] /\
    match c with
    | Returned (Some predictions) =>
        passes_validation data = true /\
        model_dot_predict m data = inr predictions
    | Raised e =>
        (passes_validation data = false /\
         e = ValueError "Invalid input data format") \/
        (passes_validation data = true /\ model_dot_predict m data = inl e)
    | _ => False
    end.
Proof.
  destruct (passes_validation data) eqn:Hv.
  - destruct (model_dot_predict m data) as [e|predictions] eqn:He.
    + destruct (predict_model_raises m data e w Hv He) as (w' & Hrun & Hc & Hl & _).
      exists (Raised e), w'. auto 10.
    + destruct (predict_success m data predictions w Hv He)
        as (w' & Hrun & Hc & Hl & _).
      exists (Returned (Some predictions)), w'. auto 10.
  - destruct (predict_invalid m data w Hv) as (w' & Hrun & Hc & Hl & _).
    exists (Raised (ValueError "Invalid input data format")), w'. auto 10.
Qed.

(** C10. A 200 answer of [POST /predict] carries as [model_version] the
    [version] attribute of the loaded model when it has one and the text
    [unknown] when it has none; and a model without the attribute does get
    a 200 answer, whenever the request is within the rules and the model
    yields a prediction. *)
Theorem post_predict_model_version (raw : PredictionInput) (w : world) :
  (forall r w',
     post_predict datetime_now time_time default_timer raw w = (r, w') ->
     status_code r = 200 ->
     exists out m,
       body r = PredictionJSON out /\
       model w = Some (Some m) /\
       model_version out =
         match version m with Some v => v | None => "unknown" end) /\
  (forall m p ps,
     in_ranges raw ->
     model w = Some (Some m) ->
     version m = None ->
     model_predict m (DataFrame_of_input (normalized raw)) = inr (p :: ps) ->
     exists out w',
       post_predict datetime_now time_time default_timer raw w =
         ({| status_code := 200; body := PredictionJSON out |}, w') /\
       prediction out = p /\
       model_version out = "unknown").
Proof.
  split.
  - intros r w' Hrun Hs.
    destruct (post_predict_answer raw w) as [H _]. rewrite Hrun in H.
    cbn [fst] in H. unfold expected_answer in H. rewrite Hs in H.
    destruct (parse_PredictionInput raw) as [errors|parsed]; [discriminate|].
    destruct (model w) as [obj|]; [|discriminate].
    destruct (model_dot_predict obj (DataFrame_of_input parsed))
      as [e|[|p ps]] eqn:He; try discriminate.
    + destruct (is_ValueError e); discriminate.
    + destruct obj as [m|]; [|discriminate].
      injection H as H. destruct (body r) as [out| | |]; try discriminate.
      injection H as _ Hv. exists out, m. auto.
  - intros m p ps Hr Hm Hv He.
    destruct (post_predict_success raw w (Some m) p ps Hr Hm He) as (w' & Hrun & _).
    eexists _, w'. split; [exact Hrun|]. cbn. unfold getattr_version.
    rewrite Hv. auto.
Qed.

(** *** Start-up and liveness *)

(** When the registry cannot deliver the production model, [startup_event]
    logs twice and raises, and the global [model] stays as it was. *)
Lemma startup_event_load_failure (e : exn) (w : world) :
  mlflow_pyfunc_load_model MLFLOW_TRACKING_URI
    "models:/health_claim_cost_model/Production" = inl e ->
  exists w',
    startup_event datetime_now MLFLOW_TRACKING_URI mlflow_pyfunc_load_model w =
      (Raised e, w') /\
    model w' = model w /\
    log w' = log w ++
      [error_record ("Error loading production model: " ++ str e);
       error_record ("Error loading model on startup: " ++ str e)].
Proof.
  intros H.
  unfold startup_event, get_latest_model, logger_error. unfold_py.
  change ("models:/" ++ MODEL_NAME ++ "/Production")%string
    with "models:/health_claim_cost_model/Production".
  rewrite H. cbn.
  eexists. split; [reflexivity|]. world_simpl.
  rewrite <- app_assoc. split; reflexivity.
Qed.

(** When it can, the global [model] is bound to the handle. *)
Lemma startup_event_load_success (m : LoadedModel) (w : world) :
  mlflow_pyfunc_load_model MLFLOW_TRACKING_URI
    "models:/health_claim_cost_model/Production" = inr m ->
  exists w',
    startup_event datetime_now MLFLOW_TRACKING_URI mlflow_pyfunc_load_model w =
      (Normal tt, w') /\
    model w' = Some (Some m).
Proof.
  intros H.
  unfold startup_event, get_latest_model, log_model_access, logger_info, now.
  unfold_py.
  change ("models:/" ++ MODEL_NAME ++ "/Production")%string
    with "models:/health_claim_cost_model/Production".
  rewrite H. cbn.
  eexists. split; reflexivity.
Qed.

(** C6. [GET /health] answers 200 with the status [healthy] and the current
    time in ISO-8601 format, in every world: the handler reads the clock and
    nothing else, neither the global [model] nor the registry, and leaves
    metrics and log alone. The answer is the same when the global [model]
    was never assigned. *)
Theorem get_health_always_healthy (w : world) :
  get_health datetime_now w =
    ({| status_code := 200;
        body := HealthJSON "healthy" (isoformat (datetime_now (ticks w))) |},
     tick w) /\
  is_iso8601 (isoformat (datetime_now (ticks w))) = true /\
  fst (get_health datetime_now (unassign_model w)) = fst (get_health datetime_now w).
Proof.
  split; [reflexivity|]. split; [apply isoformat_is_iso8601 | reflexivity].
Qed.

End ServingProperties.

(** ** The structural validator looks at minima only *)

(** C5. [validate_input_data] checks the minimum of each of the columns
    [age], [bmi] and [children], not every row: there is a frame of two rows
    with all the required columns whose three minima lie within the ranges,
    whose second row has an age, a bmi and a number of children outside
    them, and which the validator accepts, leaving the world untouched. *)
Theorem validate_input_data_checks_only_minima :
  exists (data : DataFrame) (ages : list Z) (bmis : list float) (kids : list Z),
    getitem data "age" = inr (Int64Series ages) /\
    getitem data "bmi" = inr (Float64Series bmis) /\
    getitem data "children" = inr (Int64Series kids) /\
    forallb (fun col => str_in col (columns data))
      ["age"; "bmi"; "children"; "smoker"; "region"; "gender"] = true /\
    1 < List.length ages /\
    between 0 (series_min (Int64Series ages)) 100 = inr true /\
    between 10 (series_min (Float64Series bmis)) 50 = inr true /\
    between 0 (series_min (Int64Series kids)) 10 = inr true /\
    (exists a, In a ages /\ ~ (0 <= a <= 100)%Z) /\
    (exists b, In b bmis /\ PrimFloat.leb b 50 = false) /\
    (exists c, In c kids /\ ~ (0 <= c <= 10)%Z) /\
    forall w, validate_input_data data w = (Returned (Some true), w).
Proof.
  exists two_row_frame, [30; 150]%Z, [25.5; 80]%float, [1; 20]%Z.
  repeat split; try reflexivity.
  - simpl. lia.
  - exists 150%Z. split; [simpl; auto | lia].
  - exists 80%float. split; [simpl; auto | reflexivity].
  - exists 20%Z. split; [simpl; auto | lia].
Qed.

(** ** Code after a [return] or a [raise] *)

Section Exits.

Context {W R : Type}.

Lemma exits_return {A} (v : R) (w : W) : exits (return_ (A := A) v) w.
Proof. exact I. Qed.

Lemma exits_raise {A} (e : exn) (w : W) : exits (R := R) (raise (A := A) e) w.
Proof. exact I. Qed.

Lemma exits_bind {A B} (c : py W R A) (k : A -> py W R B) (w : W) :
  (forall a w', exits (k a) w') -> exits (bind c k) w.
Proof.
  intros H. unfold exits, bind.
  destruct (c w) as [[a|r|e] w']; simpl; auto. apply H.
Qed.

Lemma exits_bind_left {A B} (c : py W R A) (k : A -> py W R B) (w : W) :
  exits c w -> exits (bind c k) w.
Proof.
  unfold exits, bind. destruct (c w) as [[a|r|e] w']; simpl; tauto.
Qed.

Lemma exits_try_except {A} (body : py W R A)
  (clauses : list ((exn -> bool) * (exn -> py W R A))) (w : W) :
  exits body w ->
  (forall e w', exits (handle e clauses) w') ->
  exits (try_except body clauses) w.
Proof.
  unfold exits, try_except. intros Hb Hh.
  destruct (body w) as [[a|r|e] w']; simpl in *; auto. apply Hh.
Qed.

(** Whatever follows a statement that exits is not run: the sequence does
    what the statement alone does. *)
Lemma exits_absorbs (c k : py W R unit) (w : W) :
  exits c w -> bind c (fun _ => k) w = c w.
Proof.
  unfold exits, bind. destruct (c w) as [[a|r|e] w']; simpl; tauto.
Qed.

(** Two continuations that agree wherever the first part runs on. *)
Lemma bind_ext {A B} (c : py W R A) (k k' : A -> py W R B) (w : W) :
  (forall a w', k a w' = k' a w') -> bind c k w = bind c k' w.
Proof.
  intros H. unfold bind. destruct (c w) as [[a|r|e] w']; auto.
Qed.

(** Nothing placed after a [return] matters. *)
Lemma bind_return_any {A B} (v : R) (k k' : A -> py W R B) (w : W) :
  bind (return_ v) k w = bind (return_ v) k' w.
Proof. reflexivity. Qed.

End Exits.

Ltac exits_step :=
  first
    [ apply exits_return
    | apply exits_raise
    | apply exits_bind_left; apply exits_return
    | apply exits_bind; intros; cbv beta zeta;
      repeat match goal with
             | |- context [match ?x with pair _ _ => _ end] => destruct x
             end ].

Lemma make_prediction_try1_exits
  (datetime_now : nat -> datetime) (time_time default_timer : nat -> float)
  (input_data : PredictionInput) (w : world) :
  exits (make_prediction_try1 datetime_now time_time default_timer input_data) w.
Proof.
  unfold make_prediction_try1. apply exits_try_except.
  - cbv zeta. repeat exits_step.
  - intros e w'. cbn [handle].
    destruct (is_ValueError e); [|cbn [is_Exception]]; repeat exits_step.
Qed.

Section PreprocessingProperties.

Variable W : Type.
Variables Frame Column Matrix Preprocessor : Type.
Variable mlflow_log_param : string -> param -> external W unit.
Variable mlflow_sklearn_log_model : Preprocessor -> string -> external W unit.
Variable to_json : Frame -> external W string.
Variable sha256_hexdigest : string -> string.
Variable len : Frame -> Z.
Variable frame_columns : Frame -> list string.
Variable fillna_mean : Frame -> external W Frame.
Variable ColumnTransformer :
  list (string * string * list string) -> external W Preprocessor.
Variable drop : Frame -> string -> external W Frame.
Variable frame_getitem : Frame -> string -> external W Column.
Variable train_test_split :
  Frame -> Column -> float -> Z -> external W (Frame * Frame * Column * Column).
Variable fit_transform : Preprocessor -> Frame -> external W Matrix.
Variable transform : Preprocessor -> Frame -> external W Matrix.
Variable unique : Column -> external W (list string).
Variable pd_DataFrame : Matrix -> list string -> external W Frame.

Local Abbreviation preprocess_data_with :=
  (preprocess_data_then W Frame Column Matrix Preprocessor
     mlflow_log_param mlflow_sklearn_log_model to_json sha256_hexdigest len
     frame_columns fillna_mean ColumnTransformer drop frame_getitem
     train_test_split fit_transform transform unique pd_DataFrame).

Local Abbreviation preprocess_data_here :=
  (preprocess_data W Frame Column Matrix Preprocessor
     mlflow_log_param mlflow_sklearn_log_model to_json sha256_hexdigest len
     frame_columns fillna_mean ColumnTransformer drop frame_getitem
     train_test_split fit_transform transform unique pd_DataFrame).

Lemma preprocess_data_then_exits
  (after_return : Frame -> Frame -> py W (preprocessed Frame Column Preprocessor) unit)
  (df : Frame) (track_mlflow : bool) (w : W) :
  exits (preprocess_data_with after_return df track_mlflow) w.
Proof.
  unfold preprocess_data_then.
  repeat exits_step.
Qed.

Lemma preprocess_data_then_any
  (after_return after_return' :
     Frame -> Frame -> py W (preprocessed Frame Column Preprocessor) unit)
  (df : Frame) (track_mlflow : bool) (w : W) :
  preprocess_data_with after_return df track_mlflow w =
  preprocess_data_with after_return' df track_mlflow w.
Proof.
  unfold preprocess_data_then.
  repeat first
    [ apply bind_return_any
    | apply bind_ext; intros; cbv beta zeta;
      repeat match goal with
             | |- context [match ?x with pair _ _ => _ end] => destruct x
             end ].
Qed.

(** C8. The second [try] statement of [make_prediction] (lines 151-167 of
    [app/api.py]) and the statements after the first [return] of
    [preprocess_data] (lines 93-96 of [src/preprocessing.py]) are never
    run. In every world and for every input, the first [try] statement of
    [make_prediction] returns or raises, so whatever code follows it --
    the second [try] statement in particular -- changes nothing: the
    function does exactly what its first block does. Likewise
    [preprocess_data] returns or raises by line 92 whatever is written after
    it, and behaves the same with any other code, or none, in the place of
    lines 93-96. *)
Theorem trailing_code_is_unreachable :
  (forall (datetime_now : nat -> datetime) (time_time default_timer : nat -> float)
          (input_data : PredictionInput) (w : world),
     exits (make_prediction_try1 datetime_now time_time default_timer input_data) w /\
     (forall k : py world PredictionOutput unit,
        (make_prediction_try1 datetime_now time_time default_timer input_data ;; k) w =
        make_prediction_try1 datetime_now time_time default_timer input_data w) /\
     make_prediction datetime_now time_time default_timer input_data w =
     make_prediction_try1 datetime_now time_time default_timer input_data w) /\
  (forall (df : Frame) (track_mlflow : bool) (w : W),
     (forall after_return,
        exits (preprocess_data_with after_return df track_mlflow) w) /\
     (forall after_return after_return',
        preprocess_data_with after_return df track_mlflow w =
        preprocess_data_with after_return' df track_mlflow w) /\
     preprocess_data_here df track_mlflow w =
     preprocess_data_with (fun _ _ => ret tt) df track_mlflow w).
Proof.
  split.
  - intros datetime_now time_time default_timer input_data w.
    pose proof (make_prediction_try1_exits datetime_now time_time default_timer
                  input_data w) as H.
    split; [exact H|]. split.
    + intros k. now apply exits_absorbs.
    + unfold make_prediction. now apply exits_absorbs.
  - intros df track_mlflow w. split; [|split].
    + intros after_return. apply preprocess_data_then_exits.
    + intros after_return after_return'. apply preprocess_data_then_any.
    + unfold preprocess_data. apply preprocess_data_then_any.
Qed.

End PreprocessingProperties.

(* ================================================================== *)
(** * Part IV. The properties at sample inputs *)
(* ================================================================== *)

Lemma sample_request_in_ranges : in_ranges sample_request.
Proof.
  constructor; simpl.
  - lia.
  - split; reflexivity.
  - lia.
  - exists "southwest". simpl. unfold same_letter. repeat split; auto 10.
  - exists "female". simpl. unfold same_letter. repeat split; auto 10.
Defined.

Lemma parse_sample_request :
  parse_PredictionInput sample_request = inr (normalized sample_request) /\
  is_lower_case (region (normalized sample_request)) = true /\
  is_lower_case (gender (normalized sample_request)) = true /\
  In (region (normalized sample_request)) valid_regions /\
  In (gender (normalized sample_request)) valid_genders.
Proof.
  apply (proj1 (parse_PredictionInput_accepts_exactly_in_ranges sample_request)).
  exact sample_request_in_ranges.
Defined.

(** The example of the specification: the stub model answers 7000.0 under
    its own version. *)
Example post_predict_stub_model :
  fst (post_predict sample_datetime sample_clock sample_clock sample_request
         (fresh_world (Some (Some stub_model)))) =
  {| status_code := 200;
     body := PredictionJSON {| prediction := 7000; model_version := "3";
                               prediction_time := "2024-03-09T14:05:05.000250" |} |}.
Proof. reflexivity. Qed.

(** Each request of the specification's list of violations is answered 422
    and leaves the prediction counter where it was. *)
Example out_of_range_requests_rejected :
  Forall
    (fun raw =>
       let answer := post_predict sample_datetime sample_clock sample_clock raw
                       (fresh_world (Some (Some stub_model))) in
       status_code (fst answer) = 422 /\ PREDICTION_COUNTER (snd answer) = 0)
    out_of_range_requests.
Proof. repeat constructor. Qed.

Lemma request_with_age_150_out_of_range : ~ in_ranges request_with_age_150.
Proof. intros [H _ _ _ _]. simpl in H. lia. Defined.

Lemma request_with_age_150_rejected :
  exists errors,
    errors <> [] /\
    post_predict sample_datetime sample_clock sample_clock request_with_age_150
      (fresh_world (Some (Some stub_model))) =
      ({| status_code := 422; body := ValidationErrorsJSON errors |},
       fresh_world (Some (Some stub_model))) /\
    400 <= status_code
             (fst (post_predict sample_datetime sample_clock sample_clock
                     request_with_age_150 (fresh_world (Some (Some stub_model))))) < 500 /\
    PREDICTION_COUNTER
      (snd (post_predict sample_datetime sample_clock sample_clock
              request_with_age_150 (fresh_world (Some (Some stub_model))))) =
    PREDICTION_COUNTER (fresh_world (Some (Some stub_model))).
Proof.
  apply (post_predict_rejects_out_of_range sample_datetime sample_clock sample_clock
           request_with_age_150 (fresh_world (Some (Some stub_model)))).
  exact request_with_age_150_out_of_range.
Defined.

(** The endpoint does not keep the cause to itself: a model that raises
    [RuntimeError("boom")] gets the answer 500 with the detail [boom], and a
    model that raises [ValueError("bad shape")] the answer 400 with the
    detail [bad shape]. *)
Lemma post_predict_echoes_the_cause :
  fst (post_predict sample_datetime sample_clock sample_clock sample_request
         (fresh_world (Some (Some (failing_model boom))))) =
    {| status_code := 500; body := DetailJSON "boom" |} /\
  ~ opaque_server_error boom
      (fst (post_predict sample_datetime sample_clock sample_clock sample_request
              (fresh_world (Some (Some (failing_model boom)))))) /\
  fst (post_predict sample_datetime sample_clock sample_clock sample_request
         (fresh_world (Some (Some (failing_model bad_shape))))) =
    {| status_code := 400; body := DetailJSON "bad shape" |} /\
  ~ opaque_server_error bad_shape
      (fst (post_predict sample_datetime sample_clock sample_clock sample_request
              (fresh_world (Some (Some (failing_model bad_shape)))))).
Proof.
  split; [reflexivity|]. split; [|split; [reflexivity|]].
  - intros [_ [detail [Hb Hd]]]. apply Hd.
    change (DetailJSON "boom" = DetailJSON detail) in Hb. now injection Hb as <-.
  - intros [[Hs _] _].
    change (500 <= 400) in Hs. lia.
Qed.

Lemma sample_failure_reported :
  exists w',
    post_predict sample_datetime sample_clock sample_clock sample_request
      (fresh_world (Some (Some (failing_model boom)))) =
      ({| status_code := 500; body := DetailJSON "boom" |}, w') /\
    In (error_record "Prediction error: boom") (log w').
Proof.
  exact (post_predict_reports_the_cause sample_datetime sample_clock sample_clock
           sample_request (fresh_world (Some (Some (failing_model boom))))
           (Some (failing_model boom)) boom
           sample_request_in_ranges eq_refl eq_refl eq_refl).
Defined.

(** When the model raises, [predict] raises too, and neither the counter of
    validation errors nor the MLflow metrics have moved: no error counter is
    incremented. *)
Lemma predict_increments_no_error_counter :
  fst (predict sample_datetime sample_clock (Some (failing_model boom))
         (DataFrame_of_input (normalized sample_request)) (fresh_world None)) =
    Raised boom /\
  ~ error_counter_incremented (fresh_world None)
      (snd (predict sample_datetime sample_clock (Some (failing_model boom))
              (DataFrame_of_input (normalized sample_request)) (fresh_world None))).
Proof.
  split; [reflexivity|].
  intros [H | H]; apply H; reflexivity.
Qed.

Lemma sample_model_error_reraised :
  exists w',
    predict sample_datetime sample_clock (Some (failing_model boom))
      (DataFrame_of_input (normalized sample_request)) (fresh_world None) =
      (Raised boom, w') /\
    log w' = log (fresh_world None) ++
      [error_record ("Prediction error: " ++ str boom);
       access_record (sample_datetime (1 + ticks (fresh_world None)))
         ("prediction_error: " ++ str boom)] /\
    PREDICTION_COUNTER w' = S (PREDICTION_COUNTER (fresh_world None)) /\
    ~ error_counter_incremented (fresh_world None) w'.
Proof.
  exact (predict_reraises_model_error sample_datetime sample_clock
           (Some (failing_model boom))
           (DataFrame_of_input (normalized sample_request)) boom
           (fresh_world None) eq_refl eq_refl).
Defined.

Lemma unversioned_model_answers_unknown :
  exists out w',
    post_predict sample_datetime sample_clock sample_clock sample_request
      (fresh_world (Some (Some unversioned_model))) =
      ({| status_code := 200; body := PredictionJSON out |}, w') /\
    prediction out = 7000%float /\
    model_version out = "unknown".
Proof.
  exact (proj2 (post_predict_model_version sample_datetime sample_clock sample_clock
                  sample_request (fresh_world (Some (Some unversioned_model))))
           unversioned_model 7000%float [] sample_request_in_ranges
           eq_refl eq_refl eq_refl).
Defined.

(* ================================================================== *)
(** * Part V. Further properties of the code *)
(* ================================================================== *)

(** ** The order of floats *)

Lemma SFcompare_key (x y : spec_float) :
  x <> S754_nan -> y <> S754_nan ->
  exists c, SFcompare x y = Some c /\
    match c with
    | Lt => key_lt (float_key x) (float_key y)
    | Eq => float_key x = float_key y
    | Gt => key_lt (float_key y) (float_key x)
    end.
Proof.
  intros Hx Hy.
  destruct x as [[]|[]| |[] m1 e1], y as [[]|[]| |[] m2 e2];
    try congruence; simpl;
    try (eexists; split; [reflexivity|]; simpl; first [lia | reflexivity]).
  - change (PosDef.Pos.compare_cont Eq m1 m2) with (Pos.compare m1 m2).
    destruct (Z.compare_spec e1 e2), (Pos.compare_spec m1 m2);
      simpl; eexists; (split; [reflexivity|]); simpl; try lia;
      subst; reflexivity.
  - change (PosDef.Pos.compare_cont Eq m1 m2) with (Pos.compare m1 m2).
    destruct (Z.compare_spec e1 e2), (Pos.compare_spec m1 m2);
      simpl; eexists; (split; [reflexivity|]); simpl; try lia;
      subst; reflexivity.
Qed.

Lemma SFleb_key (x y : spec_float) :
  SFleb x y = true <->
  x <> S754_nan /\ y <> S754_nan /\ key_le (float_key x) (float_key y).
Proof.
  unfold SFleb. split.
  - intros H.
    assert (Hx : x <> S754_nan) by (intros ->; discriminate).
    assert (Hy : y <> S754_nan)
      by (intros ->; destruct x as [[]|[]| |[] ? ?]; discriminate).
    destruct (SFcompare_key x y Hx Hy) as (c & E & K). rewrite E in H.
    repeat split; try assumption.
    destruct (float_key x) as [[a1 a2] a3], (float_key y) as [[b1 b2] b3].
    destruct c; try discriminate; simpl in *.
    + injection K as -> -> ->. lia.
    + lia.
  - intros (Hx & Hy & K).
    destruct (SFcompare_key x y Hx Hy) as (c & -> & C).
    destruct (float_key x) as [[a1 a2] a3], (float_key y) as [[b1 b2] b3].
    destruct c; try reflexivity. simpl in *. lia.
Qed.

Lemma SFltb_key (x y : spec_float) :
  SFltb x y = true <->
  x <> S754_nan /\ y <> S754_nan /\ key_lt (float_key x) (float_key y).
Proof.
  unfold SFltb. split.
  - intros H.
    assert (Hx : x <> S754_nan) by (intros ->; discriminate).
    assert (Hy : y <> S754_nan)
      by (intros ->; destruct x as [[]|[]| |[] ? ?]; discriminate).
    destruct (SFcompare_key x y Hx Hy) as (c & E & K). rewrite E in H.
    repeat split; try assumption.
    destruct c; try discriminate. exact K.
  - intros (Hx & Hy & K).
    destruct (SFcompare_key x y Hx Hy) as (c & -> & C).
    destruct (float_key x) as [[a1 a2] a3], (float_key y) as [[b1 b2] b3].
    destruct c; try reflexivity; simpl in *.
    + injection C as -> -> ->. lia.
    + lia.
Qed.

Lemma is_nan_spec (x : float) :
  PrimFloat.is_nan x = false <-> Prim2SF x <> S754_nan.
Proof.
  unfold PrimFloat.is_nan. rewrite eqb_spec. unfold SFeqb. split.
  - intros H E. rewrite E in H. discriminate.
  - intros H. destruct (SFcompare_key _ _ H H) as (c & -> & K).
    destruct (float_key (Prim2SF x)) as [[a1 a2] a3].
    destruct c; simpl in *; try reflexivity; lia.
Qed.

Lemma leb_key (x y : float) :
  PrimFloat.leb x y = true <->
  PrimFloat.is_nan x = false /\ PrimFloat.is_nan y = false /\
  key_le (float_key (Prim2SF x)) (float_key (Prim2SF y)).
Proof. rewrite leb_spec, SFleb_key, !is_nan_spec. reflexivity. Qed.

Lemma ltb_key (x y : float) :
  PrimFloat.ltb x y = true <->
  PrimFloat.is_nan x = false /\ PrimFloat.is_nan y = false /\
  key_lt (float_key (Prim2SF x)) (float_key (Prim2SF y)).
Proof. rewrite ltb_spec, SFltb_key, !is_nan_spec. reflexivity. Qed.

Lemma leb_trans (x y z : float) :
  PrimFloat.leb x y = true -> PrimFloat.leb y z = true -> PrimFloat.leb x z = true.
Proof.
  rewrite !leb_key. intros (Hx & _ & H1) (_ & Hz & H2).
  repeat split; try assumption.
  destruct (float_key (Prim2SF x)) as [[a1 a2] a3],
           (float_key (Prim2SF y)) as [[b1 b2] b3],
           (float_key (Prim2SF z)) as [[c1 c2] c3].
  simpl in *. lia.
Qed.

Lemma leb_refl (x : float) :
  PrimFloat.is_nan x = false -> PrimFloat.leb x x = true.
Proof.
  intros H. apply leb_key. repeat split; try assumption.
  destruct (float_key (Prim2SF x)) as [[a1 a2] a3]. simpl. lia.
Qed.

(** Of two floats that are not NaN, one is below the other. *)
Lemma not_ltb_leb (x y : float) :
  PrimFloat.is_nan x = false -> PrimFloat.is_nan y = false ->
  PrimFloat.ltb y x = false -> PrimFloat.leb x y = true.
Proof.
  intros Hx Hy H. apply leb_key. repeat split; try assumption.
  apply not_true_iff_false in H. rewrite ltb_key in H.
  assert (K : ~ key_lt (float_key (Prim2SF y)) (float_key (Prim2SF x)))
    by (intros K; apply H; auto).
  destruct (float_key (Prim2SF x)) as [[a1 a2] a3],
           (float_key (Prim2SF y)) as [[b1 b2] b3].
  simpl in *. lia.
Qed.

Lemma ltb_leb (x y : float) :
  PrimFloat.ltb x y = true -> PrimFloat.leb x y = true.
Proof.
  rewrite ltb_key, leb_key. intros (Hx & Hy & H). repeat split; try assumption.
  destruct (float_key (Prim2SF x)) as [[a1 a2] a3],
           (float_key (Prim2SF y)) as [[b1 b2] b3].
  simpl in *. lia.
Qed.

Lemma leb_nan_r (x : float) : PrimFloat.leb x PrimFloat.nan = false.
Proof.
  apply not_true_is_false. intros H. apply leb_not_nan_r in H. discriminate.
Qed.

(** ** Minima of columns *)

Lemma fold_min_lower (xs : list Z) (x lo : Z) :
  (lo <= fold_left Z.min xs x)%Z <-> (forall a, In a (x :: xs) -> (lo <= a)%Z).
Proof.
  revert x. induction xs as [|y xs IH]; intros x; simpl.
  - split; [intros H a [<-|[]]; exact H | intros H; apply H; auto].
  - rewrite IH. split.
    + intros H a [<-|[<-|Ha]].
      * specialize (H (Z.min x y) (or_introl eq_refl)). lia.
      * specialize (H (Z.min x y) (or_introl eq_refl)). lia.
      * apply H. right. exact Ha.
    + intros H a [<-|Ha].
      * pose proof (H x (or_introl eq_refl)).
        pose proof (H y (or_intror (or_introl eq_refl))). lia.
      * apply H. right. right. exact Ha.
Qed.

Lemma fold_min_upper (xs : list Z) (x hi : Z) :
  (fold_left Z.min xs x <= hi)%Z <-> (exists a, In a (x :: xs) /\ (a <= hi)%Z).
Proof.
  revert x. induction xs as [|y xs IH]; intros x; simpl.
  - split; [intros H; exists x; auto | intros [a [[<-|[]] H]]; exact H].
  - rewrite IH. split.
    + intros [a [[<-|Ha] H]].
      * destruct (Z.min_spec x y) as [[_ E]|[_ E]]; rewrite E in H.
        -- exists x. auto.
        -- exists y. auto.
      * exists a. auto.
    + intros [a [[<-|[<-|Ha]] H]].
      * exists (Z.min x y). split; [left; reflexivity | lia].
      * exists (Z.min x y). split; [left; reflexivity | lia].
      * exists a. split; [right; exact Ha | exact H].
Qed.

Lemma present_not_nan (xs : list float) (b : float) :
  In b (present xs) -> PrimFloat.is_nan b = false.
Proof.
  unfold present. rewrite filter_In. intros [_ H]. now apply negb_true_iff in H.
Qed.

Lemma float_min_cases (x y : float) : float_min x y = x \/ float_min x y = y.
Proof. unfold float_min. destruct (PrimFloat.ltb y x); auto. Qed.

Lemma float_min_below (x y : float) :
  PrimFloat.is_nan x = false -> PrimFloat.is_nan y = false ->
  PrimFloat.leb (float_min x y) x = true /\ PrimFloat.leb (float_min x y) y = true.
Proof.
  intros Hx Hy. unfold float_min. destruct (PrimFloat.ltb y x) eqn:E.
  - split; [now apply ltb_leb | now apply leb_refl].
  - split; [now apply leb_refl | now apply not_ltb_leb].
Qed.

Lemma fold_float_min_in (xs : list float) (x : float) :
  In (fold_left float_min xs x) (x :: xs).
Proof.
  revert x. induction xs as [|y xs IH]; intros x; simpl; [auto|].
  destruct (IH (float_min x y)) as [E|H].
  - rewrite <- E. destruct (float_min_cases x y) as [->| ->]; auto.
  - auto.
Qed.

Lemma fold_float_min_below (xs : list float) (x : float) :
  (forall b, In b (x :: xs) -> PrimFloat.is_nan b = false) ->
  forall b, In b (x :: xs) -> PrimFloat.leb (fold_left float_min xs x) b = true.
Proof.
  revert x. induction xs as [|y xs IH]; intros x Hn b Hb.
  - destruct Hb as [<-|[]]. simpl. apply leb_refl. apply Hn. left. reflexivity.
  - simpl fold_left.
    assert (Hx : PrimFloat.is_nan x = false) by (apply Hn; simpl; auto).
    assert (Hy : PrimFloat.is_nan y = false) by (apply Hn; simpl; auto).
    destruct (float_min_below x y Hx Hy) as [Lx Ly].
    assert (Hm : forall c, In c (float_min x y :: xs) -> PrimFloat.is_nan c = false).
    { intros c [<-|Hc]; [|apply Hn; simpl; auto].
      destruct (float_min_cases x y) as [->| ->]; assumption. }
    pose proof (IH (float_min x y) Hm) as Below.
    destruct Hb as [<-|[<-|Hb]].
    + apply leb_trans with (float_min x y); [apply Below; left; reflexivity | exact Lx].
    + apply leb_trans with (float_min x y); [apply Below; left; reflexivity | exact Ly].
    + apply Below. right. exact Hb.
Qed.

(** ** More on the structural validator *)

Lemma between_int_series (lo hi : Z) (ages : list Z) :
  exists b, between lo (series_min (Int64Series ages)) hi = inr b /\
            (b = true <-> minimum_within lo hi ages).
Proof.
  unfold minimum_within. destruct ages as [|x xs].
  - exists false. unfold between. cbn [series_min int_le_scalar].
    rewrite leb_nan_r. split; [reflexivity|].
    split; [discriminate | intros [H _]; now contradiction H].
  - unfold between. cbn [series_min int_le_scalar scalar_le_int].
    pose proof (fold_min_lower xs x lo) as Lower.
    pose proof (fold_min_upper xs x hi) as Upper.
    destruct (lo <=? fold_left Z.min xs x)%Z eqn:E1.
    + exists (fold_left Z.min xs x <=? hi)%Z. split; [reflexivity|].
      apply Z.leb_le in E1. rewrite Z.leb_le. split.
      * intros H. split; [discriminate|]. split; [now apply Lower | now apply Upper].
      * intros (_ & _ & H). now apply Upper.
    + exists false. split; [reflexivity|].
      apply Z.leb_gt in E1. split; [discriminate|].
      intros (_ & H & _). apply Lower in H. lia.
Qed.

Lemma between_float_series (lo hi : Z) (xs : list float) :
  exists b, between lo (series_min (Float64Series xs)) hi = inr b /\
            (b = true <->
             float_minimum_within (float_of_int lo) (float_of_int hi) xs).
Proof.
  unfold float_minimum_within, between. cbn [series_min].
  fold (present xs).
  pose proof (present_not_nan xs) as Hn.
  destruct (present xs) as [|x rest].
  - exists false. cbn [int_le_scalar]. rewrite leb_nan_r. split; [reflexivity|].
    split; [discriminate | intros [H _]; now contradiction H].
  - cbn [int_le_scalar scalar_le_int].
    pose proof (fold_float_min_in rest x) as Hin.
    pose proof (fold_float_min_below rest x Hn) as Below.
    set (m := fold_left float_min rest x) in *.
    destruct (PrimFloat.leb (float_of_int lo) m) eqn:E1.
    + exists (PrimFloat.leb m (float_of_int hi)). split; [reflexivity|]. split.
      * intros E2. split; [discriminate|]. split.
        -- intros b Hb. apply leb_trans with m; [exact E1 | now apply Below].
        -- exists m. split; assumption.
      * intros (_ & _ & b & Hb & Hle).
        apply leb_trans with b; [now apply Below | exact Hle].
    + exists false. split; [reflexivity|].
      split; [discriminate|]. intros (_ & H & _).
      rewrite (H m Hin) in E1. discriminate.
Qed.

(** With the required columns there, the verdict is the conjunction of the
    three comparisons on the minima. *)
Lemma validate_input_data_checks (data : DataFrame) (sa sb sc : series) :
  has_required_columns data = true ->
  getitem data "age" = inr sa ->
  getitem data "bmi" = inr sb ->
  getitem data "children" = inr sc ->
  (passes_validation data = true <->
   between 0 (series_min sa) 100 = inr true /\
   between 10 (series_min sb) 50 = inr true /\
   between 0 (series_min sc) 10 = inr true).
Proof.
  unfold has_required_columns, required_columns. intros Hc Ha Hb Hk.
  unfold passes_validation, validate_input_data, logging_error. unfold_py.
  cbv beta zeta. rewrite Hc, Ha, Hb, Hk. cbn [negb].
  destruct (between 0 (series_min sa) 100) as [e|[|]];
    destruct (between 10 (series_min sb) 50) as [e'|[|]];
    destruct (between 0 (series_min sc) 10) as [e''|[|]];
    cbn; split; try discriminate; try tauto;
    intros (H1 & H2 & H3); discriminate.
Qed.

(** X1. [validate_input_data] never raises: it returns a bool, the same in every
    world. [True] leaves the world as it was; [False] costs exactly one
    validation error and at most adds log records. *)
Theorem validate_input_data_never_raises (data : DataFrame) (w : world) :
  exists b w',
    validate_input_data data w = (Returned (Some b), w') /\
    b = passes_validation data /\
    if b then w' = w else validation_failed w w'.
Proof.
  destruct (passes_validation data) eqn:E.
  - exists true, w. split; [now apply validate_input_data_passes | auto].
  - destruct (validate_input_data_fails data w E) as (w' & Hrun & Hf).
    exists false, w'. auto.
Qed.

(** X2. A frame that lacks one of the six required columns is turned down
    before any value is looked at: [False], one validation error counted,
    nothing logged. *)
Theorem validate_input_data_missing_column (data : DataFrame) (col : string)
  (w : world) :
  In col required_columns ->
  str_in col (columns data) = false ->
  validate_input_data data w =
    (Returned (Some false), inc_DATA_VALIDATION_ERRORS w).
Proof.
  intros Hin Hcol.
  assert (H : has_required_columns data = false).
  { apply not_true_is_false. intros H. unfold has_required_columns in H.
    rewrite forallb_forall in H. specialize (H col Hin). congruence. }
  unfold has_required_columns, required_columns in H.
  unfold validate_input_data. unfold_py. cbv beta zeta. rewrite H. reflexivity.
Qed.

(** X3. A text column of ages makes the comparison with 0 raise a [TypeError];
    the validator swallows it: it logs the error on the root logger, counts
    one validation error and returns [False]. *)
Theorem validate_input_data_text_ages (data : DataFrame) (s : string)
  (rest : list string) (w : world) :
  has_required_columns data = true ->
  getitem data "age" = inr (ObjectSeries (s :: rest)) ->
  validate_input_data data w =
    (Returned (Some false),
     inc_DATA_VALIDATION_ERRORS
       (emit {| logger_name := "root"; levelname := ERROR;
                msg := Text "Data validation error: '<=' not supported between instances of 'int' and 'str'" |}
          w)).
Proof.
  unfold has_required_columns, required_columns. intros Hc Ha.
  unfold validate_input_data, logging_error. unfold_py.
  cbv beta zeta. rewrite Hc, Ha. reflexivity.
Qed.

(** X4. A frame whose age column has no rows is turned down: the minimum of
    nothing is NaN, which is not within any range. *)
Theorem validate_input_data_no_rows (data : DataFrame) (s : series) (w : world) :
  has_required_columns data = true ->
  getitem data "age" = inr s ->
  series_length s = 0 ->
  validate_input_data data w =
    (Returned (Some false), inc_DATA_VALIDATION_ERRORS w).
Proof.
  unfold has_required_columns, required_columns. intros Hc Ha Hs.
  assert (Hmin : between 0 (series_min s) 100 = inr false).
  { destruct s as [xs|xs|xs|xs]; destruct xs; try discriminate;
      unfold between; cbn [series_min filter int_le_scalar];
      now rewrite leb_nan_r. }
  unfold validate_input_data. unfold_py.
  cbv beta zeta. rewrite Hc, Ha, Hmin. reflexivity.
Qed.

(** X5. What the validator asks of a frame with integer ages and children and
    float bmi: of each column only that its minimum is in range. Every age
    must be at least 0 but only one need be at most 100, likewise for the
    other two, and missing bmi values are passed over. *)
Theorem validate_input_data_verdict (data : DataFrame) (ages kids : list Z)
  (bmis : list float) :
  has_required_columns data = true ->
  getitem data "age" = inr (Int64Series ages) ->
  getitem data "bmi" = inr (Float64Series bmis) ->
  getitem data "children" = inr (Int64Series kids) ->
  (passes_validation data = true <->
   minimum_within 0 100 ages /\
   float_minimum_within 10 50 bmis /\
   minimum_within 0 10 kids).
Proof.
  intros Hc Ha Hb Hk.
  rewrite (validate_input_data_checks data _ _ _ Hc Ha Hb Hk).
  destruct (between_int_series 0 100 ages) as (b1 & -> & <-).
  destruct (between_float_series 10 50 bmis) as (b2 & -> & H2).
  destruct (between_int_series 0 10 kids) as (b3 & -> & <-).
  change (float_of_int 10) with 10%float in H2.
  change (float_of_int 50) with 50%float in H2.
  rewrite <- H2.
  split; intros (H & H' & H''); repeat split; congruence.
Qed.

(** X6. The executor's second look never turns down what the request schema let
    through: for every request [PredictionInput] accepts, the structural
    validator returns [True] on its one-row frame and counts no error. *)
Theorem revalidation_accepts_validated_request (raw parsed : PredictionInput)
  (w : world) :
  parse_PredictionInput raw = inr parsed ->
  validate_input_data (DataFrame_of_input parsed) w = (Returned (Some true), w).
Proof.
  intros E.
  pose proof (proj1 (parse_PredictionInput_inr raw parsed) E) as (_&_&_&_&_&->).
  apply validate_input_data_passes, validated_input_passes.
  now apply in_ranges_parse.
Qed.

(** ** More on the endpoint *)

Section ServingFurther.

Variable datetime_now : nat -> datetime.
Variable time_time : nat -> float.
Variable default_timer : nat -> float.
Variable MLFLOW_TRACKING_URI : string.
Variable mlflow_pyfunc_load_model : string -> string -> exn + LoadedModel.

(** The two observations a request can leave in the latency histogram: the
    decorator's, between the two readings of its timer, and the endpoint's,
    between its two readings of the wall clock. *)
Definition decorator_observation (w : world) : float :=
  max_0 (PrimFloat.sub (default_timer (3 + ticks w)) (default_timer (1 + ticks w))).

Definition endpoint_observation (w : world) : float :=
  PrimFloat.sub (time_time (4 + ticks w)) (time_time (ticks w)).

Lemma post_predict_accepted (raw : PredictionInput) (w : world)
  (m : option LoadedModel) :
  in_ranges raw ->
  model w = Some m ->
  let w' := snd (post_predict datetime_now time_time default_timer raw w) in
  PREDICTION_COUNTER w' = S (PREDICTION_COUNTER w) /\
  DATA_VALIDATION_ERRORS w' = DATA_VALIDATION_ERRORS w /\
  mlflow_metrics w' = mlflow_metrics w /\
  model w' = model w /\
  PREDICTION_LATENCY w' =
    PREDICTION_LATENCY w ++
    decorator_observation w ::
    match model_dot_predict m (DataFrame_of_input (normalized raw)) with
    | inl _ => []
    | inr _ => [endpoint_observation w]
    end.
Proof.
  intros Hr Hm. pose proof (validated_input_passes raw Hr) as Hv.
  apply in_ranges_parse in Hr.
  unfold post_predict. rewrite Hr.
  unfold make_prediction, make_prediction_try1, global_model, time, now, logger_error.
  unfold decorator_observation, endpoint_observation.
  unfold_py. cbn. rewrite Hm. cbn.
  destruct (model_dot_predict m (DataFrame_of_input (normalized raw)))
    as [e|preds] eqn:He.
  - destruct (predict_model_raises datetime_now default_timer m _ e (tick w) Hv He)
      as (w1 & -> & Hc & Hl & Hd & Hg & Hf & Ht & Hmod).
    world_simpl in Hc. world_simpl in Hl. world_simpl in Hd.
    world_simpl in Hf. world_simpl in Hmod.
    destruct e; cbn; rewrite Hc, Hl, Hd, Hf, Hmod; auto.
  - destruct (predict_success datetime_now default_timer m _ preds (tick w) Hv He)
      as (w1 & -> & Hc & Hl & Hd & Hg & Hf & Ht & Hmod).
    world_simpl in Hc. world_simpl in Hl. world_simpl in Hd.
    world_simpl in Hf. world_simpl in Ht. world_simpl in Hmod.
    cbn. destruct preds as [|p ps]; cbn.
    + rewrite Hc, Hl, Hd, Hf, Hmod, Ht, <- app_assoc. auto.
    + rewrite Hmod, Hm. cbn.
      rewrite Hc, Hl, Hd, Hf, Hmod, Ht, <- app_assoc. auto.
Qed.

Lemma post_predict_unassigned_world (raw : PredictionInput) (w : world) :
  in_ranges raw ->
  model w = None ->
  snd (post_predict datetime_now time_time default_timer raw w) =
  emit (error_record "Prediction error: name 'model' is not defined") (tick w).
Proof.
  intros Hr Hm. apply in_ranges_parse in Hr.
  unfold post_predict. rewrite Hr.
  unfold make_prediction, make_prediction_try1, global_model, time, logger_error.
  unfold_py. cbn. rewrite Hm. reflexivity.
Qed.

Lemma parse_inr_in_ranges (raw parsed : PredictionInput) :
  parse_PredictionInput raw = inr parsed -> in_ranges raw /\ parsed = normalized raw.
Proof.
  intros E.
  pose proof (proj1 (parse_PredictionInput_inr raw parsed) E) as (_&_&_&_&_&->).
  split; [now apply in_ranges_parse | reflexivity].
Qed.

(** X7. The prediction counter goes up by one exactly when the request passes
    the schema and the global [model] is assigned, whether the model then
    answers or raises. A rejected request is not counted, nor is one served
    while no model is assigned. *)
Theorem post_predict_counts_executor_calls (raw : PredictionInput) (w : world) :
  PREDICTION_COUNTER
    (snd (post_predict datetime_now time_time default_timer raw w)) =
  PREDICTION_COUNTER w +
  match parse_PredictionInput raw, model w with
  | inr _, Some _ => 1
  | _, _ => 0
  end.
Proof.
  destruct (parse_PredictionInput raw) as [errors|parsed] eqn:E.
  - rewrite (post_predict_rejected _ _ _ raw w errors E). simpl. lia.
  - apply parse_inr_in_ranges in E as [Hr _].
    destruct (model w) as [m|] eqn:Hm.
    + destruct (post_predict_accepted raw w m Hr Hm) as (-> & _). lia.
    + rewrite (post_predict_unassigned_world raw w Hr Hm). simpl. lia.
Qed.

(** X8. The latency histogram gets two observations from a request the model
    answers: the decorator's, never below zero, and the endpoint's own,
    which is a plain difference of wall-clock readings. It gets only the
    decorator's when the model raises, and none when the request is
    rejected or no model is assigned. *)
Theorem post_predict_latency_observations (raw : PredictionInput) (w : world) :
  PREDICTION_LATENCY
    (snd (post_predict datetime_now time_time default_timer raw w)) =
  PREDICTION_LATENCY w ++
  match parse_PredictionInput raw, model w with
  | inr parsed, Some m =>
      decorator_observation w ::
      match model_dot_predict m (DataFrame_of_input parsed) with
      | inl _ => []
      | inr _ => [endpoint_observation w]
      end
  | _, _ => []
  end /\
  PrimFloat.ltb (decorator_observation w) 0 = false.
Proof.
  split.
  - destruct (parse_PredictionInput raw) as [errors|parsed] eqn:E.
    + rewrite (post_predict_rejected _ _ _ raw w errors E). simpl.
      now rewrite app_nil_r.
    + apply parse_inr_in_ranges in E as [Hr ->].
      destruct (model w) as [m|] eqn:Hm.
      * now destruct (post_predict_accepted raw w m Hr Hm) as (_ & _ & _ & _ & ->).
      * rewrite (post_predict_unassigned_world raw w Hr Hm). simpl.
        now rewrite app_nil_r.
  - unfold decorator_observation, max_0.
    set (d := PrimFloat.sub _ _).
    destruct (PrimFloat.ltb d 0) eqn:E; [reflexivity | exact E].
Qed.

(** X9. Handling a request never touches the counter of validation errors, not
    even when the request is rejected; it logs no MLflow metric and leaves
    the global [model] bound as it was. *)
Theorem post_predict_leaves_alone (raw : PredictionInput) (w : world) :
  let w' := snd (post_predict datetime_now time_time default_timer raw w) in
  DATA_VALIDATION_ERRORS w' = DATA_VALIDATION_ERRORS w /\
  mlflow_metrics w' = mlflow_metrics w /\
  model w' = model w.
Proof.
  destruct (parse_PredictionInput raw) as [errors|parsed] eqn:E.
  - rewrite (post_predict_rejected _ _ _ raw w errors E). simpl. auto.
  - apply parse_inr_in_ranges in E as [Hr _].
    destruct (model w) as [m|] eqn:Hm.
    + destruct (post_predict_accepted raw w m Hr Hm) as (_ & H1 & H2 & H3 & _).
      rewrite <- Hm. auto.
    + rewrite (post_predict_unassigned_world raw w Hr Hm). simpl. auto.
Qed.

(** X10. The status of the answer tells what happened: 422 exactly when the
    request breaks a rule of the schema; 200 exactly when it does not, a
    model is assigned and the model returns at least one prediction; 400
    exactly when the model raised a [ValueError]; 500 in every other case.
    No other status is ever sent. *)
Theorem post_predict_status (raw : PredictionInput) (w : world) :
  let r := fst (post_predict datetime_now time_time default_timer raw w) in
  (status_code r = 422 <-> ~ in_ranges raw) /\
  (status_code r = 200 <->
     in_ranges raw /\
     exists m p ps,
       model w = Some m /\
       model_dot_predict m (DataFrame_of_input (normalized raw)) = inr (p :: ps)) /\
  (status_code r = 400 <->
     in_ranges raw /\
     exists m text,
       model w = Some m /\
       model_dot_predict m (DataFrame_of_input (normalized raw)) =
         inl (ValueError text)) /\
  (status_code r = 200 \/ status_code r = 400 \/
   status_code r = 422 \/ status_code r = 500).
Proof.
  intros r.
  assert (Hs : status_code r = fst (expected_answer raw (model w))).
  { destruct (post_predict_answer datetime_now time_time default_timer raw w)
      as [H _]. fold r in H. now rewrite <- H. }
  rewrite Hs. clear Hs r. unfold expected_answer.
  destruct (parse_PredictionInput raw) as [errors|parsed] eqn:E.
  - assert (Hn : ~ in_ranges raw).
    { intros H. apply in_ranges_parse in H. congruence. }
    cbn [fst]. split; [tauto|].
    split; [split; [discriminate | tauto]|].
    split; [split; [discriminate | tauto]|]. auto.
  - apply parse_inr_in_ranges in E as [Hr ->].
    split; [|split; [|split]].
    + split; [|tauto]. intros H. exfalso. revert H.
      destruct (model w) as [m|]; [|discriminate].
      destruct (model_dot_predict m _) as [e|[|p ps]]; try discriminate.
      cbn [fst]. destruct (is_ValueError e); discriminate.
    + destruct (model w) as [m|].
      * destruct (model_dot_predict m (DataFrame_of_input (normalized raw)))
          as [e|[|p ps]] eqn:He; cbn [fst].
        -- split; [destruct (is_ValueError e); discriminate|].
           intros [_ (m' & x & y & Hm' & H)]. congruence.
        -- split; [discriminate|].
           intros [_ (m' & x & y & Hm' & H)]. congruence.
        -- split; [|reflexivity]. intros _. split; [exact Hr|].
           exists m, p, ps. auto.
      * split; [discriminate|]. intros [_ (m' & x & y & Hm' & H)]. discriminate.
    + destruct (model w) as [m|].
      * destruct (model_dot_predict m (DataFrame_of_input (normalized raw)))
          as [e|[|p ps]] eqn:He; cbn [fst].
        -- destruct e; cbn [is_ValueError];
             try (split; [discriminate|];
                  intros [_ (m' & x & Hm' & H)]; congruence).
           split; [|reflexivity]. intros _. split; [exact Hr|].
           exists m, msg0. auto.
        -- split; [discriminate|]. intros [_ (m' & x & Hm' & H)]. congruence.
        -- split; [discriminate|]. intros [_ (m' & x & Hm' & H)]. congruence.
      * split; [discriminate|]. intros [_ (m' & x & Hm' & H)]. discriminate.
    + destruct (model w) as [m|]; [|auto].
      destruct (model_dot_predict m _) as [e|[|p ps]]; cbn [fst]; auto.
      destruct (is_ValueError e); auto.
Qed.

(** X11. A model that returns an empty sequence is recorded as a success and
    answered as a failure: the audit entry says [prediction_success], both
    latency observations are taken, and the request ends in a 500 whose
    cause, the failed [prediction[0]], is logged as a prediction error. *)
Theorem post_predict_empty_predictions (raw : PredictionInput) (w : world)
  (m : option LoadedModel) :
  in_ranges raw ->
  model w = Some m ->
  model_dot_predict m (DataFrame_of_input (normalized raw)) = inr [] ->
  exists text w',
    post_predict datetime_now time_time default_timer raw w =
      ({| status_code := 500; body := DetailJSON text |}, w') /\
    log w' = log w ++
      [access_record (datetime_now (2 + ticks w)) "prediction_success";
       error_record ("Prediction error: " ++ text)] /\
    PREDICTION_LATENCY w' =
      PREDICTION_LATENCY w ++ [decorator_observation w; endpoint_observation w].
Proof.
  intros Hr Hm He. pose proof (validated_input_passes raw Hr) as Hv.
  apply in_ranges_parse in Hr.
  unfold post_predict. rewrite Hr.
  unfold make_prediction, make_prediction_try1, global_model, time, logger_error.
  unfold decorator_observation, endpoint_observation.
  unfold_py. cbn. rewrite Hm. cbn.
  destruct (predict_success datetime_now default_timer m _ [] (tick w) Hv He)
    as (w1 & -> & Hc & Hl & Hd & Hg & Hf & Ht & Hmod).
  world_simpl in Hl. world_simpl in Hg. world_simpl in Ht.
  cbn. eexists _, _. split; [reflexivity|]. world_simpl.
  rewrite Hg, Hl, Ht, <- !app_assoc. split; reflexivity.
Qed.

(** X12. From start-up to answer: when the registry delivers a model for
    [models:/health_claim_cost_model/Production], start-up binds the global
    [model] to it, and a request within the rules is then answered 200 with
    that model's first prediction and its version, or [unknown]. *)
Theorem startup_then_predict (m : LoadedModel) (raw : PredictionInput)
  (p : float) (ps : list float) (w : world) :
  mlflow_pyfunc_load_model MLFLOW_TRACKING_URI
    "models:/health_claim_cost_model/Production" = inr m ->
  in_ranges raw ->
  model_predict m (DataFrame_of_input (normalized raw)) = inr (p :: ps) ->
  exists w1 out w2,
    startup_event datetime_now MLFLOW_TRACKING_URI mlflow_pyfunc_load_model w =
      (Normal tt, w1) /\
    post_predict datetime_now time_time default_timer raw w1 =
      ({| status_code := 200; body := PredictionJSON out |}, w2) /\
    prediction out = p /\
    model_version out = match version m with Some v => v | None => "unknown" end.
Proof.
  intros Hreg Hr Hp.
  destruct (startup_event_load_success datetime_now MLFLOW_TRACKING_URI
              mlflow_pyfunc_load_model m w Hreg) as (w1 & Hstart & Hm).
  destruct (post_predict_success datetime_now time_time default_timer raw w1
              (Some m) p ps Hr Hm Hp) as (w2 & Hrun & _).
  eexists w1, _, w2. split; [exact Hstart|]. split; [exact Hrun|].
  split; reflexivity.
Qed.

(** X13. When the registry cannot deliver the model, start-up raises the
    registry's error after logging it twice, once in [get_latest_model] and
    once in [startup_event]; no audit entry is written and the global
    [model] is left unassigned. *)
Theorem startup_event_fails_when_registry_fails (e : exn) (w : world) :
  mlflow_pyfunc_load_model MLFLOW_TRACKING_URI
    "models:/health_claim_cost_model/Production" = inl e ->
  exists w',
    startup_event datetime_now MLFLOW_TRACKING_URI mlflow_pyfunc_load_model w =
      (Raised e, w') /\
    model w' = model w /\
    ticks w' = ticks w /\
    log w' = log w ++
      [error_record ("Error loading production model: " ++ str e);
       error_record ("Error loading model on startup: " ++ str e)].
Proof.
  intros H.
  unfold startup_event, get_latest_model, logger_error. unfold_py.
  change ("models:/" ++ MODEL_NAME ++ "/Production")%string
    with "models:/health_claim_cost_model/Production".
  rewrite H. cbn.
  eexists. split; [reflexivity|]. world_simpl.
  rewrite <- app_assoc. repeat split.
Qed.

End ServingFurther.

(** ** More on the request schema *)

Lemma lower_char_idempotent (c : ascii) : lower_char (lower_char c) = lower_char c.
Proof.
  unfold lower_char at 1. now rewrite lower_char_not_upper.
Qed.

Lemma lower_idempotent (s : string) : lower (lower s) = lower s.
Proof.
  induction s as [|c s IH]; simpl; [reflexivity|].
  now rewrite lower_char_idempotent, IH.
Qed.

Lemma same_letter_lower_char (a b : ascii) :
  same_letter a b <-> lower_char a = lower_char b.
Proof.
  split.
  - intros [-> | [[Ha Hab] | [Hb Hba]]]; [reflexivity| |].
    + assert (Hb : is_upper b = false).
      { apply not_true_is_false. intros H. apply is_upper_bounds in H.
        apply is_upper_bounds in Ha. lia. }
      unfold lower_char. rewrite Ha, Hb, <- Hab. apply ascii_nat_embedding.
    + assert (Ha : is_upper a = false).
      { apply not_true_is_false. intros H. apply is_upper_bounds in H.
        apply is_upper_bounds in Hb. lia. }
      unfold lower_char. rewrite Ha, Hb, <- Hba. symmetry. apply ascii_nat_embedding.
  - unfold lower_char, same_letter.
    destruct (is_upper a) eqn:Ha, (is_upper b) eqn:Hb; intros E.
    + left. apply (f_equal nat_of_ascii) in E.
      rewrite !nat_of_lower_upper in E by assumption.
      rewrite <- (ascii_nat_embedding a), <- (ascii_nat_embedding b).
      f_equal. lia.
    + right; left. split; [reflexivity|]. rewrite <- E.
      now apply nat_of_lower_upper.
    + right; right. split; [reflexivity|]. rewrite E.
      now apply nat_of_lower_upper.
    + now left.
Qed.

Lemma eq_nocase_same_lower (s t : string) : eq_nocase s t <-> lower s = lower t.
Proof.
  revert t. induction s as [|a s IH]; intros [|b t]; simpl.
  - tauto.
  - split; [tauto | discriminate].
  - split; [tauto | discriminate].
  - rewrite same_letter_lower_char, IH. split.
    + intros [-> ->]. reflexivity.
    + intros H. injection H as -> ->. tauto.
Qed.

(** X14. The schema does not see the case of [region] and [gender]: two requests
    that differ only there are treated alike, rejected with the same errors
    or accepted as the same object. *)
Theorem parse_PredictionInput_ignores_case (r1 r2 : PredictionInput) :
  age r1 = age r2 -> bmi r1 = bmi r2 -> children r1 = children r2 ->
  smoker r1 = smoker r2 ->
  eq_nocase (region r1) (region r2) ->
  eq_nocase (gender r1) (gender r2) ->
  parse_PredictionInput r1 = parse_PredictionInput r2.
Proof.
  intros Ha Hb Hc Hs Hr Hg.
  apply eq_nocase_same_lower in Hr. apply eq_nocase_same_lower in Hg.
  unfold parse_PredictionInput, validate_region, validate_gender.
  now rewrite Ha, Hb, Hc, Hs, Hr, Hg.
Qed.

(** X15. The object the schema returns passes the schema again, unchanged. *)
Theorem parse_PredictionInput_idempotent (raw parsed : PredictionInput) :
  parse_PredictionInput raw = inr parsed ->
  parse_PredictionInput parsed = inr parsed.
Proof.
  intros E.
  pose proof (proj1 (parse_PredictionInput_inr raw parsed) E)
    as (Ha & Hb & Hc & Hr & Hg & ->).
  apply parse_PredictionInput_inr. unfold normalized. cbn [age bmi children region gender smoker].
  rewrite !lower_idempotent.
  repeat split; try assumption.
  - unfold validate_region in *. rewrite lower_idempotent.
    destruct (negb (str_in (lower (region raw)) valid_regions));
      [discriminate | reflexivity].
  - unfold validate_gender in *. rewrite lower_idempotent.
    destruct (negb (str_in (lower (gender raw)) valid_genders));
      [discriminate | reflexivity].
Qed.

Lemma field_errors_names {A} (f g : string) (r : exn + A) :
  In f (map fst (field_errors g r)) <-> f = g /\ exists e, r = inl e.
Proof.
  destruct r as [e|a]; simpl.
  - split.
    + intros [<-|[]]. split; [reflexivity | now exists e].
    + intros [-> _]. now left.
  - split; [intros [] | intros [_ [e H]]; discriminate].
Qed.

Lemma validate_age_fails (v : Z) :
  (exists e, validate_age v = inl e) <-> ~ (0 <= v <= 100)%Z.
Proof.
  rewrite validate_age_ok. destruct (validate_age v) as [e|a] eqn:E.
  - split; [intros _ H; discriminate | intros _; now exists e].
  - apply validate_age_inv in E as ->.
    split; [intros [e H]; discriminate | intros H; now contradiction H].
Qed.

Lemma validate_bmi_fails (v : float) :
  (exists e, validate_bmi v = inl e) <->
  ~ (PrimFloat.leb 10 v = true /\ PrimFloat.leb v 50 = true).
Proof.
  rewrite validate_bmi_ok. destruct (validate_bmi v) as [e|a] eqn:E.
  - split; [intros _ H; discriminate | intros _; now exists e].
  - apply validate_bmi_inv in E as ->.
    split; [intros [e H]; discriminate | intros H; now contradiction H].
Qed.

Lemma validate_children_fails (v : Z) :
  (exists e, validate_children v = inl e) <-> ~ (0 <= v <= 10)%Z.
Proof.
  rewrite validate_children_ok. destruct (validate_children v) as [e|a] eqn:E.
  - split; [intros _ H; discriminate | intros _; now exists e].
  - apply validate_children_inv in E as ->.
    split; [intros [e H]; discriminate | intros H; now contradiction H].
Qed.

Lemma validate_region_fails (v : string) :
  (exists e, validate_region v = inl e) <-> ~ in_enumeration v valid_regions.
Proof.
  rewrite validate_region_ok. destruct (validate_region v) as [e|a] eqn:E.
  - split; [intros _ H; discriminate | intros _; now exists e].
  - apply validate_region_inv in E as ->.
    split; [intros [e H]; discriminate | intros H; now contradiction H].
Qed.

Lemma validate_gender_fails (v : string) :
  (exists e, validate_gender v = inl e) <-> ~ in_enumeration v valid_genders.
Proof.
  rewrite validate_gender_ok. destruct (validate_gender v) as [e|a] eqn:E.
  - split; [intros _ H; discriminate | intros _; now exists e].
  - apply validate_gender_inv in E as ->.
    split; [intros [e H]; discriminate | intros H; now contradiction H].
Qed.

Lemma parse_PredictionInput_errors (raw : PredictionInput)
  (errors : list (string * string)) :
  parse_PredictionInput raw = inl errors ->
  errors =
    field_errors "age" (validate_age (age raw)) ++
    field_errors "bmi" (validate_bmi (bmi raw)) ++
    field_errors "children" (validate_children (children raw)) ++
    field_errors "region" (validate_region (region raw)) ++
    field_errors "gender" (validate_gender (gender raw)).
Proof.
  unfold parse_PredictionInput.
  destruct (validate_age (age raw)), (validate_bmi (bmi raw)),
           (validate_children (children raw)), (validate_region (region raw)),
           (validate_gender (gender raw));
    intros H; try discriminate; now injection H as <-.
Qed.

Lemma parse_PredictionInput_error_names (raw : PredictionInput)
  (errors : list (string * string)) (field : string) :
  parse_PredictionInput raw = inl errors ->
  (In field (map fst errors) <->
   (field = "age" /\ exists e, validate_age (age raw) = inl e) \/
   (field = "bmi" /\ exists e, validate_bmi (bmi raw) = inl e) \/
   (field = "children" /\ exists e, validate_children (children raw) = inl e) \/
   (field = "region" /\ exists e, validate_region (region raw) = inl e) \/
   (field = "gender" /\ exists e, validate_gender (gender raw) = inl e)).
Proof.
  intros E. apply parse_PredictionInput_errors in E. subst errors.
  rewrite !map_app, !in_app_iff, !field_errors_names. reflexivity.
Qed.

(** X16. A rejection names every field that breaks its rule and no other: all
    the violations of a request are reported at once. *)
Theorem parse_PredictionInput_reports_every_violation (raw : PredictionInput)
  (errors : list (string * string)) :
  parse_PredictionInput raw = inl errors ->
  (In "age" (map fst errors) <-> ~ (0 <= age raw <= 100)%Z) /\
  (In "bmi" (map fst errors) <->
     ~ (PrimFloat.leb 10 (bmi raw) = true /\ PrimFloat.leb (bmi raw) 50 = true)) /\
  (In "children" (map fst errors) <-> ~ (0 <= children raw <= 10)%Z) /\
  (In "region" (map fst errors) <-> ~ in_enumeration (region raw) valid_regions) /\
  (In "gender" (map fst errors) <-> ~ in_enumeration (gender raw) valid_genders) /\
  (forall field, In field (map fst errors) ->
     In field ["age"; "bmi"; "children"; "region"; "gender"]).
Proof.
  intros E.
  pose proof (fun field => parse_PredictionInput_error_names raw errors field E) as N.
  rewrite <- validate_age_fails, <- validate_bmi_fails, <- validate_children_fails,
          <- validate_region_fails, <- validate_gender_fails.
  repeat split; try (rewrite N; clear N).
  - intros [[_ H]|[[D _]|[[D _]|[[D _]|[D _]]]]]; first [exact H | discriminate].
  - intros H. left. auto.
  - intros [[D _]|[[_ H]|[[D _]|[[D _]|[D _]]]]]; first [exact H | discriminate].
  - intros H. right; left. auto.
  - intros [[D _]|[[D _]|[[_ H]|[[D _]|[D _]]]]]; first [exact H | discriminate].
  - intros H. right; right; left. auto.
  - intros [[D _]|[[D _]|[[D _]|[[_ H]|[D _]]]]]; first [exact H | discriminate].
  - intros H. right; right; right; left. auto.
  - intros [[D _]|[[D _]|[[D _]|[[D _]|[_ H]]]]]; first [exact H | discriminate].
  - intros H. right; right; right; right. auto.
  - intros field H. apply N in H.
    destruct H as [[-> _]|[[-> _]|[[-> _]|[[-> _]|[-> _]]]]]; simpl; auto 10.
Qed.

(** ** The registry client *)

Section RegistryProperties.

Variable datetime_now : nat -> datetime.
Variable MLFLOW_TRACKING_URI : string.
Variable mlflow_pyfunc_load_model : string -> string -> exn + LoadedModel.

(** X17. [load_model] addresses the run when [run_id] is a non-empty string and
    the staged registered model otherwise, an empty run id counting as
    none. When the registry delivers, the model is returned and one
    [model_loaded] audit entry is written under the run id or the stage;
    when it does not, the error is logged and raised again, and no audit
    entry is written. *)
Theorem load_model_outcome (run_id : option string) (stage : string) (w : world) :
  load_model datetime_now MLFLOW_TRACKING_URI mlflow_pyfunc_load_model
    run_id stage w =
  match mlflow_pyfunc_load_model MLFLOW_TRACKING_URI
          (requested_uri run_id stage) with
  | inr m =>
      (Returned (Some m),
       emit (audit_record (datetime_now (ticks w)) "prediction_service"
               (requested_label run_id stage) "model_loaded")
         (tick w))
  | inl e =>
      (Raised e, emit (error_record ("Error loading model: " ++ str e)) w)
  end.
Proof.
  unfold load_model, log_model_access, logger_info, logger_error, now, or_.
  unfold_py.
  destruct run_id as [[|c id]|]; cbn [truthy format requested_uri requested_label];
    change ("models:/" ++ MODEL_NAME ++ "/" ++ stage)%string
      with ("models:/health_claim_cost_model/" ++ stage)%string;
    destruct (mlflow_pyfunc_load_model MLFLOW_TRACKING_URI _); reflexivity.
Qed.

(** X18. [get_latest_model()] and [load_model()] with its defaults are the same
    call to the registry: they return the same model or raise the same
    error, and leave worlds that differ only in the wording of the one log
    record each writes. *)
Theorem get_latest_model_is_load_model_default (w : world) :
  let latest :=
    get_latest_model datetime_now MLFLOW_TRACKING_URI mlflow_pyfunc_load_model w in
  let loaded :=
    load_model datetime_now MLFLOW_TRACKING_URI mlflow_pyfunc_load_model
      None "Production" w in
  fst latest = fst loaded /\
  same_but_log_texts (snd latest) (snd loaded) /\
  List.length (log (snd latest)) = S (List.length (log w)).
Proof.
  unfold get_latest_model, load_model, log_model_access, logger_info,
    logger_error, now, or_, same_but_log_texts.
  unfold_py. cbn [truthy].
  change ("models:/" ++ MODEL_NAME ++ "/Production")%string
    with "models:/health_claim_cost_model/Production".
  destruct (mlflow_pyfunc_load_model MLFLOW_TRACKING_URI _); cbn;
    rewrite !map_app, !length_app; cbn; repeat split; lia.
Qed.

End RegistryProperties.

(** ** The data loader *)

(** X19. [load_data] returns the frame [pd.read_csv] read from the configured
    path, or raises one of two errors of its own in place of the library's:
    for a missing file a [FileNotFoundError] that names the path and drops
    the original text, for anything else a plain [Exception] whose text is
    the original's behind a prefix. The class of the original error is
    lost, so a caller never sees, for one, a [ValueError]. Whatever the
    reading did to the world stays done. *)
Theorem load_data_outcome (W Frame : Type) (HEALTH_CLAIMS_FILE : string)
  (pd_read_csv : string -> external W Frame) (w : W) :
  let read := pd_read_csv HEALTH_CLAIMS_FILE w in
  let loaded := load_data W Frame HEALTH_CLAIMS_FILE pd_read_csv w in
  snd loaded = snd read /\
  fst loaded =
    match fst read with
    | inr df => Returned (Some df)
    | inl e => Raised (reported_load_error HEALTH_CLAIMS_FILE e)
    end /\
  match fst loaded with
  | Raised e =>
      is_ValueError e = false /\
      exists text, e = OtherError "FileNotFoundError" text \/
                   e = OtherError "Exception" text
  | Returned (Some _) => True
  | _ => False
  end.
Proof.
  unfold load_data, ext, reported_load_error, try_except, bind, return_, raise.
  destruct (pd_read_csv HEALTH_CLAIMS_FILE w) as [[e|df] w']; cbn; [|auto].
  destruct (is_FileNotFoundError e); cbn; repeat split; eauto.
Qed.

(** ** The synthetic data *)

Lemma np_clip_16_45 (x : float) :
  PrimFloat.is_nan x = false ->
  PrimFloat.leb 16 (np_clip x 16 45) = true /\
  PrimFloat.leb (np_clip x 16 45) 45 = true /\
  PrimFloat.is_nan (np_clip x 16 45) = false.
Proof.
  intros Hx. unfold np_clip. rewrite Hx.
  destruct (PrimFloat.ltb x 16) eqn:E1; [repeat split; reflexivity|].
  destruct (PrimFloat.ltb 45 x) eqn:E2; [repeat split; reflexivity|].
  repeat split; [| |exact Hx]; apply not_ltb_leb; auto.
Qed.

Lemma length_array_add (a b : list float) (n : nat) :
  List.length a = n -> List.length b = n -> List.length (array_add a b) = n.
Proof.
  intros Ha Hb. unfold array_add. rewrite length_map, length_combine. lia.
Qed.

Lemma length_array_mul (a b : list float) (n : nat) :
  List.length a = n -> List.length b = n -> List.length (array_mul a b) = n.
Proof.
  intros Ha Hb. unfold array_mul. rewrite length_map, length_combine. lia.
Qed.

Section GenerateDataProperties.

Variable RandomState : Type.
Variable np_random_seed : Z -> external RandomState unit.
Variable np_random_randint : Z -> Z -> nat -> RandomState -> list Z * RandomState.
Variable np_random_choice :
  list string -> nat -> RandomState -> list string * RandomState.
Variable np_random_normal :
  float -> float -> nat -> RandomState -> list float * RandomState.
Variable np_round : float -> Z -> float.

Hypothesis randint_ok : randint_contract np_random_randint.
Hypothesis choice_ok : choice_contract np_random_choice.
Hypothesis normal_ok : normal_contract np_random_normal.

Local Abbreviation generate :=
  (generate_synthetic_data RandomState np_random_seed np_random_randint
     np_random_choice np_random_normal np_round).

(** The frame a successful call returns, column by column. *)
Lemma generate_synthetic_data_columns (n_samples : nat) (seed : Z)
  (r r0 : RandomState) :
  np_random_seed seed r = (inr tt, r0) ->
  exists ages genders bmis kids smokers regions claims r',
    generate n_samples seed r =
      (Returned (Some [("age", Int64Series ages);
                       ("gender", ObjectSeries genders);
                       ("bmi", Float64Series bmis);
                       ("children", Int64Series kids);
                       ("smoker", ObjectSeries smokers);
                       ("region", ObjectSeries regions);
                       ("claim_amount", Float64Series claims)]), r') /\
    (List.length ages = n_samples /\ List.length genders = n_samples /\
     List.length bmis = n_samples /\ List.length kids = n_samples /\
     List.length smokers = n_samples /\ List.length regions = n_samples /\
     List.length claims = n_samples) /\
    Forall (fun a => (18 <= a < 65)%Z) ages /\
    Forall (fun g => In g valid_genders) genders /\
    Forall (fun b => PrimFloat.leb 16 b = true /\ PrimFloat.leb b 45 = true /\
                     PrimFloat.is_nan b = false) bmis /\
    Forall (fun c => (0 <= c < 5)%Z) kids /\
    Forall (fun s => In s ["yes"; "no"]) smokers /\
    Forall (fun x => In x valid_regions) regions.
Proof.
  intros Hseed.
  unfold generate_synthetic_data, draw, ext, bind, return_. rewrite Hseed.
  destruct (randint_ok 18%Z 65%Z n_samples r0 ltac:(lia)) as [La Ra].
  destruct (np_random_randint 18%Z 65%Z n_samples r0) as [ages r1].
  destruct (choice_ok ["male"; "female"] n_samples r1 ltac:(discriminate))
    as [Lg Rg].
  destruct (np_random_choice ["male"; "female"] n_samples r1) as [genders r2].
  destruct (normal_ok 26%float 4%float n_samples r2 eq_refl eq_refl) as [Lb Rb].
  destruct (np_random_normal 26%float 4%float n_samples r2) as [bmis r3].
  destruct (randint_ok 0%Z 5%Z n_samples r3 ltac:(lia)) as [Lk Rk].
  destruct (np_random_randint 0%Z 5%Z n_samples r3) as [kids r4].
  destruct (choice_ok ["yes"; "no"] n_samples r4 ltac:(discriminate)) as [Ls Rs].
  destruct (np_random_choice ["yes"; "no"] n_samples r4) as [smokers r5].
  destruct (choice_ok ["northeast"; "northwest"; "southeast"; "southwest"]
              n_samples r5 ltac:(discriminate)) as [Lr Rr].
  destruct (np_random_choice _ n_samples r5) as [regions r6].
  destruct (normal_ok 1%float 0.1%float n_samples r6 eq_refl eq_refl) as [Ln _].
  destruct (np_random_normal 1%float 0.1%float n_samples r6) as [noise r7].
  cbn [fst] in *. cbv zeta.
  eexists ages, genders, _, kids, smokers, regions, _, r7.
  split; [reflexivity|]. split; [|split; [exact Ra|split; [exact Rg|split]]].
  - repeat split; try assumption.
    + now rewrite length_map.
    + rewrite length_map. apply length_array_mul; [|exact Ln].
      repeat apply length_array_add;
        unfold as_floats; rewrite ?length_map, ?repeat_length; auto.
  - rewrite Forall_map. eapply Forall_impl; [|exact Rb].
    intros b Hb. now apply np_clip_16_45.
  - auto.
Qed.

(** X20. [generate_synthetic_data] returns a frame of seven columns, in the order
    age, gender, bmi, children, smoker, region, claim_amount, each of
    [n_samples] rows. *)
Theorem generate_synthetic_data_shape (n_samples : nat) (seed : Z)
  (r r0 : RandomState) :
  np_random_seed seed r = (inr tt, r0) ->
  exists data r',
    generate n_samples seed r = (Returned (Some data), r') /\
    columns data =
      ["age"; "gender"; "bmi"; "children"; "smoker"; "region"; "claim_amount"] /\
    forall col s, getitem data col = inr s -> series_length s = n_samples.
Proof.
  intros Hseed.
  destruct (generate_synthetic_data_columns n_samples seed r r0 Hseed)
    as (ages & genders & bmis & kids & smokers & regions & claims & r' &
        Hrun & (La & Lg & Lb & Lk & Ls & Lr & Lc) & _).
  eexists _, r'. split; [exact Hrun|]. split; [reflexivity|].
  intros col s. cbn [getitem].
  repeat (destruct (String.eqb _ col);
          [intros H; injection H as <-; assumption|]).
  discriminate.
Qed.

(** X21. Every row of the synthetic data lies within the ranges the serving
    schema accepts: ages in 18..64, bmi in [16, 45] and never missing,
    children in 0..4, gender and region among the schema's names. *)
Theorem generate_synthetic_data_within_schema (n_samples : nat) (seed : Z)
  (r r0 : RandomState) :
  np_random_seed seed r = (inr tt, r0) ->
  exists data r' ages genders bmis kids regions,
    generate n_samples seed r = (Returned (Some data), r') /\
    getitem data "age" = inr (Int64Series ages) /\
    getitem data "gender" = inr (ObjectSeries genders) /\
    getitem data "bmi" = inr (Float64Series bmis) /\
    getitem data "children" = inr (Int64Series kids) /\
    getitem data "region" = inr (ObjectSeries regions) /\
    Forall (fun a => validate_age a = inr a) ages /\
    Forall (fun b => validate_bmi b = inr b) bmis /\
    Forall (fun c => validate_children c = inr c) kids /\
    Forall (fun x => validate_region x = inr x) regions /\
    Forall (fun g => validate_gender g = inr g) genders.
Proof.
  intros Hseed.
  destruct (generate_synthetic_data_columns n_samples seed r r0 Hseed)
    as (ages & genders & bmis & kids & smokers & regions & claims & r' &
        Hrun & _ & Ra & Rg & Rb & Rk & _ & Rr).
  eexists _, r', ages, genders, bmis, kids, regions.
  split; [exact Hrun|]. repeat (split; [reflexivity|]).
  rewrite Forall_forall in Ra, Rg, Rb, Rk, Rr.
  repeat split; apply Forall_forall; intros x Hx.
  - apply validate_age_ok. specialize (Ra x Hx). lia.
  - destruct (Rb x Hx) as (H1 & H2 & _).
    apply validate_bmi_ok. split.
    + apply leb_trans with 16%float; [reflexivity | exact H1].
    + apply leb_trans with 45%float; [exact H2 | reflexivity].
  - apply validate_children_ok. specialize (Rk x Hx). lia.
  - specialize (Rr x Hx). simpl in Rr.
    destruct Rr as [<-|[<-|[<-|[<-|[]]]]]; reflexivity.
  - specialize (Rg x Hx). simpl in Rg.
    destruct Rg as [<-|[<-|[]]]; reflexivity.
Qed.

(** X22. The structural validator accepts the synthetic data exactly when there
    is at least one row. *)
Theorem generate_synthetic_data_validates (n_samples : nat) (seed : Z)
  (r r0 : RandomState) :
  np_random_seed seed r = (inr tt, r0) ->
  exists data r',
    generate n_samples seed r = (Returned (Some data), r') /\
    passes_validation data = (0 <? n_samples)%nat.
Proof.
  intros Hseed.
  destruct (generate_synthetic_data_columns n_samples seed r r0 Hseed)
    as (ages & genders & bmis & kids & smokers & regions & claims & r' &
        Hrun & (La & _ & Lb & Lk & _) & Ra & _ & Rb & Rk & _).
  eexists _, r'. split; [exact Hrun|].
  rewrite Forall_forall in Ra, Rb, Rk.
  match goal with |- passes_validation ?d = _ => set (data := d) end.
  assert (V : passes_validation data = true <->
              minimum_within 0 100 ages /\
              float_minimum_within 10 50 bmis /\
              minimum_within 0 10 kids).
  { rewrite (validate_input_data_checks data (Int64Series ages)
               (Float64Series bmis) (Int64Series kids)
               eq_refl eq_refl eq_refl eq_refl).
    destruct (between_int_series 0 100 ages) as (b1 & -> & <-).
    destruct (between_float_series 10 50 bmis) as (b2 & -> & H2).
    destruct (between_int_series 0 10 kids) as (b3 & -> & <-).
    change (float_of_int 10) with 10%float in H2.
    change (float_of_int 50) with 50%float in H2.
    rewrite <- H2.
    split; intros (H & H' & H''); repeat split; congruence. }
  destruct n_samples as [|n].
  - apply not_true_is_false. intros H. apply V in H.
    destruct H as [[H _] _]. apply H.
    now apply length_zero_iff_nil.
  - apply V. clear V.
    assert (Hp : present bmis = bmis).
    { unfold present. apply forallb_filter_id. apply forallb_forall.
      intros b Hb. destruct (Rb b Hb) as (_ & _ & ->). reflexivity. }
    destruct ages as [|a ages']; [discriminate|].
    destruct bmis as [|b bmis']; [discriminate|].
    destruct kids as [|k kids']; [discriminate|].
    split; [|split].
    + split; [discriminate|]. split.
      * intros x Hx. specialize (Ra x Hx). lia.
      * exists a. split; [now left|]. specialize (Ra a (or_introl eq_refl)). lia.
    + unfold float_minimum_within. rewrite Hp. split; [discriminate|]. split.
      * intros x Hx. destruct (Rb x Hx) as (H1 & _).
        apply leb_trans with 16%float; [reflexivity | exact H1].
      * exists b. split; [now left|].
        destruct (Rb b (or_introl eq_refl)) as (_ & H2 & _).
        apply leb_trans with 45%float; [exact H2 | reflexivity].
    + split; [discriminate|]. split.
      * intros x Hx. specialize (Rk x Hx). lia.
      * exists k. split; [now left|]. specialize (Rk k (or_introl eq_refl)). lia.
Qed.

End GenerateDataProperties.

(** ** Training *)

Section Orderly.

Context {T R : Type}.

Lemma orderly_ret {A} (a : A) : orderly (T := T) (R := R) (ret a).
Proof.
  intros w. split; [exists []; split; [now rewrite app_nil_r | constructor] | discriminate].
Qed.

Lemma orderly_return {A} (v : R) : orderly (T := T) (return_ (A := A) v).
Proof.
  intros w. split; [exists []; split; [now rewrite app_nil_r | constructor] | discriminate].
Qed.

Lemma orderly_raise {A} (e : exn) : orderly (T := T) (R := R) (raise (A := A) e).
Proof.
  intros w. split; [exists []; split; [now rewrite app_nil_r | constructor] | discriminate].
Qed.

Lemma orderly_bind {A B} (c : py (world * T) R A) (k : A -> py (world * T) R B) :
  orderly c -> (forall a, orderly (k a)) -> orderly (bind c k).
Proof.
  intros Hc Hk w. unfold bind. specialize (Hc w).
  destruct (c w) as [[a|r|e] w1]; cbn [fst snd] in *.
  - destruct Hc as [(i1 & E1 & F1) _].
    destruct (Hk a w1) as [(i2 & E2 & F2) N]. split; [|exact N].
    exists (i1 ++ i2). rewrite E2, E1, app_assoc. split; [reflexivity|].
    apply Forall_app. auto.
  - destruct Hc as [L N]. split; [exact L|].
    intros E. apply N. injection E as ->. reflexivity.
  - destruct Hc as [L _]. split; [exact L | discriminate].
Qed.

Lemma orderly_ext {A} (op : external T A) : orderly (R := R) (ext (world * T) (on_library T op)).
Proof.
  intros w. unfold ext, on_library.
  destruct (op (snd w)) as [[e|a] t]; cbn;
    (split; [exists []; split; [now rewrite app_nil_r | constructor] | discriminate]).
Qed.

Lemma orderly_library {A} (op : external T A) : orderly (R := R) (library T op).
Proof. apply orderly_ext. Qed.

Lemma orderly_logger_info (m : message) : orderly (T := T) (R := R) (on_world T (logger_info m)).
Proof.
  intros w. cbn. split; [|discriminate].
  eexists [_]. split; [reflexivity|]. repeat constructor.
Qed.

Lemma orderly_log_model_access (datetime_now : nat -> datetime)
  (user_id label action : string) :
  orderly (T := T) (R := R)
    (on_world T (log_model_access datetime_now user_id label action)).
Proof.
  intros w. cbn. split; [|discriminate].
  eexists [_]. split; [reflexivity|]. repeat constructor.
Qed.

Lemma orderly_call {R' A} (c : py (world * T) A unit) :
  orderly c -> orderly (R := R') (call c).
Proof.
  intros Hc w. unfold call. destruct (Hc w) as [L _].
  destruct (c w) as [[[]|r|e] w1]; cbn [fst snd] in *; split;
    try exact L; discriminate.
Qed.

Lemma orderly_try_except {A} (body : py (world * T) R A)
  (clauses : list ((exn -> bool) * (exn -> py (world * T) R A))) :
  orderly body -> (forall e, orderly (handle e clauses)) ->
  orderly (try_except body clauses).
Proof.
  intros Hb Hh w. unfold try_except. specialize (Hb w).
  destruct (body w) as [[a|r|e] w1]; cbn [fst snd] in *; try exact Hb.
  destruct Hb as [(i1 & E1 & F1) _]. cbn [fst snd].
  destruct (Hh e w1) as [(i2 & E2 & F2) N]. split; [|exact N].
  exists (i1 ++ i2). rewrite E2, E1, app_assoc. split; [reflexivity|].
  apply Forall_app. auto.
Qed.

Lemma orderly_some {A} (x : option A) : orderly (R := R) (some (world * T) x).
Proof. destruct x; [apply orderly_ret | apply orderly_raise]. Qed.

Lemma orderly_attribute_of {A} (name : string) (x : option A) :
  orderly (R := R) (attribute_of T name x).
Proof. destruct x; [apply orderly_ret | apply orderly_raise]. Qed.

Lemma orderly_for_each {A S} (xs : list A) (s : S)
  (body : S -> A -> py (world * T) R S) :
  (forall s x, orderly (body s x)) -> orderly (for_each xs s body).
Proof.
  intros Hb. revert s. induction xs as [|x xs IH]; intros s; cbn [for_each].
  - apply orderly_ret.
  - apply orderly_bind; [apply Hb | intros s'; apply IH].
Qed.

Lemma orderly_with_start_run {A Run : Type}
  (mlflow_start_run : external T Run) (mlflow_end_run : string -> external T unit)
  (body : Run -> py (world * T) R A) :
  (forall run, orderly (body run)) ->
  orderly (with_start_run T Run mlflow_start_run mlflow_end_run body).
Proof.
  intros Hb w. unfold with_start_run.
  pose proof (orderly_library (A := Run) mlflow_start_run w) as Hs.
  destruct (library T mlflow_start_run w) as [[run|r|e] w1];
    cbn [fst snd] in Hs |- *.
  - destruct Hs as [(i1 & E1 & F1) _].
    specialize (Hb run w1).
    destruct (body run w1) as [c w2]. cbn [fst snd] in Hb.
    destruct Hb as [(i2 & E2 & F2) N].
    set (status := match c with Raised _ => _ | _ => _ end).
    pose proof (orderly_library (A := unit) (mlflow_end_run status) w2) as He.
    assert (E : forall w3 : world * T,
              (exists infos, log (fst w3) = log (fst w2) ++ infos /\
                             Forall (fun r => levelname r = INFO) infos) ->
              exists infos,
                log (fst w3) = log (fst w) ++ infos /\
                Forall (fun r => levelname r = INFO) infos).
    { intros w3 (i3 & E3 & F3). exists (i1 ++ i2 ++ i3).
      rewrite E3, E2, E1, <- !app_assoc. split; [reflexivity|].
      apply Forall_app. split; [assumption|].
      apply Forall_app. split; assumption. }
    destruct (library T (mlflow_end_run status) w2) as [[u|r|e] w3];
      cbn [fst snd] in He |- *; destruct He as [He _];
      (split; [now apply E|]); first [exact N | discriminate].
  - destruct Hs as [L N]. split; [exact L|].
    intros E. apply N. injection E as ->. reflexivity.
  - destruct Hs as [L _]. split; [exact L | discriminate].
Qed.

End Orderly.

Lemma exits_with_start_run {T R A Run : Type}
  (mlflow_start_run : external T Run) (mlflow_end_run : string -> external T unit)
  (body : Run -> py (world * T) R A) (w : world * T) :
  (forall run w1, exits (body run) w1) ->
  exits (with_start_run T Run mlflow_start_run mlflow_end_run body) w.
Proof.
  intros Hb. unfold exits, with_start_run.
  destruct (library T mlflow_start_run w) as [[run|r|e] w1]; cbn [fst]; auto.
  specialize (Hb run w1). unfold exits in Hb.
  destruct (body run w1) as [c w2]. cbn [fst] in Hb.
  destruct (library T (mlflow_end_run _) w2) as [[u|r|e] w3]; cbn [fst]; auto.
Qed.

Ltac orderly_step :=
  first
    [ apply orderly_ret
    | apply orderly_return
    | apply orderly_raise
    | apply orderly_library
    | apply orderly_ext
    | apply orderly_logger_info
    | apply orderly_log_model_access
    | apply orderly_some
    | apply orderly_attribute_of
    | apply orderly_call
    | apply orderly_for_each; intros
    | apply orderly_with_start_run; intros
    | match goal with
      | |- orderly (if ?b then _ else _) => destruct b
      | |- orderly (match ?x with pair _ _ => _ end) => destruct x
      end
    | apply orderly_bind; [|intros] ].

Section TrainingProperties.

Variable T : Type.
Variables Frame Column Matrix Preprocessor Model Run Predictions : Type.
Variable datetime_now : nat -> datetime.
Variable MLFLOW_TRACKING_URI : string.
Variable HEALTH_CLAIMS_FILE : string.
Variable mlflow_log_param : string -> param -> external T unit.
Variable mlflow_sklearn_log_preprocessor : Preprocessor -> string -> external T unit.
Variable to_json : Frame -> external T string.
Variable sha256_hexdigest : string -> string.
Variable len : Frame -> Z.
Variable frame_columns : Frame -> list string.
Variable fillna_mean : Frame -> external T Frame.
Variable ColumnTransformer :
  list (string * string * list string) -> external T Preprocessor.
Variable drop : Frame -> string -> external T Frame.
Variable frame_getitem : Frame -> string -> external T Column.
Variable train_test_split :
  Frame -> Column -> float -> Z -> external T (Frame * Frame * Column * Column).
Variable fit_transform : Preprocessor -> Frame -> external T Matrix.
Variable transform : Preprocessor -> Frame -> external T Matrix.
Variable unique : Column -> external T (list string).
Variable pd_DataFrame : Matrix -> list string -> external T Frame.
Variable pd_read_csv : string -> external T Frame.
Variable mlflow_set_tracking_uri : string -> external T unit.
Variable mlflow_set_experiment : string -> external T unit.
Variable mlflow_start_run : external T Run.
Variable mlflow_end_run : string -> external T unit.
Variable run_id : Run -> string.
Variable RandomForestRegressor : Z -> Z -> external T Model.
Variable mlflow_log_params : list (string * param) -> external T unit.
Variable fit : Model -> Frame -> Column -> external T unit.
Variable model_dot_predict_frame : Model -> Frame -> external T Predictions.
Variable mean_squared_error : Column -> Predictions -> external T float.
Variable mean_absolute_error : Column -> Predictions -> external T float.
Variable r2_score : Column -> Predictions -> external T float.
Variable mlflow_log_metrics : Metrics -> external T unit.
Variable feature_importance_table : Model -> Frame -> external T Frame.
Variable mlflow_sklearn_log_model : Model -> string -> string -> external T unit.
Variable repr_metrics : Metrics -> string.

Local Abbreviation the_preprocess_data :=
  (training_preprocess_data T Frame Column Matrix Preprocessor
     mlflow_log_param mlflow_sklearn_log_preprocessor to_json sha256_hexdigest
     len frame_columns fillna_mean ColumnTransformer drop frame_getitem
     train_test_split fit_transform transform unique pd_DataFrame).

Local Abbreviation the_load_data :=
  (training_load_data T Frame HEALTH_CLAIMS_FILE pd_read_csv).

Local Abbreviation the_evaluate_model :=
  (evaluate_model T Frame Column Model Predictions model_dot_predict_frame
     mean_squared_error mean_absolute_error r2_score).

Local Abbreviation the_train_model :=
  (train_model T Frame Column Matrix Preprocessor Model Run Predictions
     datetime_now MLFLOW_TRACKING_URI HEALTH_CLAIMS_FILE
     mlflow_log_param mlflow_sklearn_log_preprocessor to_json sha256_hexdigest
     len frame_columns fillna_mean ColumnTransformer drop frame_getitem
     train_test_split fit_transform transform unique pd_DataFrame pd_read_csv
     mlflow_set_tracking_uri mlflow_set_experiment mlflow_start_run
     mlflow_end_run run_id RandomForestRegressor mlflow_log_params fit
     model_dot_predict_frame mean_squared_error mean_absolute_error r2_score
     mlflow_log_metrics feature_importance_table mlflow_sklearn_log_model
     repr_metrics).

Lemma orderly_training_preprocess_data (df : Frame) (track_mlflow : bool) :
  orderly (the_preprocess_data df track_mlflow).
Proof.
  unfold training_preprocess_data, preprocess_data, preprocess_data_then,
    preprocess_data_lines_93_96, hash_data, create_preprocessing_pipeline.
  cbv beta zeta.
  repeat (orderly_step; cbv beta zeta).
Qed.

Lemma orderly_training_load_data : orderly the_load_data.
Proof.
  unfold training_load_data, load_data.
  apply orderly_try_except.
  - repeat (orderly_step; cbv beta zeta).
  - intros e. cbn [handle].
    destruct (is_FileNotFoundError e); [|cbn [is_Exception]]; apply orderly_raise.
Qed.

Lemma orderly_evaluate_model (model : Model) (X_test : Frame) (y_test : Column) :
  orderly (the_evaluate_model model X_test y_test).
Proof.
  unfold evaluate_model. repeat (orderly_step; cbv beta zeta).
Qed.

Ltac training_step :=
  first
    [ apply orderly_training_load_data
    | apply orderly_training_preprocess_data
    | apply orderly_evaluate_model
    | orderly_step ].

(** X23. Training, however it ends, has logged its start first and only INFO
    records after it, up to the outcome: it either returns a run id with the
    metrics, or raises an error [e] that it has logged once, last, at ERROR
    as ["Error in model training: " ++ str e]. It never ends without a
    value. *)
Theorem train_model_logs_every_failure (experiment_name : string)
  (w : world * T) :
  exists infos,
    Forall (fun r => levelname r = INFO) infos /\
    match the_train_model experiment_name w with
    | (Returned (Some _), w') =>
        log (fst w') =
        log (fst w) ++ info_record "Starting model training process" :: infos
    | (Raised e, w') =>
        log (fst w') =
        log (fst w) ++
        info_record "Starting model training process" ::
        infos ++ [error_record ("Error in model training: " ++ str e)]
    | _ => False
    end.
Proof.
  unfold train_model.
  match goal with
  | |- context [try_except ?b _] => set (body := b)
  end.
  assert (Hord : orderly body).
  { subst body. repeat (training_step; cbv beta zeta). }
  assert (Hex : forall w0, exits body w0).
  { intros w0. subst body.
    do 4 (apply exits_bind; intros; cbv beta zeta).
    apply exits_with_start_run. intros run w1.
    repeat first
      [ apply exits_return
      | apply exits_bind; intros; cbv beta zeta;
        repeat match goal with
               | |- context [match ?x with pair _ _ => _ end] => destruct x
               end ]. }
  unfold bind at 1. unfold on_world at 1. unfold logger_info at 1.
  unfold modify. cbn [fst snd].
  match goal with
  | |- context [try_except body _ ?w0] => set (w0' := w0)
  end.
  specialize (Hord w0'). specialize (Hex w0').
  unfold exits in Hex. unfold try_except.
  destruct (body w0') as [[a|[r|]|e] w1] eqn:E; cbn [fst snd] in *.
  - contradiction.
  - destruct Hord as [(infos & Hl & Hi) _]. exists infos. split; [exact Hi|].
    rewrite Hl. subst w0'. cbn [fst log emit]. rewrite <- app_assoc. reflexivity.
  - destruct Hord as [_ Hn]. now contradiction Hn.
  - destruct Hord as [(infos & Hl & Hi) _]. exists infos. split; [exact Hi|].
    cbn [handle is_Exception]. unfold bind, on_world, logger_error, modify, raise.
    cbn [fst snd log emit]. rewrite Hl. subst w0'. cbn [fst log emit].
    rewrite <- !app_assoc. reflexivity.
Qed.

(** X24. When the tracking server is set up and reading the data file fails with
    [e], training raises what the loader makes of [e] (for a missing file,
    ["Data file not found at " ++ path]), having logged its start, the
    loading step and that error, and no MLflow run is started: the library
    is left as the failed read left it. *)
Theorem train_model_unreadable_data (experiment_name : string)
  (w : world * T) (t1 t2 t3 : T) (e : exn) :
  mlflow_set_tracking_uri MLFLOW_TRACKING_URI (snd w) = (inr tt, t1) ->
  mlflow_set_experiment experiment_name t1 = (inr tt, t2) ->
  pd_read_csv HEALTH_CLAIMS_FILE t2 = (inl e, t3) ->
  the_train_model experiment_name w =
  (Raised (reported_load_error HEALTH_CLAIMS_FILE e),
   (emit (error_record
            ("Error in model training: " ++
             str (reported_load_error HEALTH_CLAIMS_FILE e)))
      (emit (info_record "Loading and preprocessing data")
         (emit (info_record "Starting model training process") (fst w))),
    t3)).
Proof.
  intros H1 H2 H3.
  unfold train_model, training_load_data, load_data, reported_load_error.
  unfold bind, try_except, call, library, ext, on_library, on_world,
    logger_info, logger_error, modify, raise, return_.
  cbn [fst snd]. rewrite H1. cbn [fst snd]. rewrite H2. cbn [fst snd].
  rewrite H3. cbn [fst snd handle].
  destruct (is_FileNotFoundError e); reflexivity.
Qed.


End TrainingProperties.

(** ** Preprocessing without tracking *)

Section PreprocessingProperties.

Variable W : Type.
Variables Frame Column Matrix Preprocessor : Type.
Variables mlflow_log_param mlflow_log_param' : string -> param -> external W unit.
Variables mlflow_sklearn_log_model mlflow_sklearn_log_model' :
  Preprocessor -> string -> external W unit.
Variables to_json to_json' : Frame -> external W string.
Variable sha256_hexdigest : string -> string.
Variable len : Frame -> Z.
Variable frame_columns : Frame -> list string.
Variable fillna_mean : Frame -> external W Frame.
Variable ColumnTransformer :
  list (string * string * list string) -> external W Preprocessor.
Variable drop : Frame -> string -> external W Frame.
Variable frame_getitem : Frame -> string -> external W Column.
Variable train_test_split :
  Frame -> Column -> float -> Z -> external W (Frame * Frame * Column * Column).
Variable fit_transform : Preprocessor -> Frame -> external W Matrix.
Variable transform : Preprocessor -> Frame -> external W Matrix.
Variable unique : Column -> external W (list string).
Variable pd_DataFrame : Matrix -> list string -> external W Frame.

(** X25. With [track_mlflow=False], preprocessing makes no MLflow call and does
    not hash the data: whatever [mlflow.log_param],
    [mlflow.sklearn.log_model] and [to_json] would do, the outcome and the
    state of the libraries are the same. The logging written after the
    [return] is part of that: it is never reached. *)
Theorem preprocess_data_untracked_makes_no_mlflow_call (df : Frame) (w : W) :
  preprocess_data W Frame Column Matrix Preprocessor
    mlflow_log_param mlflow_sklearn_log_model to_json sha256_hexdigest len
    frame_columns fillna_mean ColumnTransformer drop frame_getitem
    train_test_split fit_transform transform unique pd_DataFrame df false w =
  preprocess_data W Frame Column Matrix Preprocessor
    mlflow_log_param' mlflow_sklearn_log_model' to_json' sha256_hexdigest len
    frame_columns fillna_mean ColumnTransformer drop frame_getitem
    train_test_split fit_transform transform unique pd_DataFrame df false w.
Proof.
  unfold preprocess_data, preprocess_data_then.
  cbv beta zeta.
  repeat first
    [ apply bind_return_any
    | apply bind_ext; intros;
      repeat match goal with
             | |- context [match ?x with pair _ _ => _ end] => destruct x
             end ].
Qed.

End PreprocessingProperties.


(* ================================================================== *)
(** * Part VI. The further properties at sample inputs *)
(* ================================================================== *)

Lemma frame_without_gender_rejected :
  validate_input_data frame_without_gender (fresh_world None) =
    (Returned (Some false), inc_DATA_VALIDATION_ERRORS (fresh_world None)).
Proof.
  apply (validate_input_data_missing_column frame_without_gender "gender").
  - simpl. auto 10.
  - reflexivity.
Defined.

Lemma frame_with_text_ages_rejected :
  validate_input_data frame_with_text_ages (fresh_world None) =
    (Returned (Some false),
     inc_DATA_VALIDATION_ERRORS
       (emit {| logger_name := "root"; levelname := ERROR;
                msg := Text "Data validation error: '<=' not supported between instances of 'int' and 'str'" |}
          (fresh_world None))).
Proof.
  exact (validate_input_data_text_ages frame_with_text_ages "thirty" []
           (fresh_world None) eq_refl eq_refl).
Defined.

Lemma frame_without_rows_rejected :
  validate_input_data frame_without_rows (fresh_world None) =
    (Returned (Some false), inc_DATA_VALIDATION_ERRORS (fresh_world None)).
Proof.
  exact (validate_input_data_no_rows frame_without_rows (Int64Series [])
           (fresh_world None) eq_refl eq_refl eq_refl).
Defined.

Lemma two_row_frame_verdict :
  passes_validation two_row_frame = true <->
  minimum_within 0 100 [30; 150]%Z /\
  float_minimum_within 10 50 [25.5; 80]%float /\
  minimum_within 0 10 [1; 20]%Z.
Proof.
  exact (validate_input_data_verdict two_row_frame [30; 150]%Z [1; 20]%Z
           [25.5; 80]%float eq_refl eq_refl eq_refl eq_refl).
Defined.

Lemma sample_request_revalidated :
  validate_input_data (DataFrame_of_input (normalized sample_request))
    (fresh_world None) =
    (Returned (Some true), fresh_world None).
Proof.
  exact (revalidation_accepts_validated_request sample_request
           (normalized sample_request) (fresh_world None)
           (proj1 (in_ranges_parse sample_request) sample_request_in_ranges)).
Defined.

Lemma constant_randint_contract : randint_contract constant_randint.
Proof.
  intros lo hi n r H. unfold constant_randint. cbn [fst]. split.
  - apply repeat_length.
  - apply Forall_forall. intros x Hx. apply repeat_spec in Hx. lia.
Defined.

Lemma constant_choice_contract : choice_contract constant_choice.
Proof.
  intros options n r H. unfold constant_choice. cbn [fst]. split.
  - apply repeat_length.
  - apply Forall_forall. intros x Hx. apply repeat_spec in Hx. subst x.
    destruct options as [|o options]; [now contradiction H | now left].
Defined.

Lemma constant_normal_contract : normal_contract constant_normal.
Proof.
  intros loc scale n r Hl Hs. unfold constant_normal. cbn [fst]. split.
  - apply repeat_length.
  - apply Forall_forall. intros x Hx. apply repeat_spec in Hx. now subst x.
Defined.

Lemma constant_data_shape :
  exists data r',
    generate_synthetic_data unit constant_seed constant_randint constant_choice
      constant_normal no_rounding 3 42 tt = (Returned (Some data), r') /\
    columns data =
      ["age"; "gender"; "bmi"; "children"; "smoker"; "region"; "claim_amount"] /\
    forall col s, getitem data col = inr s -> series_length s = 3.
Proof.
  exact (generate_synthetic_data_shape unit constant_seed constant_randint
           constant_choice constant_normal no_rounding
           constant_randint_contract constant_choice_contract
           constant_normal_contract 3 42%Z tt tt eq_refl).
Defined.

Lemma constant_data_within_schema :
  exists data r' ages genders bmis kids regions,
    generate_synthetic_data unit constant_seed constant_randint constant_choice
      constant_normal no_rounding 3 42 tt = (Returned (Some data), r') /\
    getitem data "age" = inr (Int64Series ages) /\
    getitem data "gender" = inr (ObjectSeries genders) /\
    getitem data "bmi" = inr (Float64Series bmis) /\
    getitem data "children" = inr (Int64Series kids) /\
    getitem data "region" = inr (ObjectSeries regions) /\
    Forall (fun a => validate_age a = inr a) ages /\
    Forall (fun b => validate_bmi b = inr b) bmis /\
    Forall (fun c => validate_children c = inr c) kids /\
    Forall (fun x => validate_region x = inr x) regions /\
    Forall (fun g => validate_gender g = inr g) genders.
Proof.
  exact (generate_synthetic_data_within_schema unit constant_seed
           constant_randint constant_choice constant_normal no_rounding
           constant_randint_contract constant_choice_contract
           constant_normal_contract 3 42%Z tt tt eq_refl).
Defined.

Lemma constant_data_validates :
  exists data r',
    generate_synthetic_data unit constant_seed constant_randint constant_choice
      constant_normal no_rounding 3 42 tt = (Returned (Some data), r') /\
    passes_validation data = (0 <? 3)%nat.
Proof.
  exact (generate_synthetic_data_validates unit constant_seed constant_randint
           constant_choice constant_normal no_rounding
           constant_randint_contract constant_choice_contract
           constant_normal_contract 3 42%Z tt tt eq_refl).
Defined.

Lemma empty_model_answer_is_a_server_error :
  exists text w',
    post_predict sample_datetime sample_clock sample_clock sample_request
      (fresh_world (Some (Some empty_model))) =
      ({| status_code := 500; body := DetailJSON text |}, w') /\
    log w' = log (fresh_world (Some (Some empty_model))) ++
      [access_record (sample_datetime 2) "prediction_success";
       error_record ("Prediction error: " ++ text)] /\
    PREDICTION_LATENCY w' =
      PREDICTION_LATENCY (fresh_world (Some (Some empty_model))) ++
      [decorator_observation sample_clock (fresh_world (Some (Some empty_model)));
       endpoint_observation sample_clock (fresh_world (Some (Some empty_model)))].
Proof.
  exact (post_predict_empty_predictions sample_datetime sample_clock
           sample_clock sample_request (fresh_world (Some (Some empty_model)))
           (Some empty_model) sample_request_in_ranges eq_refl eq_refl).
Defined.

Lemma sample_startup_then_predict :
  exists w1 out w2,
    startup_event sample_datetime "http://localhost:5000" sample_registry
      (fresh_world None) = (Normal tt, w1) /\
    post_predict sample_datetime sample_clock sample_clock sample_request w1 =
      ({| status_code := 200; body := PredictionJSON out |}, w2) /\
    prediction out = 7000%float /\
    model_version out = "3".
Proof.
  exact (startup_then_predict sample_datetime sample_clock sample_clock
           "http://localhost:5000" sample_registry stub_model sample_request
           7000%float [] (fresh_world None)
           eq_refl sample_request_in_ranges eq_refl).
Defined.

Lemma unreachable_registry_fails_startup :
  exists w',
    startup_event sample_datetime "http://localhost:5000" unreachable_registry
      (fresh_world None) = (Raised boom, w') /\
    model w' = model (fresh_world None) /\
    ticks w' = ticks (fresh_world None) /\
    log w' = log (fresh_world None) ++
      [error_record ("Error loading production model: " ++ str boom);
       error_record ("Error loading model on startup: " ++ str boom)].
Proof.
  exact (startup_event_fails_when_registry_fails sample_datetime
           "http://localhost:5000" unreachable_registry boom
           (fresh_world None) eq_refl).
Defined.

Lemma shouted_region_parses_alike :
  parse_PredictionInput sample_request =
  parse_PredictionInput sample_request_shouted.
Proof.
  apply (parse_PredictionInput_ignores_case sample_request
           sample_request_shouted); try reflexivity;
    simpl; unfold same_letter; repeat split; auto 10.
Defined.

Lemma normalized_sample_request_parses_to_itself :
  parse_PredictionInput (normalized sample_request) =
  inr (normalized sample_request).
Proof.
  exact (parse_PredictionInput_idempotent sample_request
           (normalized sample_request)
           (proj1 (in_ranges_parse sample_request) sample_request_in_ranges)).
Defined.

Lemma three_faults_three_errors :
  let errors :=
    [("age", "Age must be between 0 and 100");
     ("bmi", "BMI must be between 10 and 50");
     ("region",
      "Region must be one of ['northeast', 'northwest', 'southeast', 'southwest']")] in
  let raw := request_with_three_faults in
  (In "age" (map fst errors) <-> ~ (0 <= age raw <= 100)%Z) /\
  (In "bmi" (map fst errors) <->
     ~ (PrimFloat.leb 10 (bmi raw) = true /\ PrimFloat.leb (bmi raw) 50 = true)) /\
  (In "children" (map fst errors) <-> ~ (0 <= children raw <= 10)%Z) /\
  (In "region" (map fst errors) <-> ~ in_enumeration (region raw) valid_regions) /\
  (In "gender" (map fst errors) <-> ~ in_enumeration (gender raw) valid_genders) /\
  (forall field, In field (map fst errors) ->
     In field ["age"; "bmi"; "children"; "region"; "gender"]).
Proof.
  exact (parse_PredictionInput_reports_every_violation
           request_with_three_faults _ eq_refl).
Defined.

Lemma training_without_the_data_file :
  sample_train_model "health_insurance_claims" (fresh_world None, []) =
  (Raised (reported_load_error "data/health_claims.csv" file_is_missing),
   (emit (error_record
            ("Error in model training: " ++
             str (reported_load_error "data/health_claims.csv" file_is_missing)))
      (emit (info_record "Loading and preprocessing data")
         (emit (info_record "Starting model training process")
            (fresh_world None))),
    ["set_tracking_uri"; "set_experiment"; "read_csv"])).
Proof.
  exact (train_model_unreadable_data (list string) unit unit unit unit unit
    unit unit
    sample_datetime "http://localhost:5000" "data/health_claims.csv"
    (fun _ _ => traced "log_param" tt)
    (fun _ _ => traced "log_preprocessor" tt)
    (fun _ => traced "to_json" "[]")
    (fun s => s)
    (fun _ => 0%Z)
    (fun _ => [])
    (fun _ => traced "fillna" tt)
    (fun _ => traced "ColumnTransformer" tt)
    (fun _ _ => traced "drop" tt)
    (fun _ _ => traced "getitem" tt)
    (fun _ _ _ _ => traced "train_test_split" (tt, tt, tt, tt))
    (fun _ _ => traced "fit_transform" tt)
    (fun _ _ => traced "transform" tt)
    (fun _ => traced "unique" [])
    (fun _ _ => traced "DataFrame" tt)
    missing_file
    (fun _ => traced "set_tracking_uri" tt)
    (fun _ => traced "set_experiment" tt)
    (traced "start_run" tt)
    (fun _ => traced "end_run" tt)
    (fun _ => "run-1")
    (fun _ _ => traced "RandomForestRegressor" tt)
    (fun _ => traced "log_params" tt)
    (fun _ _ _ => traced "fit" tt)
    (fun _ _ => traced "predict" tt)
    (fun _ _ => traced "mean_squared_error" 4%float)
    (fun _ _ => traced "mean_absolute_error" 1%float)
    (fun _ _ => traced "r2_score" 0.5%float)
    (fun _ => traced "log_metrics" tt)
    (fun _ _ => traced "feature_importances" tt)
    (fun _ _ _ => traced "log_model" tt)
    sample_metrics_text
    "health_insurance_claims" (fresh_world None, [])
    ["set_tracking_uri"] ["set_tracking_uri"; "set_experiment"]
    ["set_tracking_uri"; "set_experiment"; "read_csv"] file_is_missing
    eq_refl eq_refl eq_refl).
Defined.
